(** * Polymarket copy-trading bot: position normalisation, change detection
      and trade execution

    A shallow embedding of
    - [PolymarketClient.normalizePositions], [calculatePositionValue] and
      [calculateTotalValue] (src/api/polymarket-client.ts),
    - [AccountMonitor.getStatus], [updateStatus] and [detectChanges]
      (src/monitor/account-monitor.ts),
    - [TradeExecutor.executeBuy] and [executeSell]
      (src/trading/trade-executor.ts),
    - the classification step of [CopyTradingMonitor.handleStatusUpdate]
      (src/trading/copy-trading-monitor.ts),
    followed by the properties established about them.

    JavaScript numbers are IEEE 754 binary64 values and are modelled by Rocq's
    primitive [float]; the ECMAScript built-ins the code calls ([parseFloat],
    [Number.prototype.toFixed], [String], [Math.max], ...) are modelled in
    module [JS] following ECMA-262. *)

From Stdlib Require Import ZArith List String Ascii Bool Lia.
From Stdlib Require Import Floats.
From Stdlib Require QArith Qabs Qminmax.
Import ListNotations.
Local Open Scope string_scope.
Local Open Scope Z_scope.

(* ===================================================================== *)
(** * ECMAScript primitives                                               *)
(* ===================================================================== *)

Module JS.

(** ** Numbers *)

Definition number := float.

(** [roundQ n d]: the binary64 value nearest to the rational [n / d]
    (ties to even).  The quotient is computed with at least 64 significant
    bits and a sticky bit, then rounded once. *)
Definition roundQ (n : Z) (d : positive) : number :=
  match n with
  | Z0 => PrimFloat.zero
  | _ =>
      let a := Z.abs n in
      let k := Z.max 0 (66 + Z.log2 (Zpos d) - Z.log2 a) in
      let q := (a * 2 ^ k) / Zpos d in
      let r := (a * 2 ^ k) mod Zpos d in
      let m := 2 * q + (if r =? 0 then 0 else 1) in
      SF2Prim (binary_normalize prec emax (if n <? 0 then - m else m) (- k - 1) false)
  end.

(** Exact value of a finite number as sign, numerator and denominator. *)
Definition exactValue (x : number) : option (bool * Z * positive) :=
  match Prim2SF x with
  | S754_zero s => Some (s, 0, 1%positive)
  | S754_finite s m e =>
      match e with
      | Zneg p => Some (s, Zpos m, Pos.pow 2 p)
      | _ => Some (s, Zpos m * 2 ^ e, 1%positive)
      end
  | _ => None
  end.

(** Exact value of a finite number in units of 2^-1074, of which every
    finite binary64 value is an integer multiple. *)
Definition exactScaled (x : number) : option Z :=
  match Prim2SF x with
  | S754_zero _ => Some 0
  | S754_finite s m e => Some ((if s then Z.neg m else Z.pos m) * 2 ^ (e + 1074))
  | _ => None
  end.

(** The number 1 in units of 2^-1074. *)
Definition wholeUnit : Z := 2 ^ 1074.

Definition isNaN (x : number) : bool := PrimFloat.is_nan x.

Definition isNegZero (x : number) : bool :=
  PrimFloat.is_zero x && PrimFloat.get_sign x.

(** [Math.abs] *)
Definition abs (x : number) : number := PrimFloat.abs x.

(** [Math.max] with two arguments: NaN if either is NaN, and +0 is larger
    than -0. *)
Definition max (a b : number) : number :=
  if isNaN a || isNaN b then PrimFloat.nan
  else if PrimFloat.ltb a b then b
  else if PrimFloat.ltb b a then a
  else if isNegZero a then b else a.

(** ** Decimal digits *)

Definition digitChar (d : Z) : ascii := ascii_of_nat (48 + Z.to_nat d).

Definition digitOf (c : ascii) : option Z :=
  let n := Z.of_nat (nat_of_ascii c) in
  if (48 <=? n) && (n <=? 57) then Some (n - 48) else None.

Definition isDigit (c : ascii) : bool :=
  match digitOf c with Some _ => true | None => false end.

(** Decimal digits of a non-negative integer, most significant first, the
    integer 0 giving the empty string. *)
Fixpoint digitsFuel (fuel : nat) (n : Z) (acc : string) : string :=
  match fuel with
  | O => acc
  | S fuel' =>
      if n <=? 0 then acc
      else digitsFuel fuel' (n / 10) (String (digitChar (n mod 10)) acc)
  end.

Definition digits (n : Z) : string :=
  digitsFuel (S (Z.to_nat (Z.log2 n))) n "".

(** Decimal representation of a non-negative integer ("0" for zero). *)
Definition decimal (n : Z) : string :=
  if n <=? 0 then "0" else digits n.

Fixpoint zeros (n : nat) : string :=
  match n with
  | O => ""
  | S n' => String "0" (zeros n')
  end.

Fixpoint takeS (n : nat) (s : string) : string :=
  match n, s with
  | S n', String c r => String c (takeS n' r)
  | _, _ => ""
  end.

Fixpoint dropS (n : nat) (s : string) : string :=
  match n, s with
  | S n', String _ r => dropS n' r
  | _, _ => s
  end.

(** ** Number::toString (radix 10) *)

(** [scale10 a b p] is the rational [a/b * 10^p] as a pair. *)
Definition scale10 (a b p : Z) : Z * Z :=
  if 0 <=? p then (a * 10 ^ p, b) else (a, b * 10 ^ (- p)).

(** [10^n <= a/b] *)
Definition gePow10 (a b n : Z) : bool :=
  let '(c, d) := scale10 a b (- n) in d <=? c.

Fixpoint firstAbove (fuel : nat) (a b n : Z) : Z :=
  match fuel with
  | O => n
  | S f => if gePow10 a b n then firstAbove f a b (n + 1) else n
  end.

(** The integer [n] with [10^(n-1) <= a/b < 10^n], for [a, b > 0]. *)
Definition decimalExponent (a b : Z) : Z :=
  let est := ((Z.log2 a - Z.log2 b) * 30103) / 100000 in
  firstAbove 12 a b (est - 3).

(** Does the decimal [s * 10^(-p)] denote the number [x]? *)
Definition denotes (x : number) (s p : Z) : bool :=
  let '(n, d) := scale10 s 1 (- p) in
  PrimFloat.Leibniz.eqb (roundQ n (Z.to_pos d)) x.

(** Search for the shortest digit string [s] (with [k] digits) and exponent
    [n] such that [s * 10^(n-k)] denotes [x]; among the candidates of that
    length the one closest to [x] is taken, the even one on a tie. *)
Fixpoint shortest (fuel : nat) (x : number) (a b n k : Z) : Z * Z * Z :=
  let p := k - n in
  let '(sa, sb) := scale10 a b p in
  let lo := sa / sb in
  let hi := lo + 1 in
  let okLo := denotes x lo p in
  let okHi := denotes x hi p in
  (* distance of lo and hi to the scaled value, times sb *)
  let dLo := sa - lo * sb in
  let dHi := hi * sb - sa in
  let pick (s : Z) := if s =? 10 ^ k then (1, 1, n + 1) else (s, k, n) in
  match fuel with
  | O => (lo, k, n)
  | S f =>
      if okLo && okHi then
        (if dLo <? dHi then pick lo
         else if dHi <? dLo then pick hi
         else if Z.even lo then pick lo else pick hi)
      else if okLo then pick lo
      else if okHi then pick hi
      else shortest f x a b n (k + 1)
  end.

Definition signChar (neg : bool) : string := if neg then "-" else "+".

(** Layout of the digits [s] ([k] of them) with decimal exponent [n]. *)
Definition layout (s k n : Z) : string :=
  let ds := decimal s in
  if (k <=? n) && (n <=? 21) then ds ++ zeros (Z.to_nat (n - k))
  else if (0 <? n) && (n <=? 21) then
    takeS (Z.to_nat n) ds ++ "." ++ dropS (Z.to_nat n) ds
  else if (-6 <? n) && (n <=? 0) then "0." ++ zeros (Z.to_nat (- n)) ++ ds
  else if k =? 1 then ds ++ "e" ++ signChar (n - 1 <? 0) ++ decimal (Z.abs (n - 1))
  else takeS 1 ds ++ "." ++ dropS 1 ds ++ "e" ++ signChar (n - 1 <? 0)
         ++ decimal (Z.abs (n - 1)).

Definition numberToString (x : number) : string :=
  match Prim2SF x with
  | S754_nan => "NaN"
  | S754_zero _ => "0"
  | S754_infinity s => if s then "-Infinity" else "Infinity"
  | S754_finite sg _ _ =>
      match exactValue x with
      | Some (_, a, b) =>
          let n := decimalExponent a (Zpos b) in
          let '(s, k, n') := shortest 17 (PrimFloat.abs x) a (Zpos b) n 1 in
          (if sg then "-" else "") ++ layout s k n'
      | None => "NaN"
      end
  end.

(** ** Number.prototype.toFixed *)

(** Insert the decimal point before the last [f] characters of the digit
    string [m], padding with zeros on the left so that at least one digit
    precedes the point. *)
Definition pointed (m : string) (f : nat) : string :=
  match f with
  | O => m
  | _ =>
      let k := String.length m in
      let m' := if Nat.leb k f then zeros (S f - k) ++ m else m in
      let k' := String.length m' in
      takeS (k' - f) m' ++ "." ++ dropS (k' - f) m'
  end.

(** [x.toFixed(f)]: non-finite numbers and magnitudes of at least 10^21 are
    rendered by [numberToString]; otherwise the integer [n] nearest to
    [x * 10^f] (the larger one on a tie) is written with [f] fraction
    digits. *)
Definition toFixed (x : number) (f : nat) : string :=
  match exactValue x with
  | None => numberToString x
  | Some (sg, a, b) =>
      if 10 ^ 21 * Zpos b <=? a then numberToString x
      else
        let n := (2 * a * 10 ^ Z.of_nat f + Zpos b) / (2 * Zpos b) in
        (if sg && (0 <? a) then "-" else "") ++ pointed (decimal n) f
  end.

(** ** Reading numeric literals *)

(** Strings hold the UTF-8 encoding of the JavaScript string.  White space
    and line terminators are TAB, LF, VT, FF, CR and SP in one byte,
    U+00A0 in two, and U+1680, U+2000 to U+200A, U+2028, U+2029, U+202F,
    U+205F, U+3000 and U+FEFF in three. *)
Definition isWhite (c : ascii) : bool :=
  let n := nat_of_ascii c in
  (Nat.leb 9 n && Nat.leb n 13) || Nat.eqb n 32.

Definition isWhite2 (c1 c2 : ascii) : bool :=
  Nat.eqb (nat_of_ascii c1) 194 && Nat.eqb (nat_of_ascii c2) 160.

Definition isWhite3 (c1 c2 c3 : ascii) : bool :=
  let n1 := nat_of_ascii c1 in
  let n2 := nat_of_ascii c2 in
  let n3 := nat_of_ascii c3 in
  (Nat.eqb n1 225 && Nat.eqb n2 154 && Nat.eqb n3 128)
  || (Nat.eqb n1 226 && Nat.eqb n2 128
      && ((Nat.leb 128 n3 && Nat.leb n3 138)
          || Nat.eqb n3 168 || Nat.eqb n3 169 || Nat.eqb n3 175))
  || (Nat.eqb n1 226 && Nat.eqb n2 129 && Nat.eqb n3 159)
  || (Nat.eqb n1 227 && Nat.eqb n2 128 && Nat.eqb n3 128)
  || (Nat.eqb n1 239 && Nat.eqb n2 187 && Nat.eqb n3 191).

Fixpoint trimStart (s : string) : string :=
  match s with
  | String c1 r1 =>
      if isWhite c1 then trimStart r1
      else
        match r1 with
        | String c2 r2 =>
            if isWhite2 c1 c2 then trimStart r2
            else
              match r2 with
              | String c3 r3 => if isWhite3 c1 c2 c3 then trimStart r3 else s
              | EmptyString => s
              end
        | EmptyString => s
        end
  | EmptyString => s
  end.

Fixpoint allWhite (s : string) : bool :=
  match s with
  | String c1 r1 =>
      if isWhite c1 then allWhite r1
      else
        match r1 with
        | String c2 r2 =>
            if isWhite2 c1 c2 then allWhite r2
            else
              match r2 with
              | String c3 r3 => isWhite3 c1 c2 c3 && allWhite r3
              | EmptyString => false
              end
        | EmptyString => false
        end
  | EmptyString => true
  end.

(** Read a run of decimal digits, accumulating onto [acc]; returns the
    value, the number of digits read and the rest. *)
Fixpoint readDigits (s : string) (acc cnt : Z) : Z * Z * string :=
  match s with
  | String c r =>
      match digitOf c with
      | Some d => readDigits r (10 * acc + d) (cnt + 1)
      | None => (acc, cnt, s)
      end
  | EmptyString => (acc, cnt, s)
  end.

Variant literal := LitInfinity | LitDecimal (mant exp10 : Z).

(** ExponentPart, taken only when at least one digit follows. *)
Definition readExponent (s : string) : Z * string :=
  match s with
  | String c r =>
      if Ascii.eqb c "e" || Ascii.eqb c "E" then
        let '(neg, r1) :=
          match r with
          | String "+" r' => (false, r')
          | String "-" r' => (true, r')
          | _ => (false, r)
          end in
        let '(v, cnt, r2) := readDigits r1 0 0 in
        if 0 <? cnt then (if neg then - v else v, r2) else (0, s)
      else (0, s)
  | EmptyString => (0, s)
  end.

(** Longest prefix that is a StrUnsignedDecimalLiteral. *)
Definition readUnsigned (s : string) : option (literal * string) :=
  if String.prefix "Infinity" s then Some (LitInfinity, dropS 8 s)
  else
    let '(ip, ni, r1) := readDigits s 0 0 in
    let '(m, nf, r2) :=
      match r1 with
      | String "." r' => readDigits r' ip 0
      | _ => (ip, 0, r1)
      end in
    if (ni =? 0) && (nf =? 0) then None
    else let '(e, r3) := readExponent r2 in Some (LitDecimal m (e - nf), r3).

(** Longest prefix that is a StrDecimalLiteral (optional sign). *)
Definition readSigned (s : string) : option (bool * literal * string) :=
  let '(neg, r) :=
    match s with
    | String "+" r' => (false, r')
    | String "-" r' => (true, r')
    | _ => (false, s)
    end in
  match readUnsigned r with
  | Some (l, rest) => Some (neg, l, rest)
  | None => None
  end.

Definition literalValue (neg : bool) (l : literal) : number :=
  match l with
  | LitInfinity => if neg then PrimFloat.neg_infinity else PrimFloat.infinity
  | LitDecimal m e =>
      if m =? 0 then (if neg then PrimFloat.neg_zero else PrimFloat.zero)
      else if 400 <? e then (if neg then PrimFloat.neg_infinity else PrimFloat.infinity)
      else if e + Z.log2 m <? -1200 then (if neg then PrimFloat.neg_zero else PrimFloat.zero)
      else
        let '(n, d) := scale10 m 1 e in
        roundQ (if neg then - n else n) (Z.to_pos d)
  end.

(** The global [parseFloat] applied to a string: leading white space is
    skipped, the longest numeric prefix is read, anything after it is
    ignored; NaN when there is no such prefix. *)
Definition parseFloat (s : string) : number :=
  match readSigned (trimStart s) with
  | Some (neg, l, _) => literalValue neg l
  | None => PrimFloat.nan
  end.

Definition hexDigitOf (c : ascii) : option Z :=
  let n := Z.of_nat (nat_of_ascii c) in
  if (48 <=? n) && (n <=? 57) then Some (n - 48)
  else if (97 <=? n) && (n <=? 102) then Some (n - 87)
  else if (65 <=? n) && (n <=? 70) then Some (n - 55)
  else None.

Fixpoint readRadix (radix : Z) (s : string) (acc cnt : Z) : Z * Z * string :=
  match s with
  | String c r =>
      match hexDigitOf c with
      | Some d => if d <? radix then readRadix radix r (radix * acc + d) (cnt + 1)
                  else (acc, cnt, s)
      | None => (acc, cnt, s)
      end
  | EmptyString => (acc, cnt, s)
  end.

Definition radixOfPrefix (s : string) : option (Z * string) :=
  match s with
  | String "0" (String c r) =>
      if Ascii.eqb c "x" || Ascii.eqb c "X" then Some (16, r)
      else if Ascii.eqb c "o" || Ascii.eqb c "O" then Some (8, r)
      else if Ascii.eqb c "b" || Ascii.eqb c "B" then Some (2, r)
      else None
  | _ => None
  end.

(** StringToNumber: the whole string, white space trimmed, must be a
    numeric literal; the empty string is +0. *)
Definition stringToNumber (s : string) : number :=
  let t := trimStart s in
  match t with
  | EmptyString => PrimFloat.zero
  | _ =>
      match radixOfPrefix t with
      | Some (radix, r) =>
          let '(v, cnt, rest) := readRadix radix r 0 0 in
          if (0 <? cnt) && allWhite rest then roundQ v 1 else PrimFloat.nan
      | None =>
          match readSigned t with
          | Some (neg, l, rest) =>
              if allWhite rest then literalValue neg l else PrimFloat.nan
          | None => PrimFloat.nan
          end
      end
  end.

(** ** Dynamically typed values (the scalars a JSON record can hold) *)

Variant value :=
  | VUndefined
  | VNull
  | VBool (b : bool)
  | VNumber (x : number)
  | VString (s : string).

(** ToBoolean *)
Definition truthy (v : value) : bool :=
  match v with
  | VUndefined | VNull => false
  | VBool b => b
  | VNumber x => negb (isNaN x || PrimFloat.is_zero x)
  | VString s => negb (String.eqb s "")
  end.

(** [a || b] *)
Definition orElse (a b : value) : value := if truthy a then a else b.

(** [String(v)] *)
Definition toString (v : value) : string :=
  match v with
  | VUndefined => "undefined"
  | VNull => "null"
  | VBool b => if b then "true" else "false"
  | VNumber x => numberToString x
  | VString s => s
  end.

(** ToNumber *)
Definition toNumber (v : value) : number :=
  match v with
  | VUndefined => PrimFloat.nan
  | VNull => PrimFloat.zero
  | VBool b => if b then PrimFloat.one else PrimFloat.zero
  | VNumber x => x
  | VString s => stringToNumber s
  end.

(** [parseFloat(v)]: the argument is converted to a string first. *)
Definition parseFloatOf (v : value) : number := parseFloat (toString v).

(** [v > 0] for the number literal 0. *)
Definition gtZero (v : value) : bool := PrimFloat.ltb PrimFloat.zero (toNumber v).

(** [v !== 0] for the number literal 0. *)
Definition strictNeqZero (v : value) : bool :=
  match v with
  | VNumber x => negb (PrimFloat.is_zero x)
  | _ => true
  end.

(** [v !== undefined && v !== null] *)
Definition present (v : value) : bool :=
  match v with
  | VUndefined | VNull => false
  | _ => true
  end.

End JS.

Abbreviation number := JS.number.

(** Arithmetic and comparisons of JavaScript numbers, written as in the
    source: [a > b] is [b < a]. *)
Definition gt (a b : number) : bool := PrimFloat.ltb b a.
Definition lt (a b : number) : bool := PrimFloat.ltb a b.

(** The literal [0.01]. *)
Definition onePercent : number := Eval vm_compute in JS.roundQ 1 100.

(** [s || dflt] on strings: the empty string is falsy. *)
Definition strOr (s dflt : string) : string :=
  if String.eqb s "" then dflt else s.

(** [s || dflt] on an optional string: [undefined] is falsy too. *)
Definition optOr (s : option string) (dflt : string) : string :=
  match s with
  | Some x => strOr x dflt
  | None => dflt
  end.

(** [x ?? dflt] *)
Definition nullish {A} (x : option A) (dflt : A) : A :=
  match x with
  | Some a => a
  | None => dflt
  end.

(* ===================================================================== *)
(** * Types (src/types/index.ts)                                          *)
(* ===================================================================== *)

Module Market.
Record t := {
  id : string;
  question : string;
  slug : string;
  description : option string;
  endDate : option string;
  image : option string;
  icon : option string;
  resolutionSource : option string;
  tags : option (list string);
  liquidity : option number;
  volume : option number;
  active : option bool
}.
End Market.

Module Position.
Record t := {
  id : string;
  market : Market.t;
  outcome : string;
  quantity : string;
  price : string;
  value : string;
  initialValue : option string;
  timestamp : string
}.
End Position.

Variant TradeSide := buy | sell.

Module Trade.
Record t := {
  id : string;
  market : Market.t;
  outcome : string;
  side : TradeSide;
  quantity : string;
  price : string;
  timestamp : string;
  transactionHash : option string;
  user : string
}.
End Trade.

Module UserPositions.
Record t := {
  user : string;
  positions : list Position.t;
  totalValue : string;
  timestamp : string
}.
End UserPositions.

Module TradingStatus.
Record t := {
  user : string;
  totalPositions : nat;
  totalValue : string;
  recentTrades : list Trade.t;
  openPositions : list Position.t;
  lastUpdated : string
}.
End TradingStatus.

Module TradeExecutionResult.
Record t := {
  success : bool;
  position : Position.t;
  orderId : option string;
  transactionHash : option string;
  executedQuantity : option string;
  executedPrice : option string;
  error : option string;
  dryRun : bool
}.
End TradeExecutionResult.

Module CopyTradingStatus.
Record t := {
  enabled : bool;
  dryRun : bool;
  totalTradesExecuted : nat;
  totalTradesFailed : nat;
  totalVolume : string;
  lastTradeTime : option string
}.
End CopyTradingStatus.

(** Thrown values are [Error] objects; only their [message] is read. *)
Record JsError := { message : string }.

(** How a call completes: with a value, or by throwing. *)
Variant completion (A : Type) :=
  | Normal (a : A)
  | Throw (e : JsError).
Arguments Normal {A} a.
Arguments Throw {A} e.

(* ===================================================================== *)
(** * State and exceptions                                                *)
(* ===================================================================== *)

(** Computations that read and update a state [S] and may throw; [await]ed
    calls run to completion in sequence. *)
Module Eff.
Definition M (S A : Type) : Type := S -> S * completion A.

Definition ret {S A} (a : A) : M S A := fun s => (s, Normal a).

Definition bind {S A B} (c : M S A) (k : A -> M S B) : M S B :=
  fun s =>
    match c s with
    | (s', Normal a) => k a s'
    | (s', Throw e) => (s', Throw e)
    end.

Definition throw {S A} (e : JsError) : M S A := fun s => (s, Throw e).

(** [try { c } catch (e) { h e }] *)
Definition tryCatch {S A} (c : M S A) (h : JsError -> M S A) : M S A :=
  fun s =>
    match c s with
    | (s', Normal a) => (s', Normal a)
    | (s', Throw e) => h e s'
    end.

(** [Promise.allSettled([c])]: the completion of [c] as a value. *)
Definition settled {S A} (c : M S A) : M S (completion A) :=
  fun s => let '(s', r) := c s in (s', Normal r).

Definition gets {S A} (f : S -> A) : M S A := fun s => (s, Normal (f s)).

Definition modify {S} (f : S -> S) : M S unit := fun s => (f s, Normal tt).

Definition when {S} (b : bool) (c : M S unit) : M S unit :=
  if b then c else ret tt.

(** [for (const x of l) { body x }], and [l.forEach(body)]: the loop stops
    at the first iteration that throws. *)
Fixpoint forEach {S A} (l : list A) (body : A -> M S unit) : M S unit :=
  match l with
  | [] => ret tt
  | x :: rest => bind (body x) (fun _ => forEach rest body)
  end.
End Eff.

Declare Scope eff_scope.
Delimit Scope eff_scope with eff.
Notation "x <- c ;; k" := (Eff.bind c (fun x => k))
  (at level 61, c at next level, right associativity) : eff_scope.
Notation "c ;; k" := (Eff.bind c (fun _ => k))
  (at level 61, right associativity) : eff_scope.

(** * [Map] with string keys

    Entries are kept in insertion order; setting an existing key replaces
    its value in place. *)
Module JsMap.
Definition t (A : Type) := list (string * A).

Fixpoint set {A} (k : string) (v : A) (m : t A) : t A :=
  match m with
  | [] => [(k, v)]
  | (k', v') :: r => if String.eqb k' k then (k', v) :: r else (k', v') :: set k v r
  end.

Fixpoint get {A} (k : string) (m : t A) : option A :=
  match m with
  | [] => None
  | (k', v') :: r => if String.eqb k' k then Some v' else get k r
  end.

Definition has {A} (k : string) (m : t A) : bool :=
  match get k m with Some _ => true | None => false end.

(** [set] for each entry in turn. *)
Definition setAll {A} (entries : list (string * A)) (m : t A) : t A :=
  fold_left (fun m e => set (fst e) (snd e) m) entries m.

(** [new Map(entries)] *)
Definition fromEntries {A} (entries : list (string * A)) : t A :=
  setAll entries [].

Definition keys {A} (m : t A) : list string := map fst m.
End JsMap.

(** * [Set] of strings

    Members are kept in insertion order. *)
Module JsSet.
Definition t := list string.

Definition has (k : string) (s : t) : bool := existsb (String.eqb k) s.

Definition add (k : string) (s : t) : t := if has k s then s else (s ++ [k])%list.

Definition delete (k : string) (s : t) : t :=
  filter (fun x => negb (String.eqb x k)) s.
End JsSet.

(* ===================================================================== *)
(** * The HTTP client (axios)                                             *)
(* ===================================================================== *)

Module Http.

(** The query parameters of the requests for positions; a parameter that
    is not sent is [None]. *)
Record Params := {
  user : option string;
  active : bool;
  limit : Z;
  offset : Z;
  page : option Z
}.

Record Request := { url : string; params : Params }.

(** What a rejected request, or a failed read in the client, throws:
    [error.message] and [error.response?.status], the latter only when the
    server answered. *)
Record Failure := { failureMessage : string; status : option Z }.

(** [error.response?.status === 404] *)
Definition notFound (error : Failure) : bool :=
  match status error with
  | Some code => code =? 404
  | None => false
  end.

(** An element of a positions array as the client reads it: the fields of
    an object, each holding a scalar.  An element that is itself a number,
    a string, a boolean or an array has none of the fields that are read,
    and is the empty list. *)
Definition Item := list (string * JS.value).

(** [item.name] *)
Definition field (item : Item) (name : string) : JS.value :=
  match find (fun entry => String.eqb (fst entry) name) item with
  | Some entry => snd entry
  | None => JS.VUndefined
  end.

(** A response body ([response.data]): a scalar, an array whose [null]
    elements are [None], or an object. *)
#[warnings="-register-all"]
Inductive Payload :=
  | Scalar (v : JS.value)
  | Items (elements : list (option Item))
  | Object (fields : list (string * Payload)).

(** ToBoolean *)
Definition truthy (p : Payload) : bool :=
  match p with
  | Scalar v => JS.truthy v
  | Items _ | Object _ => true
  end.

(** [a || b] *)
Definition orElse (a b : Payload) : Payload := if truthy a then a else b.

(** [data.name]; [None] where the read throws a TypeError, which is on
    [null] and [undefined]. *)
Definition property (data : Payload) (name : string) : option Payload :=
  match data with
  | Scalar JS.VUndefined | Scalar JS.VNull => None
  | Scalar _ | Items _ => Some (Scalar JS.VUndefined)
  | Object fields =>
      match find (fun entry => String.eqb (fst entry) name) fields with
      | Some entry => Some (snd entry)
      | None => Some (Scalar JS.VUndefined)
      end
  end.

(** [data?.name] *)
Definition optionalProperty (data : Payload) (name : string) : Payload :=
  match property data name with
  | Some p => p
  | None => Scalar JS.VUndefined
  end.

(** [data.positions || data?.data || data || []]; [None] where it throws
    the TypeError. *)
Definition pagePositions (data : Payload) : option Payload :=
  match property data "positions" with
  | Some positions =>
      Some (orElse positions (orElse (optionalProperty data "data") (orElse data (Items []))))
  | None => None
  end.

(** [Array.isArray(p) ? p : []] *)
Definition arrayOr (p : Payload) : list (option Item) :=
  match p with
  | Items elements => elements
  | _ => []
  end.

(** Computations of the client: they act on a state and complete with a
    value or by throwing a [Failure]. *)
Definition M (S A : Type) : Type := S -> S * (A + Failure).

Definition ret {S A} (a : A) : M S A := fun s => (s, inl a).

Definition bind {S A B} (c : M S A) (k : A -> M S B) : M S B :=
  fun s =>
    match c s with
    | (s', inl a) => k a s'
    | (s', inr e) => (s', inr e)
    end.

Definition throw {S A} (e : Failure) : M S A := fun s => (s, inr e).

(** [try { c } catch (e) { h e }] *)
Definition tryCatch {S A} (c : M S A) (h : Failure -> M S A) : M S A :=
  fun s =>
    match c s with
    | (s', inl a) => (s', inl a)
    | (s', inr e) => h e s'
    end.

(** A step that cannot throw. *)
Definition lift {S A} (f : S -> S * A) : M S A :=
  fun s => let '(s', a) := f s in (s', inl a).

(** [l.map(f)], left to right, up to the first element on which [f]
    throws. *)
Fixpoint mapM {S A B} (f : A -> M S B) (l : list A) : M S (list B) :=
  match l with
  | [] => ret []
  | x :: rest =>
      bind (f x) (fun y => bind (mapM f rest) (fun ys => ret (y :: ys)))
  end.
End Http.

Declare Scope http_scope.
Delimit Scope http_scope with http.
Notation "x <- c ;; k" := (Http.bind c (fun x => k))
  (at level 61, c at next level, right associativity) : http_scope.

(** The objects [normalizePositions] builds.  Where the source hands a
    field of the payload on as it is, the field holds whatever scalar the
    payload had: a string only if the API sent one. *)
Module NormalizedMarket.
Record t := {
  id : JS.value;
  question : JS.value;
  slug : JS.value;
  description : JS.value;
  endDate : JS.value;
  image : JS.value;
  icon : JS.value;
  resolutionSource : JS.value;
  tags : list JS.value;
  liquidity : option number;
  volume : option number;
  active : bool
}.
End NormalizedMarket.

Module NormalizedPosition.
Record t := {
  id : JS.value;
  market : NormalizedMarket.t;
  outcome : JS.value;
  quantity : string;
  price : string;
  value : string;
  initialValue : option string;
  timestamp : JS.value
}.
End NormalizedPosition.

(** What [getUserPositions] resolves to. *)
Module FetchedPositions.
Record t := {
  user : string;
  positions : list NormalizedPosition.t;
  totalValue : string;
  timestamp : string
}.
End FetchedPositions.

(* ===================================================================== *)
(** * PolymarketClient (src/api/polymarket-client.ts)                     *)
(* ===================================================================== *)

(** The numeric fields of an upstream position record ([item: any]) that
    [normalizePositions] and [calculatePositionValue] read. *)
Module RawPosition.
Record t := {
  size : JS.value;
  quantity : JS.value;
  curPrice : JS.value;
  currentPrice : JS.value;
  avgPrice : JS.value;
  price : JS.value;
  lastPrice : JS.value;
  currentValue : JS.value;
  initialValue : JS.value
}.

End RawPosition.

Module PolymarketClient.
Import RawPosition.

(** [calculatePositionValue] *)
Definition calculatePositionValue (item : RawPosition.t) : string :=
  let quantity :=
    JS.parseFloatOf (JS.orElse (quantity item) (JS.orElse (size item) (JS.VString "0"))) in
  let price :=
    JS.parseFloatOf (JS.orElse (price item) (JS.orElse (lastPrice item) (JS.VString "0"))) in
  let value := PrimFloat.mul quantity price in
  if JS.isNaN value then "0" else JS.toFixed value 6.

(** [const size], [const curPrice], [const avgPrice] of
    [normalizePositions]. *)
Definition sizeOf (item : RawPosition.t) : number :=
  JS.parseFloatOf (JS.orElse (size item) (JS.orElse (quantity item) (JS.VString "0"))).

Definition curPriceOf (item : RawPosition.t) : number :=
  JS.parseFloatOf (JS.orElse (curPrice item) (JS.orElse (currentPrice item) (JS.VString "0"))).

Definition avgPriceOf (item : RawPosition.t) : number :=
  JS.parseFloatOf (JS.orElse (avgPrice item) (JS.orElse (price item) (JS.VString "0"))).

(** The [value] field [normalizePositions] gives a position
    ([let currentValue]). *)
Definition normalizedValue (item : RawPosition.t) : string :=
  let size := sizeOf item in
  let curPrice := curPriceOf item in
  let avgPrice := avgPriceOf item in
  if JS.present (currentValue item) && JS.strictNeqZero (currentValue item) then
    JS.toString (currentValue item)
  else if gt curPrice PrimFloat.zero && gt size PrimFloat.zero then
    JS.numberToString (PrimFloat.mul size curPrice)
  else if JS.present (initialValue item) && JS.gtZero (initialValue item) then
    JS.toString (initialValue item)
  else if gt avgPrice PrimFloat.zero && gt size PrimFloat.zero then
    JS.numberToString (PrimFloat.mul size avgPrice)
  else
    calculatePositionValue item.

(** The [price] field ([displayPrice]). *)
Definition normalizedPrice (item : RawPosition.t) : string :=
  let curPrice := curPriceOf item in
  let avgPrice := avgPriceOf item in
  if gt curPrice PrimFloat.zero then JS.numberToString curPrice
  else if gt avgPrice PrimFloat.zero then JS.numberToString avgPrice
  else "0".

(** The [quantity] field. *)
Definition normalizedQuantity (item : RawPosition.t) : string :=
  JS.toString (JS.orElse (size item) (JS.orElse (quantity item) (JS.VString "0"))).

(** The [initialValue] field. *)
Definition normalizedInitialValue (item : RawPosition.t) : option string :=
  if JS.present (initialValue item) then Some (JS.toString (initialValue item))
  else if gt (avgPriceOf item) PrimFloat.zero && gt (sizeOf item) PrimFloat.zero
       then Some (JS.numberToString (PrimFloat.mul (sizeOf item) (avgPriceOf item)))
       else None.

(** [calculateTotalValue] *)
Definition calculateTotalValue (positions : list Position.t) : string :=
  let total :=
    fold_left
      (fun sum pos =>
         let value := JS.parseFloat (strOr (Position.value pos) "0") in
         PrimFloat.add sum (if JS.isNaN value then PrimFloat.zero else value))
      positions PrimFloat.zero in
  JS.toFixed total 6.

(** The object [getUserPositions] returns once the positions have been
    fetched and normalised. *)
Definition userPositionsOf (userAddress : string)
    (normalizedPositions : list Position.t) (now : string) : UserPositions.t :=
  {| UserPositions.user := userAddress;
     UserPositions.positions := normalizedPositions;
     UserPositions.totalValue := calculateTotalValue normalizedPositions;
     UserPositions.timestamp := now |}.

(** [calculateTotalValue] as it reads the positions: by their [value]. *)
Definition totalOfValues (values : list string) : string :=
  let total :=
    fold_left
      (fun sum value =>
         let value := JS.parseFloat (strOr value "0") in
         PrimFloat.add sum (if JS.isNaN value then PrimFloat.zero else value))
      values PrimFloat.zero in
  JS.toFixed total 6.

(** [normalizeMarket], on [data] that is an object whose fields hold
    scalars ([None]: [data] is falsy or not an object).  No such field is
    an array, so that [tags] is empty. *)
Definition normalizeMarket (data : option Http.Item) : NormalizedMarket.t :=
  match data with
  | None =>
      {| NormalizedMarket.id := JS.VString "";
         NormalizedMarket.question := JS.VString "Unknown Market";
         NormalizedMarket.slug := JS.VString "";
         NormalizedMarket.description := JS.VUndefined;
         NormalizedMarket.endDate := JS.VUndefined;
         NormalizedMarket.image := JS.VUndefined;
         NormalizedMarket.icon := JS.VUndefined;
         NormalizedMarket.resolutionSource := JS.VUndefined;
         NormalizedMarket.tags := [];
         NormalizedMarket.liquidity := None;
         NormalizedMarket.volume := None;
         NormalizedMarket.active := true |}
  | Some data =>
      let get := Http.field data in
      {| NormalizedMarket.id :=
           JS.orElse (get "id") (JS.orElse (get "marketId")
             (JS.orElse (get "market_id") (JS.orElse (get "conditionId") (JS.VString ""))));
         NormalizedMarket.question :=
           JS.orElse (get "question") (JS.orElse (get "title")
             (JS.orElse (get "name") (JS.VString "Unknown Market")));
         NormalizedMarket.slug :=
           JS.orElse (get "slug") (JS.orElse (get "slug_id") (JS.VString ""));
         NormalizedMarket.description := JS.orElse (get "description") (get "desc");
         NormalizedMarket.endDate :=
           JS.orElse (get "endDate") (JS.orElse (get "endDateISO") (get "end_date"));
         NormalizedMarket.image :=
           JS.orElse (get "image") (JS.orElse (get "imageUrl") (get "image_url"));
         NormalizedMarket.icon := get "icon";
         NormalizedMarket.resolutionSource :=
           JS.orElse (get "resolutionSource") (get "resolution_source");
         NormalizedMarket.tags := [];
         NormalizedMarket.liquidity :=
           if JS.truthy (get "liquidity")
           then Some (JS.parseFloat (JS.toString (get "liquidity"))) else None;
         NormalizedMarket.volume :=
           if JS.truthy (get "volume")
           then Some (JS.parseFloat (JS.toString (get "volume"))) else None;
         NormalizedMarket.active :=
           match get "active" with
           | JS.VUndefined => true
           | v => JS.truthy v
           end |}
  end.

(** [const marketData] of [normalizePositions]. *)
Definition marketDataOf (item : Http.Item) : Http.Item :=
  let get := Http.field item in
  [("id", JS.orElse (get "conditionId") (JS.orElse (get "market_id")
            (JS.orElse (get "marketId") (JS.VString ""))));
   ("question", JS.orElse (get "title") (JS.orElse (get "question") (JS.VString "")));
   ("slug", JS.orElse (get "slug") (JS.VString ""));
   ("icon", JS.orElse (get "icon") (JS.VString ""));
   ("eventSlug", JS.orElse (get "eventSlug") (JS.VString ""));
   ("endDate", JS.orElse (get "endDate") (JS.VString ""))].

(** The numeric fields of an element. *)
Definition rawOf (item : Http.Item) : RawPosition.t :=
  {| size := Http.field item "size";
     quantity := Http.field item "quantity";
     curPrice := Http.field item "curPrice";
     currentPrice := Http.field item "currentPrice";
     avgPrice := Http.field item "avgPrice";
     price := Http.field item "price";
     lastPrice := Http.field item "lastPrice";
     currentValue := Http.field item "currentValue";
     initialValue := Http.field item "initialValue" |}.

(** The object [normalizePositions] returns for [item], given its
    [timestamp]. *)
Definition normalized (item : Http.Item) (timestamp : JS.value) : NormalizedPosition.t :=
  {| NormalizedPosition.id :=
       JS.orElse (Http.field item "asset") (JS.orElse (Http.field item "id")
         (JS.orElse (Http.field item "positionId") (JS.VString "")));
     NormalizedPosition.market := normalizeMarket (Some (marketDataOf item));
     NormalizedPosition.outcome :=
       JS.orElse (Http.field item "outcome")
         (JS.orElse (Http.field item "outcomeToken") (JS.VString ""));
     NormalizedPosition.quantity := normalizedQuantity (rawOf item);
     NormalizedPosition.price := normalizedPrice (rawOf item);
     NormalizedPosition.value := normalizedValue (rawOf item);
     NormalizedPosition.initialValue := normalizedInitialValue (rawOf item);
     NormalizedPosition.timestamp := timestamp |}.

(** [limit] *)
Definition pageLimit : Z := 100.

(** The query parameters of the requests for page [page]. *)
Definition pageParams (user : option string) (page : Z) : Http.Params :=
  {| Http.user := user;
     Http.active := true;
     Http.limit := pageLimit;
     Http.offset := page * pageLimit;
     Http.page := if 0 <? page then Some page else None |}.

(** The request of the first loop of [getUserPositions] for page [page],
    and the one of the second. *)
Definition primaryRequest (userAddress : string) (page : Z) : Http.Request :=
  {| Http.url := "/users/" ++ userAddress ++ "/positions";
     Http.params := pageParams None page |}.

Definition alternativeRequest (userAddress : string) (page : Z) : Http.Request :=
  {| Http.url := "/positions";
     Http.params := pageParams (Some userAddress) page |}.

Section Fetching.
Context {World : Type}.

(** [this.client.get], resolved to [response.data] or rejected. *)
Variable get : Http.Request -> World -> World * (Http.Payload + Http.Failure).

(** [new Date().toISOString()]: a reading of the clock. *)
Variable now : World -> World * string.

(** [new Date(ms).toISOString()]; [None] where it throws a RangeError,
    which is when [ms] is no valid time value. *)
Variable dateToISOString : number -> option string.

(** The messages of the engine's errors: of the TypeError on reading a
    property of [null] or [undefined], and of that RangeError. *)
Variable typeErrorMessage : Http.Payload -> string -> string.
Variable rangeErrorMessage : string.

(** The world, and the requests sent so far (kept to state which requests
    a call sends). *)
Record State := {
  world : World;
  requests : list Http.Request
}.

Definition httpGet (request : Http.Request) : Http.M State Http.Payload :=
  fun s =>
    let '(w, response) := get request (world s) in
    ({| world := w; requests := (requests s ++ [request])%list |}, response).

Definition readClock (s : State) : State * string :=
  let '(w, text) := now (world s) in
  ({| world := w; requests := requests s |}, text).

Definition newDateToISOString : Http.M State string := Http.lift readClock.

(** [const pagePositions] *)
Definition pagePositionsOf (data : Http.Payload) : Http.M State Http.Payload :=
  match Http.pagePositions data with
  | Some pagePositions => Http.ret pagePositions
  | None =>
      Http.throw {| Http.failureMessage := typeErrorMessage data "positions";
                    Http.status := None |}
  end.

(** The [while (hasMore && page < 10)] loops of [getUserPositions], which
    differ in the request only; [remaining] is [10 - page].  The result is
    [allPositions] when the loop ends.  The lines the first loop writes to
    the console when [DEBUG] is set are left out. *)
Fixpoint pages (request : Z -> Http.Request) (remaining : nat) (page : Z)
    (allPositions : list (option Http.Item)) : Http.M State Http.Payload :=
  match remaining with
  | O => Http.ret (Http.Items allPositions)
  | S remaining' =>
      (data <- httpGet (request page) ;;
       pagePositions <- pagePositionsOf data ;;
       match pagePositions with
       | Http.Items elements =>
           let allPositions := (allPositions ++ elements)%list in
           if Z.of_nat (List.length elements) <? pageLimit
           then Http.ret (Http.Items allPositions)
           else pages request remaining' (page + 1) allPositions
       | notAnArray => Http.ret notAnArray
       end)%http
  end.

(** The [timestamp] of a normalised position. *)
Definition timestampOf (item : Http.Item) : Http.M State JS.value :=
  let timestamp := Http.field item "timestamp" in
  if JS.truthy timestamp then
    match timestamp with
    | JS.VNumber seconds =>
        match dateToISOString (PrimFloat.mul seconds 1000%float) with
        | Some text => Http.ret (JS.VString text)
        | None =>
            Http.throw {| Http.failureMessage := rangeErrorMessage; Http.status := None |}
        end
    | _ => Http.ret timestamp
    end
  else (text <- newDateToISOString ;; Http.ret (JS.VString text))%http.

(** The body of the [map] of [normalizePositions]. *)
Definition normalizePosition (item : Http.Item) : Http.M State NormalizedPosition.t :=
  (timestamp <- timestampOf item ;;
   Http.ret (normalized item timestamp))%http.

(** [data.filter(item => item != null)] *)
Definition notNull (data : list (option Http.Item)) : list Http.Item :=
  flat_map (fun element => match element with Some item => [item] | None => [] end) data.

(** [normalizePositions] *)
Definition normalizePositions (data : list (option Http.Item))
  : Http.M State (list NormalizedPosition.t) :=
  Http.mapM normalizePosition (notNull data).

(** The object returned where the API has no positions for the user. *)
Definition noPositions (userAddress : string) (s : State) : State * FetchedPositions.t :=
  let '(s', timestamp) := readClock s in
  (s', {| FetchedPositions.user := userAddress;
          FetchedPositions.positions := [];
          FetchedPositions.totalValue := "0";
          FetchedPositions.timestamp := timestamp |}).

(** [catch (primaryError)] of [getUserPositions]: it yields [positions],
    or the object its own handler returns. *)
Definition alternative (userAddress : string) (primaryError : Http.Failure)
  : Http.M State (Http.Payload + FetchedPositions.t) :=
  Http.tryCatch
    (allPositions <- pages (alternativeRequest userAddress) 10 0 [] ;;
     Http.ret (inl allPositions))%http
    (fun altError =>
       if Http.notFound primaryError || Http.notFound altError
       then (returned <- Http.lift (noPositions userAddress) ;;
             Http.ret (inr returned))%http
       else Http.throw primaryError).

(** The inner [try] of [getUserPositions] with its handlers. *)
Definition fetchPositions (userAddress : string)
  : Http.M State (Http.Payload + FetchedPositions.t) :=
  Http.tryCatch
    (allPositions <- pages (primaryRequest userAddress) 10 0 [] ;;
     Http.ret (inl allPositions))%http
    (alternative userAddress).

(** What follows the inner [try]: the positions are normalised and
    summed. *)
Definition answer (userAddress : string) (positions : Http.Payload)
  : Http.M State FetchedPositions.t :=
  (let positionsArray := Http.arrayOr positions in
   normalizedPositions <- normalizePositions positionsArray ;;
   timestamp <- newDateToISOString ;;
   Http.ret
     {| FetchedPositions.user := userAddress;
        FetchedPositions.positions := normalizedPositions;
        FetchedPositions.totalValue :=
          totalOfValues (map NormalizedPosition.value normalizedPositions);
        FetchedPositions.timestamp := timestamp |})%http.

(** The outer [catch] of [getUserPositions]. *)
Definition orReject (c : Http.M State FetchedPositions.t) (userAddress : string)
  : Eff.M State FetchedPositions.t :=
  fun s =>
    match c s with
    | (s', inl returned) => (s', Normal returned)
    | (s', inr error) =>
        if Http.notFound error
        then let '(s'', returned) := noPositions userAddress s' in (s'', Normal returned)
        else
          (s', Throw {| message := "Failed to fetch user positions: "
                                   ++ Http.failureMessage error |})
    end.

(** [getUserPositions] *)
Definition getUserPositions (userAddress : string) : Eff.M State FetchedPositions.t :=
  orReject
    (fetched <- fetchPositions userAddress ;;
     match fetched with
     | inl positions => answer userAddress positions
     | inr returned => Http.ret returned
     end)%http
    userAddress.
End Fetching.
End PolymarketClient.

(* ===================================================================== *)
(** * AccountMonitor (src/monitor/account-monitor.ts)                     *)
(* ===================================================================== *)

(** The [MonitorOptions] interface as the caller fills it in; the poll
    interval is a whole number of milliseconds. *)
Module MonitorInput.
Record t (World : Type) := {
  targetAddress : string;
  pollInterval : option Z;
  enableWebSocket : option bool;
  onUpdate : option (TradingStatus.t -> World -> World * completion unit);
  onError : option (JsError -> World -> World * completion unit)
}.
Arguments targetAddress {World} _.
Arguments pollInterval {World} _.
Arguments enableWebSocket {World} _.
Arguments onUpdate {World} _.
Arguments onError {World} _.
End MonitorInput.

Module AccountMonitor.
Import TradingStatus.

(** [Math.abs(currentQty - lastQty) > Math.max(1, lastQty * 0.01)] *)
Definition quantityChanged (currentQty lastQty : number) : bool :=
  gt (JS.abs (PrimFloat.sub currentQty lastQty))
     (JS.max PrimFloat.one (PrimFloat.mul lastQty onePercent)).

(** [Math.abs(currentValue - lastValue) / Math.max(lastValue, 0.01) > 0.01] *)
Definition totalValueChanged (currentValue lastValue : number) : bool :=
  gt (PrimFloat.div (JS.abs (PrimFloat.sub currentValue lastValue))
                    (JS.max lastValue onePercent))
     onePercent.

(** The exits of [detectChanges] that return [true] after a [[DEBUG]]
    console line, with what the line reports. *)
Variant Reason :=
  | CountChanged (lastCount currentCount : nat)
  | NewPositionId (id : string)
  | QuantityChanged (id : string) (lastQty currentQty : number)
  | PositionRemoved (id : string)
  | TotalValueChanged (lastValue currentValue : number).

Variant Detection :=
  | FirstStatus              (* no [lastStatus]: [return true] *)
  | Changed (why : Reason)   (* a check fired: [return true] *)
  | Unchanged.               (* [return false] *)

Definition positionsMap (positions : list Position.t) : JsMap.t Position.t :=
  JsMap.fromEntries (map (fun p => (Position.id p, p)) positions).

(** [for (const [id, currentPos] of currentPositionsMap)] *)
Fixpoint scanCurrent (lastPositionsMap : JsMap.t Position.t)
    (entries : list (string * Position.t)) : option Reason :=
  match entries with
  | [] => None
  | (id, currentPos) :: rest =>
      match JsMap.get id lastPositionsMap with
      | None => Some (NewPositionId id)
      | Some lastPos =>
          let currentQty := JS.parseFloat (Position.quantity currentPos) in
          let lastQty := JS.parseFloat (Position.quantity lastPos) in
          if quantityChanged currentQty lastQty
          then Some (QuantityChanged id lastQty currentQty)
          else scanCurrent lastPositionsMap rest
      end
  end.

(** [for (const id of lastPositionsMap.keys())] *)
Fixpoint scanLast (currentPositionsMap : JsMap.t Position.t)
    (ids : list string) : option Reason :=
  match ids with
  | [] => None
  | id :: rest =>
      if negb (JsMap.has id currentPositionsMap) then Some (PositionRemoved id)
      else scanLast currentPositionsMap rest
  end.

(** [detectChanges], with the exit taken. *)
Definition detection (lastStatus : option TradingStatus.t)
    (status : TradingStatus.t) : Detection :=
  match lastStatus with
  | None => FirstStatus
  | Some last =>
      if negb (Nat.eqb (List.length (openPositions status)) (List.length (openPositions last)))
      then Changed (CountChanged (List.length (openPositions last))
                                 (List.length (openPositions status)))
      else
        let currentPositionsMap := positionsMap (openPositions status) in
        let lastPositionsMap := positionsMap (openPositions last) in
        match scanCurrent lastPositionsMap currentPositionsMap with
        | Some why => Changed why
        | None =>
            match scanLast currentPositionsMap (JsMap.keys lastPositionsMap) with
            | Some why => Changed why
            | None =>
                let lastValue := JS.parseFloat (totalValue last) in
                let currentValue := JS.parseFloat (totalValue status) in
                if totalValueChanged currentValue lastValue
                then Changed (TotalValueChanged lastValue currentValue)
                else Unchanged
            end
        end
  end.

(** [detectChanges]: the boolean returned. *)
Definition detectChanges (lastStatus : option TradingStatus.t)
    (status : TradingStatus.t) : bool :=
  match detection lastStatus status with
  | Unchanged => false
  | _ => true
  end.

(** ** What [updateStatus] logs about a change *)

Record UpdatedPosition := {
  position : Position.t;
  oldQty : string;
  newQty : string
}.

Definition sameId (p q : Position.t) : bool :=
  String.eqb (Position.id p) (Position.id q).

(** [const newPositions] *)
Definition newPositions (last status : TradingStatus.t) : list Position.t :=
  filter (fun p => negb (existsb (fun lp => sameId lp p) (openPositions last)))
         (openPositions status).

(** [const removedPositions] *)
Definition removedPositions (last status : TradingStatus.t) : list Position.t :=
  filter (fun lp => negb (existsb (fun p => sameId p lp) (openPositions status)))
         (openPositions last).

(** [const updatedPositions], filled by the [forEach] *)
Definition updatedPositions (last status : TradingStatus.t) : list UpdatedPosition :=
  flat_map
    (fun currentPos =>
       match find (fun lp => sameId lp currentPos) (openPositions last) with
       | Some lastPos =>
           let currentQty := JS.parseFloat (Position.quantity currentPos) in
           let lastQty := JS.parseFloat (Position.quantity lastPos) in
           if quantityChanged currentQty lastQty
           then [ {| position := currentPos;
                     oldQty := Position.quantity lastPos;
                     newQty := Position.quantity currentPos |} ]
           else []
       | None => []
       end)
    (openPositions status).

(** The lists computed in the [if (this.lastStatus && hasChanges)] block
    and written to the console. *)
Record ChangeReport := {
  added : list Position.t;
  updated : list UpdatedPosition;
  removed : list Position.t;
  countChange : option (nat * nat)
}.

Definition changeReport (last status : TradingStatus.t) : ChangeReport :=
  {| added := newPositions last status;
     updated := updatedPositions last status;
     removed := removedPositions last status;
     countChange :=
       if negb (Nat.eqb (List.length (openPositions status)) (List.length (openPositions last)))
       then Some (List.length (openPositions last), List.length (openPositions status))
       else None |}.

(** ** The monitor object and its environment *)

(** The timer [setInterval] returns, known by its delay. *)
Variant Timer := Interval (delay : Z).

Variant Event :=
  | WarnFetchFailed (msg : string)
  | DebugLine (why : Reason)
  | LogPolling (found : nat)
  | LogChanges (report : ChangeReport)
  | LogErrorDuringUpdate (msg : string)
  | LogAlreadyRunning
  | LogStarting (address : string)
  | LogPollingInterval (delay : Z)
  | LogStarted
  | LogWebSocketFallback
  | LogStopped
  | CallSetInterval (delay : Z)
  | CallClearInterval (timer : Timer)
  | CallOnUpdate (status : TradingStatus.t)
  | CallOnError (error : JsError).

Section Monitor.
Context {World : Type}.

(** [Required<MonitorOptions>]; the callbacks act on the world and may
    throw. *)
Record MonitorOptions := {
  pollInterval : Z;
  enableWebSocket : bool;
  onUpdate : TradingStatus.t -> World -> World * completion unit;
  onError : JsError -> World -> World * completion unit;
  targetAddress : string
}.

(** What the monitor calls outside itself: the client and the clock. *)
Record Environment := {
  getUserPositions : string -> World -> World * completion UserPositions.t;
  toISOString : World -> string;   (* [new Date().toISOString()] *)
  dateNow : World -> Z             (* [Date.now()] *)
}.

Record State := {
  isMonitoring : bool;
  lastStatus : option TradingStatus.t;
  lastPollTime : option Z;
  pollIntervalId : option Timer;
  world : World;
  events : list Event
}.

Variable env : Environment.
Variable options : MonitorOptions.

Local Open Scope eff_scope.

Definition emit (e : Event) : Eff.M State unit :=
  Eff.modify (fun s =>
    {| isMonitoring := isMonitoring s; lastStatus := lastStatus s;
       lastPollTime := lastPollTime s; pollIntervalId := pollIntervalId s;
       world := world s; events := events s ++ [e] |}).

(** Run a call of the environment on the world. *)
Definition call {A} (f : World -> World * completion A) : Eff.M State A :=
  fun s =>
    let '(w, r) := f (world s) in
    ({| isMonitoring := isMonitoring s; lastStatus := lastStatus s;
        lastPollTime := lastPollTime s; pollIntervalId := pollIntervalId s;
        world := w; events := events s |}, r).

Definition callOnUpdate (status : TradingStatus.t) : Eff.M State unit :=
  emit (CallOnUpdate status) ;; call (onUpdate options status).

Definition callOnError (error : JsError) : Eff.M State unit :=
  emit (CallOnError error) ;; call (onError options error).

Definition setLastStatus (status : TradingStatus.t) : Eff.M State unit :=
  Eff.modify (fun s =>
    {| isMonitoring := isMonitoring s; lastStatus := Some status;
       lastPollTime := lastPollTime s; pollIntervalId := pollIntervalId s;
       world := world s; events := events s |}).

Definition setLastPollTime (now : Z) : Eff.M State unit :=
  Eff.modify (fun s =>
    {| isMonitoring := isMonitoring s; lastStatus := lastStatus s;
       lastPollTime := Some now; pollIntervalId := pollIntervalId s;
       world := world s; events := events s |}).

Definition setIsMonitoring (b : bool) : Eff.M State unit :=
  Eff.modify (fun s =>
    {| isMonitoring := b; lastStatus := lastStatus s;
       lastPollTime := lastPollTime s; pollIntervalId := pollIntervalId s;
       world := world s; events := events s |}).

Definition setPollIntervalId (timer : option Timer) : Eff.M State unit :=
  Eff.modify (fun s =>
    {| isMonitoring := isMonitoring s; lastStatus := lastStatus s;
       lastPollTime := lastPollTime s; pollIntervalId := timer;
       world := world s; events := events s |}).

(** [getStatus] *)
Definition getStatus : Eff.M State TradingStatus.t :=
  Eff.tryCatch
    (positionsResult <-
       Eff.settled (call (getUserPositions env (targetAddress options))) ;;
     now <- Eff.gets (fun s => toISOString env (world s)) ;;
     let positions :=
       match positionsResult with
       | Normal value => value
       | Throw _ =>
           {| UserPositions.user := targetAddress options;
              UserPositions.positions := [];
              UserPositions.totalValue := "0";
              UserPositions.timestamp := now |}
       end in
     match positionsResult with
     | Throw reason => emit (WarnFetchFailed (strOr (message reason) "Unknown error"))
     | Normal _ => Eff.ret tt
     end ;;
     Eff.ret
       {| user := targetAddress options;
          totalPositions := List.length (UserPositions.positions positions);
          totalValue := UserPositions.totalValue positions;
          recentTrades := [];
          openPositions := UserPositions.positions positions;
          lastUpdated := now |})
    (fun error => callOnError error ;; Eff.throw error).

(** [!this.lastPollTime || (now - this.lastPollTime) > 10000] *)
Definition pollLogDue (last : option Z) (now : Z) : bool :=
  match last with
  | None => true
  | Some t => (t =? 0) || (10000 <? now - t)
  end.

(** The [try] block of [updateStatus] once [getStatus] has returned
    [status]. *)
Definition applyStatus (status : TradingStatus.t) : Eff.M State unit :=
  last <- Eff.gets lastStatus ;;
  match detection last status with
  | Changed why => emit (DebugLine why)
  | _ => Eff.ret tt
  end ;;
  let hasChanges := detectChanges last status in
  now <- Eff.gets (fun s => dateNow env (world s)) ;;
  lastPoll <- Eff.gets lastPollTime ;;
  Eff.when (pollLogDue lastPoll now)
    (emit (LogPolling (List.length (openPositions status))) ;; setLastPollTime now) ;;
  Eff.when (hasChanges || match last with None => true | Some _ => false end)
    (match last with
     | Some lastSeen =>
         Eff.when hasChanges (emit (LogChanges (changeReport lastSeen status)))
     | None => Eff.ret tt
     end ;;
     setLastStatus status ;;
     callOnUpdate status).

(** [updateStatus]: one poll tick. *)
Definition updateStatus : Eff.M State unit :=
  Eff.tryCatch
    (status <- getStatus ;; applyStatus status)
    (fun error =>
       emit (LogErrorDuringUpdate (message error)) ;;
       callOnError error).

(** [start]: the first tick, then the interval timer is set; the later
    ticks are the calls of [updateStatus] that timer makes. *)
Definition start : Eff.M State unit :=
  running <- Eff.gets isMonitoring ;;
  if running then emit LogAlreadyRunning
  else
    setIsMonitoring true ;;
    emit (LogStarting (targetAddress options)) ;;
    emit (LogPollingInterval (pollInterval options)) ;;
    updateStatus ;;
    emit (CallSetInterval (pollInterval options)) ;;
    setPollIntervalId (Some (Interval (pollInterval options))) ;;
    emit LogStarted ;;
    Eff.when (enableWebSocket options) (emit LogWebSocketFallback).

(** [stop] *)
Definition stop : Eff.M State unit :=
  running <- Eff.gets isMonitoring ;;
  Eff.when running
    (setIsMonitoring false ;;
     timer <- Eff.gets pollIntervalId ;;
     match timer with
     | Some t => emit (CallClearInterval t) ;; setPollIntervalId None
     | None => Eff.ret tt
     end ;;
     emit LogStopped).
End Monitor.

Arguments MonitorOptions World : clear implicits.
Arguments Environment World : clear implicits.
Arguments State World : clear implicits.

(** The [this.options] object the constructor builds: [||] replaces what
    is left out, and a poll interval of 0 as well. *)
Definition requiredOptions {World : Type} (options : MonitorInput.t World)
  : MonitorOptions World :=
  {| pollInterval :=
       match MonitorInput.pollInterval options with
       | Some n => if n =? 0 then 30000 else n
       | None => 30000
       end;
     enableWebSocket :=
       match MonitorInput.enableWebSocket options with
       | Some b => b
       | None => false
       end;
     onUpdate := nullish (MonitorInput.onUpdate options) (fun _ w => (w, Normal tt));
     onError := nullish (MonitorInput.onError options) (fun _ w => (w, Normal tt));
     targetAddress := MonitorInput.targetAddress options |}.

(** The constructor: the options, unless the target address is empty. *)
Definition construct {World : Type} (options : MonitorInput.t World)
  : completion (MonitorOptions World) :=
  if String.eqb (targetAddress (requiredOptions options)) ""
  then Throw {| message := "Target address is required" |}
  else Normal (requiredOptions options).

(** The monitor as the constructor leaves it. *)
Definition initialState {World : Type} (w : World) : State World :=
  {| isMonitoring := false; lastStatus := None; lastPollTime := None;
     pollIntervalId := None; world := w; events := [] |}.
End AccountMonitor.

(* ===================================================================== *)
(** * TradeExecutor (src/trading/trade-executor.ts)                       *)
(* ===================================================================== *)

(** The [CopyTradingConfig] interface as the caller fills it in: every
    field but [enabled] and [privateKey] may be left out. *)
Module CopyTradingInput.
Record t (World : Type) := {
  enabled : bool;
  privateKey : string;
  dryRun : option bool;
  positionSizeMultiplier : option number;
  maxPositionSize : option number;
  maxTradeSize : option number;
  slippageTolerance : option number;
  minTradeSize : option number;
  chainId : option Z;
  clobHost : option string;
  onTradeExecuted : option (TradeExecutionResult.t -> World -> World * completion unit);
  onTradeError : option (JsError -> Position.t -> World -> World * completion unit)
}.
Arguments enabled {World} _.
Arguments privateKey {World} _.
Arguments dryRun {World} _.
Arguments positionSizeMultiplier {World} _.
Arguments maxPositionSize {World} _.
Arguments maxTradeSize {World} _.
Arguments slippageTolerance {World} _.
Arguments minTradeSize {World} _.
Arguments chainId {World} _.
Arguments clobHost {World} _.
Arguments onTradeExecuted {World} _.
Arguments onTradeError {World} _.
End CopyTradingInput.

Module TradeExecutor.
Import TradeExecutionResult.

Variant Side := BUY | SELL.
Variant OrderType := GTC.

(** The argument of [client.createAndPostOrder]. *)
Record Order := {
  tokenID : string;
  price : number;
  size : number;
  side : Side;
  orderType : OrderType
}.

Record OrderResponse := { orderID : option string }.

Variant Event :=
  | CallOnTradeExecuted (result : TradeExecutionResult.t)
  | CallOnTradeError (error : JsError) (position : Position.t)
  | CallCreateOrDeriveApiKey
  | CallCreateAndPostOrder (order : Order).

(** The [result] object with its [error] set. *)
Definition withError (r : TradeExecutionResult.t) (errorMsg : string)
  : TradeExecutionResult.t :=
  {| success := success r; position := position r; orderId := orderId r;
     transactionHash := transactionHash r;
     executedQuantity := executedQuantity r; executedPrice := executedPrice r;
     error := Some errorMsg; dryRun := dryRun r |}.

(** The [result] object marked successful, with the order identifier and
    the executed quantity and price set. *)
Definition withExecution (r : TradeExecutionResult.t) (id : option string)
    (q p : string) : TradeExecutionResult.t :=
  {| success := true; position := position r; orderId := id;
     transactionHash := transactionHash r;
     executedQuantity := Some q; executedPrice := Some p;
     error := error r; dryRun := dryRun r |}.

Section Executor.
Context {World : Type}.

(** [Required<CopyTradingConfig>]; the callbacks act on the world and
    may throw. *)
Record CopyTradingConfig := {
  enabled : bool;
  privateKey : string;
  dryRun : bool;
  positionSizeMultiplier : number;
  maxPositionSize : number;
  maxTradeSize : number;
  slippageTolerance : number;
  minTradeSize : number;
  chainId : Z;
  clobHost : string;
  onTradeExecuted : TradeExecutionResult.t -> World -> World * completion unit;
  onTradeError : JsError -> Position.t -> World -> World * completion unit
}.

(** The order gateway ([ClobClient]). *)
Record ClobClient := {
  createOrDeriveApiKey : World -> World * completion unit;
  createAndPostOrder : Order -> World -> World * completion OrderResponse
}.

(** The executor object, the world and the calls made so far. *)
Record State := {
  apiKeyCreated : bool;
  world : World;
  events : list Event
}.

(** A running [executeBuy] or [executeSell]: the executor and the local
    [result] object. *)
Record Frame := {
  self : State;
  result : TradeExecutionResult.t
}.

Variable client : ClobClient.
Variable config : CopyTradingConfig.

Local Open Scope eff_scope.

Definition onSelf (f : State -> State) : Eff.M Frame unit :=
  Eff.modify (fun fr => {| self := f (self fr); result := result fr |}).

Definition onResult (f : TradeExecutionResult.t -> TradeExecutionResult.t)
  : Eff.M Frame unit :=
  Eff.modify (fun fr => {| self := self fr; result := f (result fr) |}).

Definition emit (e : Event) : Eff.M Frame unit :=
  onSelf (fun s =>
    {| apiKeyCreated := apiKeyCreated s; world := world s;
       events := events s ++ [e] |}).

Definition call {A} (f : World -> World * completion A) : Eff.M Frame A :=
  fun fr =>
    let s := self fr in
    let '(w, r) := f (world s) in
    ({| self := {| apiKeyCreated := apiKeyCreated s; world := w; events := events s |};
        result := result fr |}, r).

Definition callOnTradeError (error : JsError) (position : Position.t)
  : Eff.M Frame unit :=
  emit (CallOnTradeError error position) ;; call (onTradeError config error position).

(** [this.config.onTradeExecuted(result)] *)
Definition callOnTradeExecuted : Eff.M Frame unit :=
  r <- Eff.gets result ;;
  emit (CallOnTradeExecuted r) ;; call (onTradeExecuted config r).

(** [result.error = errorMsg] *)
Definition setError (errorMsg : string) : Eff.M Frame unit :=
  onResult (fun r => withError r errorMsg).

(** [result.success = true; result.orderId = id;
     result.executedQuantity = q; result.executedPrice = p] *)
Definition setExecuted (id : option string) (q p : string) : Eff.M Frame unit :=
  onResult (fun r => withExecution r id q p).

(** [initialize] *)
Definition initialize : Eff.M Frame unit :=
  if dryRun config then Eff.ret tt
  else
    Eff.tryCatch
      (emit CallCreateOrDeriveApiKey ;;
       call (createOrDeriveApiKey client) ;;
       onSelf (fun s =>
         {| apiKeyCreated := true; world := world s; events := events s |}))
      (fun error =>
         Eff.throw
           {| message := "Failed to initialize trade executor: " ++ message error |}).

(** [initialize] as its callers outside the class see it: there is no
    [result] object then. *)
Definition initializeExecutor : Eff.M State unit :=
  if dryRun config then Eff.ret tt
  else
    Eff.tryCatch
      (Eff.modify (fun s =>
         {| apiKeyCreated := apiKeyCreated s; world := world s;
            events := events s ++ [CallCreateOrDeriveApiKey] |}) ;;
       (fun s =>
          let '(w, r) := createOrDeriveApiKey client (world s) in
          ({| apiKeyCreated := apiKeyCreated s; world := w; events := events s |}, r)) ;;
       Eff.modify (fun s =>
         {| apiKeyCreated := true; world := world s; events := events s |}))
      (fun error =>
         Eff.throw
           {| message := "Failed to initialize trade executor: " ++ message error |}).

(** [if (!this.apiKeyCreated) { await this.initialize(); }] *)
Definition ensureApiKey : Eff.M Frame unit :=
  created <- Eff.gets (fun fr => apiKeyCreated (self fr)) ;;
  Eff.when (negb created) initialize.

Definition postOrder (order : Order) : Eff.M Frame OrderResponse :=
  emit (CallCreateAndPostOrder order) ;; call (createAndPostOrder client order).

(** [result.error = errorMsg; this.config.onTradeError(new Error(errorMsg),
     position); return result;] *)
Definition reject (errorMsg : string) (position : Position.t) : Eff.M Frame unit :=
  setError errorMsg ;; callOnTradeError {| message := errorMsg |} position.

(** The [try] block of [executeBuy]; every [return result] returns the
    frame's [result]. *)
Definition executeBuyTry (position : Position.t) : Eff.M Frame unit :=
  let tokenId := Position.id position in
  if String.eqb tokenId "" then
    Eff.throw {| message := "Position ID (token ID) is missing" |}
  else
    let baseQuantity := JS.parseFloat (Position.quantity position) in
    let tradeQuantity := PrimFloat.mul baseQuantity (positionSizeMultiplier config) in
    let tradePrice := JS.parseFloat (Position.price position) in
    let tradeValue := PrimFloat.mul tradeQuantity tradePrice in
    if lt tradeValue (minTradeSize config) then
      reject ("Trade size $" ++ JS.toFixed tradeValue 2 ++ " is below minimum $"
                ++ JS.numberToString (minTradeSize config)) position
    else if gt tradeValue (maxTradeSize config) then
      reject ("Trade size $" ++ JS.toFixed tradeValue 2 ++ " exceeds maximum $"
                ++ JS.numberToString (maxTradeSize config)) position
    else
      let positionValue :=
        PrimFloat.mul (JS.parseFloat (strOr (Position.value position) "0"))
                      (positionSizeMultiplier config) in
      if gt positionValue (maxPositionSize config) then
        reject ("Position size $" ++ JS.toFixed positionValue 2 ++ " exceeds maximum $"
                  ++ JS.numberToString (maxPositionSize config)) position
      else if dryRun config then
        setExecuted None (JS.toFixed tradeQuantity 4) (JS.toFixed tradePrice 4) ;;
        callOnTradeExecuted
      else
        ensureApiKey ;;
        orderResponse <-
          postOrder {| tokenID := tokenId; price := tradePrice; size := tradeQuantity;
                       side := BUY; orderType := GTC |} ;;
        setExecuted (orderID orderResponse)
                    (JS.toFixed tradeQuantity 4) (JS.toFixed tradePrice 4) ;;
        callOnTradeExecuted.

(** The [try] block of [executeSell]. *)
Definition executeSellTry (position : Position.t) : Eff.M Frame unit :=
  let tokenId := Position.id position in
  if String.eqb tokenId "" then
    Eff.throw {| message := "Position ID (token ID) is missing" |}
  else
    let baseQuantity := JS.parseFloat (Position.quantity position) in
    let tradeQuantity := PrimFloat.mul baseQuantity (positionSizeMultiplier config) in
    let tradePrice := JS.parseFloat (Position.price position) in
    if dryRun config then
      setExecuted None (JS.toFixed tradeQuantity 4) (JS.toFixed tradePrice 4) ;;
      callOnTradeExecuted
    else
      ensureApiKey ;;
      orderResponse <-
        postOrder {| tokenID := tokenId; price := tradePrice; size := tradeQuantity;
                     side := SELL; orderType := GTC |} ;;
      setExecuted (orderID orderResponse)
                  (JS.toFixed tradeQuantity 4) (JS.toFixed tradePrice 4) ;;
      callOnTradeExecuted.

(** The [catch (error)] block of both functions. *)
Definition catchBlock (position : Position.t) (error : JsError) : Eff.M Frame unit :=
  let errorMsg := strOr (message error) "Unknown error" in
  setError errorMsg ;;
  callOnTradeError error position.

(** [const result = { success: false, position, dryRun: this.config.dryRun }] *)
Definition initialResult (position : Position.t) : TradeExecutionResult.t :=
  {| success := false; position := position; orderId := None;
     transactionHash := None; executedQuantity := None; executedPrice := None;
     error := None; TradeExecutionResult.dryRun := dryRun config |}.

(** Run a [try]/[catch] on a fresh [result] and return that object. *)
Definition returningResult (position : Position.t)
    (tryBlock : Eff.M Frame unit) : Eff.M State TradeExecutionResult.t :=
  fun s =>
    let '(fr, c) :=
      Eff.tryCatch tryBlock (catchBlock position)
        {| self := s; result := initialResult position |} in
    (self fr,
     match c with
     | Normal _ => Normal (result fr)
     | Throw e => Throw e
     end).

(** [executeBuy] *)
Definition executeBuy (position : Position.t) : Eff.M State TradeExecutionResult.t :=
  returningResult position (executeBuyTry position).

(** [executeSell] *)
Definition executeSell (position : Position.t) : Eff.M State TradeExecutionResult.t :=
  returningResult position (executeSellTry position).
End Executor.

Arguments CopyTradingConfig World : clear implicits.
Arguments ClobClient World : clear implicits.
Arguments State World : clear implicits.
Arguments Frame World : clear implicits.

(** The [this.config] object the constructor builds from the caller's
    configuration. *)
Definition requiredConfig {World : Type} (config : CopyTradingInput.t World)
  : CopyTradingConfig World :=
  {| enabled := CopyTradingInput.enabled config;
     privateKey := CopyTradingInput.privateKey config;
     dryRun := nullish (CopyTradingInput.dryRun config) false;
     positionSizeMultiplier :=
       nullish (CopyTradingInput.positionSizeMultiplier config) PrimFloat.one;
     maxPositionSize := nullish (CopyTradingInput.maxPositionSize config) PrimFloat.infinity;
     maxTradeSize := nullish (CopyTradingInput.maxTradeSize config) PrimFloat.infinity;
     slippageTolerance := nullish (CopyTradingInput.slippageTolerance config) PrimFloat.one;
     minTradeSize := nullish (CopyTradingInput.minTradeSize config) PrimFloat.one;
     chainId := nullish (CopyTradingInput.chainId config) 137;
     clobHost := nullish (CopyTradingInput.clobHost config) "https://clob.polymarket.com";
     onTradeExecuted :=
       nullish (CopyTradingInput.onTradeExecuted config) (fun _ w => (w, Normal tt));
     onTradeError :=
       nullish (CopyTradingInput.onTradeError config) (fun _ _ w => (w, Normal tt)) |}.
End TradeExecutor.

(* ===================================================================== *)
(** * CopyTradingMonitor (src/trading/copy-trading-monitor.ts)            *)
(* ===================================================================== *)

Module CopyTradingMonitor.

(** [const currentPositions], filled by the [forEach] of
    [handleStatusUpdate]. *)
Definition currentPositions (status : TradingStatus.t) : JsMap.t Position.t :=
  fold_left (fun m pos => JsMap.set (Position.id pos) pos m)
            (TradingStatus.openPositions status) [].

(** [const newPositions]: in [currentPositions] but not in
    [targetPositions]. *)
Definition newPositions (targetPositions : JsMap.t Position.t)
    (status : TradingStatus.t) : list Position.t :=
  map snd
    (filter (fun e => negb (JsMap.has (fst e) targetPositions))
            (currentPositions status)).

(** [const closedPositions]: in [targetPositions] but not in
    [currentPositions]. *)
Definition closedPositions (targetPositions : JsMap.t Position.t)
    (status : TradingStatus.t) : list Position.t :=
  map snd
    (filter (fun e => negb (JsMap.has (fst e) (currentPositions status)))
            targetPositions).

(** Console lines: of [handleStatusUpdate], the announcement of a trade
    before it is attempted and the two error lines of each loop; of the
    installed [onError]; of [start] when the executor cannot be
    initialized. *)
Variant Event :=
  | LogNewPosition (position : Position.t)
  | LogBuyFailed (error : option string)
  | LogBuyError (msg : string)
  | LogPositionClosed (position : Position.t)
  | LogSellFailed (error : option string)
  | LogSellError (msg : string)
  | LogMonitorError (error : JsError)
  | LogInitializationFailed (msg : string).

Section Monitor.
Context {World : Type}.

(** The monitor object: its executor (with the world), its statistics,
    the identifiers it has bought and not sold, the target's positions as
    of the last update, and the console. *)
Record State := {
  tradeExecutor : TradeExecutor.State World;
  stats : CopyTradingStatus.t;
  executedPositions : JsSet.t;
  targetPositions : JsMap.t Position.t;
  console : list Event
}.

Variable client : TradeExecutor.ClobClient World.
(** The executor's configuration. *)
Variable config : TradeExecutor.CopyTradingConfig World.
(** [new Date().toISOString()] *)
Variable toISOString : World -> string.

Local Open Scope eff_scope.

(** An [await]ed call of the executor. *)
Definition onExecutor {A} (c : Eff.M (TradeExecutor.State World) A) : Eff.M State A :=
  fun s =>
    let '(e, r) := c (tradeExecutor s) in
    ({| tradeExecutor := e; stats := stats s;
        executedPositions := executedPositions s;
        targetPositions := targetPositions s; console := console s |}, r).

Definition emit (e : Event) : Eff.M State unit :=
  Eff.modify (fun s =>
    {| tradeExecutor := tradeExecutor s; stats := stats s;
       executedPositions := executedPositions s;
       targetPositions := targetPositions s; console := console s ++ [e] |}).

Definition onStats (f : CopyTradingStatus.t -> CopyTradingStatus.t) : Eff.M State unit :=
  Eff.modify (fun s =>
    {| tradeExecutor := tradeExecutor s; stats := f (stats s);
       executedPositions := executedPositions s;
       targetPositions := targetPositions s; console := console s |}).

Definition onExecuted (f : JsSet.t -> JsSet.t) : Eff.M State unit :=
  Eff.modify (fun s =>
    {| tradeExecutor := tradeExecutor s; stats := stats s;
       executedPositions := f (executedPositions s);
       targetPositions := targetPositions s; console := console s |}).

Definition setTargetPositions (m : JsMap.t Position.t) : Eff.M State unit :=
  Eff.modify (fun s =>
    {| tradeExecutor := tradeExecutor s; stats := stats s;
       executedPositions := executedPositions s;
       targetPositions := m; console := console s |}).

(** [this.stats.totalTradesExecuted++] *)
Definition countExecuted (st : CopyTradingStatus.t) : CopyTradingStatus.t :=
  {| CopyTradingStatus.enabled := CopyTradingStatus.enabled st;
     CopyTradingStatus.dryRun := CopyTradingStatus.dryRun st;
     CopyTradingStatus.totalTradesExecuted := S (CopyTradingStatus.totalTradesExecuted st);
     CopyTradingStatus.totalTradesFailed := CopyTradingStatus.totalTradesFailed st;
     CopyTradingStatus.totalVolume := CopyTradingStatus.totalVolume st;
     CopyTradingStatus.lastTradeTime := CopyTradingStatus.lastTradeTime st |}.

(** [this.stats.totalTradesFailed++] *)
Definition countFailed (st : CopyTradingStatus.t) : CopyTradingStatus.t :=
  {| CopyTradingStatus.enabled := CopyTradingStatus.enabled st;
     CopyTradingStatus.dryRun := CopyTradingStatus.dryRun st;
     CopyTradingStatus.totalTradesExecuted := CopyTradingStatus.totalTradesExecuted st;
     CopyTradingStatus.totalTradesFailed := S (CopyTradingStatus.totalTradesFailed st);
     CopyTradingStatus.totalVolume := CopyTradingStatus.totalVolume st;
     CopyTradingStatus.lastTradeTime := CopyTradingStatus.lastTradeTime st |}.

(** [const tradeValue = parseFloat(result.executedQuantity || '0') *
     parseFloat(result.executedPrice || '0');
     this.stats.totalVolume =
       (parseFloat(this.stats.totalVolume) + tradeValue).toFixed(2)] *)
Definition addVolume (result : TradeExecutionResult.t) (st : CopyTradingStatus.t)
  : CopyTradingStatus.t :=
  let tradeValue :=
    PrimFloat.mul
      (JS.parseFloat (optOr (TradeExecutionResult.executedQuantity result) "0"))
      (JS.parseFloat (optOr (TradeExecutionResult.executedPrice result) "0")) in
  {| CopyTradingStatus.enabled := CopyTradingStatus.enabled st;
     CopyTradingStatus.dryRun := CopyTradingStatus.dryRun st;
     CopyTradingStatus.totalTradesExecuted := CopyTradingStatus.totalTradesExecuted st;
     CopyTradingStatus.totalTradesFailed := CopyTradingStatus.totalTradesFailed st;
     CopyTradingStatus.totalVolume :=
       JS.toFixed
         (PrimFloat.add (JS.parseFloat (CopyTradingStatus.totalVolume st)) tradeValue) 2;
     CopyTradingStatus.lastTradeTime := CopyTradingStatus.lastTradeTime st |}.

(** [this.stats.lastTradeTime = now] *)
Definition stampTrade (now : string) (st : CopyTradingStatus.t) : CopyTradingStatus.t :=
  {| CopyTradingStatus.enabled := CopyTradingStatus.enabled st;
     CopyTradingStatus.dryRun := CopyTradingStatus.dryRun st;
     CopyTradingStatus.totalTradesExecuted := CopyTradingStatus.totalTradesExecuted st;
     CopyTradingStatus.totalTradesFailed := CopyTradingStatus.totalTradesFailed st;
     CopyTradingStatus.totalVolume := CopyTradingStatus.totalVolume st;
     CopyTradingStatus.lastTradeTime := Some now |}.

(** The statements both loops run after a successful trade. *)
Definition recordExecuted (result : TradeExecutionResult.t) : Eff.M State unit :=
  onStats countExecuted ;;
  onStats (addVolume result) ;;
  now <- Eff.gets (fun s => toISOString (TradeExecutor.world (tradeExecutor s))) ;;
  onStats (stampTrade now).

(** The body of [for (const position of newPositions)]. *)
Definition buyNewPosition (position : Position.t) : Eff.M State unit :=
  executed <- Eff.gets executedPositions ;;
  if JsSet.has (Position.id position) executed then Eff.ret tt
  else
    Eff.tryCatch
      (emit (LogNewPosition position) ;;
       result <- onExecutor (TradeExecutor.executeBuy client config position) ;;
       if TradeExecutionResult.success result then
         onExecuted (JsSet.add (Position.id position)) ;;
         recordExecuted result
       else
         onStats countFailed ;;
         emit (LogBuyFailed (TradeExecutionResult.error result)))
      (fun error =>
         onStats countFailed ;;
         emit (LogBuyError (message error))).

(** The body of [for (const position of closedPositions)]. *)
Definition sellClosedPosition (position : Position.t) : Eff.M State unit :=
  executed <- Eff.gets executedPositions ;;
  if negb (JsSet.has (Position.id position) executed) then Eff.ret tt
  else
    Eff.tryCatch
      (emit (LogPositionClosed position) ;;
       result <- onExecutor (TradeExecutor.executeSell client config position) ;;
       if TradeExecutionResult.success result then
         onExecuted (JsSet.delete (Position.id position)) ;;
         recordExecuted result
       else
         onStats countFailed ;;
         emit (LogSellFailed (TradeExecutionResult.error result)))
      (fun error =>
         onStats countFailed ;;
         emit (LogSellError (message error))).

(** [handleStatusUpdate]; one call runs to its end before the next
    starts. *)
Definition handleStatusUpdate (status : TradingStatus.t) : Eff.M State unit :=
  target <- Eff.gets targetPositions ;;
  let newPositions := newPositions target status in
  let closedPositions := closedPositions target status in
  Eff.forEach newPositions buyNewPosition ;;
  Eff.forEach closedPositions sellClosedPosition ;;
  setTargetPositions (currentPositions status).

(** [getStats] *)
Definition getStats (s : State) : CopyTradingStatus.t := stats s.
End Monitor.

Arguments State World : clear implicits.

(** ** The monitor and the account monitor it wraps *)

Section Wiring.
Context {World : Type}.
(** The [PolymarketClient] and the clock. *)
Variable polymarket : AccountMonitor.Environment World.
(** The order gateway of the executor. *)
Variable clob : TradeExecutor.ClobClient World.
(** The arguments of the constructor. *)
Variable monitorOptions : MonitorInput.t World.
Variable copyTradingConfig : CopyTradingInput.t World.

Local Open Scope eff_scope.

(** A call that acts on the world only. *)
Definition onWorld {A} (f : World -> World * completion A) : Eff.M (State World) A :=
  onExecutor (fun e =>
    let '(w, r) := f (TradeExecutor.world e) in
    ({| TradeExecutor.apiKeyCreated := TradeExecutor.apiKeyCreated e;
        TradeExecutor.world := w;
        TradeExecutor.events := TradeExecutor.events e |}, r)).

(** [this.handleStatusUpdate], with the executor the constructor made. *)
Definition handle (status : TradingStatus.t) : Eff.M (State World) unit :=
  handleStatusUpdate clob (TradeExecutor.requiredConfig copyTradingConfig)
    (AccountMonitor.toISOString polymarket) status.

(** The [onUpdate] the constructor installs: the caller's callback, then
    the copy-trading logic, which is not awaited -- how it completes is
    not seen by the account monitor. *)
Definition onUpdate (status : TradingStatus.t) : Eff.M (State World) unit :=
  match MonitorInput.onUpdate monitorOptions with
  | Some original => onWorld (original status)
  | None => Eff.ret tt
  end ;;
  if CopyTradingInput.enabled copyTradingConfig
  then fun s => (fst (handle status s), Normal tt)
  else Eff.ret tt.

(** The [onError] the constructor installs. *)
Definition onError (error : JsError) : Eff.M (State World) unit :=
  match MonitorInput.onError monitorOptions with
  | Some original => onWorld (original error)
  | None => Eff.ret tt
  end ;;
  emit (LogMonitorError error).

(** The options of the wrapped account monitor:
    [{...monitorOptions, onUpdate, onError}] through its constructor. *)
Definition accountMonitorOptions : AccountMonitor.MonitorOptions (State World) :=
  AccountMonitor.requiredOptions
    {| MonitorInput.targetAddress := MonitorInput.targetAddress monitorOptions;
       MonitorInput.pollInterval := MonitorInput.pollInterval monitorOptions;
       MonitorInput.enableWebSocket := MonitorInput.enableWebSocket monitorOptions;
       MonitorInput.onUpdate := Some onUpdate;
       MonitorInput.onError := Some onError |}.

(** The client and the clock as the account monitor reaches them: the
    world is the one the executor acts on. *)
Definition environment : AccountMonitor.Environment (State World) :=
  {| AccountMonitor.getUserPositions :=
       fun user => onWorld (AccountMonitor.getUserPositions polymarket user);
     AccountMonitor.toISOString :=
       fun s => AccountMonitor.toISOString polymarket (TradeExecutor.world (tradeExecutor s));
     AccountMonitor.dateNow :=
       fun s => AccountMonitor.dateNow polymarket (TradeExecutor.world (tradeExecutor s)) |}.

(** One poll tick of the wrapped account monitor. *)
Definition tick : Eff.M (AccountMonitor.State (State World)) unit :=
  AccountMonitor.updateStatus environment accountMonitorOptions.

(** [start] *)
Definition start : Eff.M (AccountMonitor.State (State World)) unit :=
  if negb (CopyTradingInput.enabled copyTradingConfig) then
    AccountMonitor.start environment accountMonitorOptions
  else
    AccountMonitor.call
      (Eff.tryCatch
         (onExecutor
            (TradeExecutor.initializeExecutor clob
               (TradeExecutor.requiredConfig copyTradingConfig)))
         (fun error =>
            emit (LogInitializationFailed (message error)) ;;
            if negb (nullish (CopyTradingInput.dryRun copyTradingConfig) false)
            then Eff.throw error
            else Eff.ret tt)) ;;
    AccountMonitor.start environment accountMonitorOptions.

End Wiring.

(** The statistics the constructor starts from. *)
Definition initialStats {World : Type} (copyTradingConfig : CopyTradingInput.t World)
  : CopyTradingStatus.t :=
  {| CopyTradingStatus.enabled := CopyTradingInput.enabled copyTradingConfig;
     CopyTradingStatus.dryRun := nullish (CopyTradingInput.dryRun copyTradingConfig) false;
     CopyTradingStatus.totalTradesExecuted := 0;
     CopyTradingStatus.totalTradesFailed := 0;
     CopyTradingStatus.totalVolume := "0";
     CopyTradingStatus.lastTradeTime := None |}.

(** The monitor as the constructor leaves it. *)
Definition initialState {World : Type} (copyTradingConfig : CopyTradingInput.t World)
    (executor : TradeExecutor.State World) : State World :=
  {| tradeExecutor := executor;
     stats := initialStats copyTradingConfig;
     executedPositions := [];
     targetPositions := [];
     console := [] |}.
End CopyTradingMonitor.

(* ===================================================================== *)
(** * The specification's vocabulary                                      *)
(* ===================================================================== *)

(** The five checks of the change detector, each stated on its own over the
    two snapshots. *)
Module Detector.
Import TradingStatus AccountMonitor.

Definition hasId (positions : list Position.t) (id : string) : bool :=
  existsb (fun p => String.eqb (Position.id p) id) positions.

(** Count mismatch. *)
Definition countMismatch (last status : TradingStatus.t) : bool :=
  negb (Nat.eqb (List.length (openPositions status)) (List.length (openPositions last))).

(** Per-id addition: a current position whose id the previous snapshot
    does not have. *)
Definition isAdded (last : TradingStatus.t) (p : Position.t) : bool :=
  negb (hasId (openPositions last) (Position.id p)).

Definition anyAdded (last status : TradingStatus.t) : bool :=
  existsb (isAdded last) (openPositions status).

(** Per-id quantity delta: an id of both snapshots whose quantity moved
    by more than the threshold. *)
Definition isMaterial (last : TradingStatus.t) (e : string * Position.t) : bool :=
  match JsMap.get (fst e) (positionsMap (openPositions last)) with
  | Some lastPos =>
      quantityChanged (JS.parseFloat (Position.quantity (snd e)))
                      (JS.parseFloat (Position.quantity lastPos))
  | None => false
  end.

Definition anyMaterial (last status : TradingStatus.t) : bool :=
  existsb (isMaterial last) (positionsMap (openPositions status)).

(** Per-id removal: a previous position whose id the current snapshot
    does not have. *)
Definition isRemoved (status : TradingStatus.t) (lp : Position.t) : bool :=
  negb (hasId (openPositions status) (Position.id lp)).

Definition anyRemoved (last status : TradingStatus.t) : bool :=
  existsb (isRemoved status) (openPositions last).

(** Aggregate value drift. *)
Definition valueDrift (last status : TradingStatus.t) : bool :=
  totalValueChanged (JS.parseFloat (totalValue status)) (JS.parseFloat (totalValue last)).

(** Which check a reason belongs to, in the order of the specification. *)
Definition rank (d : Detection) : nat :=
  match d with
  | FirstStatus => 0
  | Changed (CountChanged _ _) => 1
  | Changed (NewPositionId _) => 2
  | Changed (QuantityChanged _ _ _) => 3
  | Changed (PositionRemoved _) => 4
  | Changed (TotalValueChanged _ _) => 5
  | Unchanged => 6
  end.

Definition ids (positions : list Position.t) : list string :=
  map Position.id positions.

(** An entry of the current snapshot that the loop over the current ids
    passes: its id was held before and its quantity did not move by more
    than the threshold. *)
Definition passed (last : TradingStatus.t) (e : string * Position.t) : bool :=
  hasId (openPositions last) (fst e) && negb (isMaterial last e).

(** The position the change report compares a current position with: the
    first of the previous snapshot with its id. *)
Definition previousOf (last : TradingStatus.t) (p : Position.t) : option Position.t :=
  find (fun lp => String.eqb (Position.id lp) (Position.id p)) (openPositions last).

(** The report's test for an updated position. *)
Definition isUpdated (last : TradingStatus.t) (p : Position.t) : bool :=
  match previousOf last p with
  | Some lp =>
      quantityChanged (JS.parseFloat (Position.quantity p))
                      (JS.parseFloat (Position.quantity lp))
  | None => false
  end.

(** The report's entry for an updated position. *)
Definition updateOf (last : TradingStatus.t) (p : Position.t) : UpdatedPosition :=
  {| position := p;
     oldQty := match previousOf last p with
               | Some lp => Position.quantity lp
               | None => ""
               end;
     newQty := Position.quantity p |}.
End Detector.

(** Quantities and totals as the decimals their strings spell, and the
    two thresholds of the specification taken on those decimals. *)
Module Decimals.
Import QArith_base.

(** The rational a string spells, when the whole of it is a decimal
    literal. *)
Definition valueOf (s : string) : option Q :=
  match JS.readSigned s with
  | Some (neg, JS.LitDecimal m e, EmptyString) =>
      let n := if neg then (- m)%Z else m in
      Some (if (0 <=? e)%Z then Qmake (n * 10 ^ e) 1 else Qmake n (Z.to_pos (10 ^ (- e))))
  | _ => None
  end.

Definition hundredth : Q := Qmake 1 100.

(** |q' - q| > max(1, q * 0.01) *)
Definition movedBeyond (q q' : Q) : bool :=
  negb (Qle_bool (Qabs.Qabs (Qminus q' q)) (Qminmax.Qmax (Qmake 1 1) (Qmult q hundredth))).

(** |v' - v| / max(v, 0.01) > 0.01 *)
Definition driftedBeyond (v v' : Q) : bool :=
  negb (Qle_bool (Qdiv (Qabs.Qabs (Qminus v' v)) (Qminmax.Qmax v hundredth)) hundredth).
End Decimals.

(** The guard chain of the executor. *)
Module Guards.
Import TradeExecutor.

Section Guards.
Context {World : Type}.
Variable config : CopyTradingConfig World.

Definition tradeQuantity (position : Position.t) : number :=
  PrimFloat.mul (JS.parseFloat (Position.quantity position))
                (positionSizeMultiplier config).

Definition tradePrice (position : Position.t) : number :=
  JS.parseFloat (Position.price position).

(** The notional of the trade. *)
Definition tradeValue (position : Position.t) : number :=
  PrimFloat.mul (tradeQuantity position) (tradePrice position).

Definition positionValue (position : Position.t) : number :=
  PrimFloat.mul (JS.parseFloat (strOr (Position.value position) "0"))
                (positionSizeMultiplier config).

Variant Guard := BelowMinimum | AboveMaximum | PositionTooLarge.

Definition fails (g : Guard) (position : Position.t) : bool :=
  match g with
  | BelowMinimum => lt (tradeValue position) (minTradeSize config)
  | AboveMaximum => gt (tradeValue position) (maxTradeSize config)
  | PositionTooLarge => gt (positionValue position) (maxPositionSize config)
  end.

(** The first guard of the chain that fails, if any. *)
Definition firstFailing (position : Position.t) : option Guard :=
  if fails BelowMinimum position then Some BelowMinimum
  else if fails AboveMaximum position then Some AboveMaximum
  else if fails PositionTooLarge position then Some PositionTooLarge
  else None.


(** A rejected trade: nothing but the error is set. *)
Definition rejected (position : Position.t) (errorMsg : string)
  : TradeExecutionResult.t :=
  {| TradeExecutionResult.success := false;
     TradeExecutionResult.position := position;
     TradeExecutionResult.orderId := None;
     TradeExecutionResult.transactionHash := None;
     TradeExecutionResult.executedQuantity := None;
     TradeExecutionResult.executedPrice := None;
     TradeExecutionResult.error := Some errorMsg;
     TradeExecutionResult.dryRun := dryRun config |}.

(** A simulated trade: success, no order identifier, the computed
    quantity and price. *)
Definition simulated (position : Position.t) : TradeExecutionResult.t :=
  {| TradeExecutionResult.success := true;
     TradeExecutionResult.position := position;
     TradeExecutionResult.orderId := None;
     TradeExecutionResult.transactionHash := None;
     TradeExecutionResult.executedQuantity := Some (JS.toFixed (tradeQuantity position) 4);
     TradeExecutionResult.executedPrice := Some (JS.toFixed (tradePrice position) 4);
     TradeExecutionResult.error := None;
     TradeExecutionResult.dryRun := true |}.


(** The order submitted for a position. *)
Definition orderOf (side : Side) (position : Position.t) : Order :=
  {| tokenID := Position.id position; price := tradePrice position;
     size := tradeQuantity position; side := side; orderType := GTC |}.

(** The executor once its API key exists: as it is when the key was
    created before, after a successful [initialize] otherwise; [None]
    when [initialize] fails. *)
Definition afterInitialize (client : ClobClient World) (s : State World)
  : option (State World) :=
  if apiKeyCreated s then Some s
  else
    match createOrDeriveApiKey client (world s) with
    | (w, Normal _) =>
        Some {| apiKeyCreated := true; world := w;
                events := events s ++ [CallCreateOrDeriveApiKey] |}
    | (_, Throw _) => None
    end.

(** The error thrown for a position without identifier. *)
Definition missingId : JsError :=
  {| message := "Position ID (token ID) is missing" |}.

(** The error [initialize] throws when the key cannot be created. *)
Definition initializationError (cause : JsError) : JsError :=
  {| message := "Failed to initialize trade executor: " ++ message cause |}.
End Guards.

Definition isGatewayCall (e : Event) : bool :=
  match e with
  | CallCreateOrDeriveApiKey | CallCreateAndPostOrder _ => true
  | _ => false
  end.
End Guards.

(** The priority of the normalised current value as the specification words
    it, and the rendering of totals. *)
Module Normalisation.
Import RawPosition PolymarketClient.

(** (a) the upstream current value when non-zero, else (b) quantity times
    current price whenever current price > 0, else (c) the initial value
    when > 0, else (d) quantity times average price, else (e) 0. *)
Definition claimedValue (item : RawPosition.t) : string :=
  if JS.present (currentValue item) && JS.strictNeqZero (currentValue item) then
    JS.toString (currentValue item)
  else if gt (curPriceOf item) PrimFloat.zero then
    JS.numberToString (PrimFloat.mul (sizeOf item) (curPriceOf item))
  else if JS.present (initialValue item) && JS.gtZero (initialValue item) then
    JS.toString (initialValue item)
  else if gt (avgPriceOf item) PrimFloat.zero then
    JS.numberToString (PrimFloat.mul (sizeOf item) (avgPriceOf item))
  else "0".

(** What a position contributes to the total: the parse of its value,
    0 when that is NaN. *)
Definition contribution (pos : Position.t) : number :=
  let value := JS.parseFloat (Position.value pos) in
  if JS.isNaN value then PrimFloat.zero else value.

(** The sum of the contributions, from the first position on. *)
Fixpoint sumFrom (acc : number) (positions : list Position.t) : number :=
  match positions with
  | [] => acc
  | pos :: rest => sumFrom (PrimFloat.add acc (contribution pos)) rest
  end.

Definition sumOfValues (positions : list Position.t) : number :=
  sumFrom PrimFloat.zero positions.

Fixpoint allDigits (s : string) : bool :=
  match s with
  | EmptyString => true
  | String c r => JS.isDigit c && allDigits r
  end.

(** [digits "." digits] with at least one digit before the point and
    exactly [f] after it. *)
Fixpoint unsignedFixed (f : nat) (seen : bool) (s : string) : bool :=
  match s with
  | EmptyString => false
  | String c r =>
      if Ascii.eqb c "." then seen && allDigits r && Nat.eqb (String.length r) f
      else JS.isDigit c && unsignedFixed f true r
  end.

(** A decimal string with exactly [f] fraction digits, possibly signed. *)
Definition isFixedDecimal (f : nat) (s : string) : bool :=
  match s with
  | String "-" r => unsignedFixed f false r
  | _ => unsignedFixed f false s
  end.

(** Finite and of magnitude below 10^21. *)
Definition rendersFixed (x : number) : bool :=
  match JS.exactValue x with
  | Some (_, a, b) => a <? 10 ^ 21 * Zpos b
  | None => false
  end.
End Normalisation.

(** The snapshots [getStatus] produces. *)
Module Snapshots.
(** The status built from what the client returned. *)
Definition statusOf (targetAddress : string) (positions : UserPositions.t)
    (now : string) : TradingStatus.t :=
  {| TradingStatus.user := targetAddress;
     TradingStatus.totalPositions := List.length (UserPositions.positions positions);
     TradingStatus.totalValue := UserPositions.totalValue positions;
     TradingStatus.recentTrades := [];
     TradingStatus.openPositions := UserPositions.positions positions;
     TradingStatus.lastUpdated := now |}.

(** The status built when the fetch was rejected: no position, total
    value "0". *)
Definition emptyStatus (targetAddress now : string) : TradingStatus.t :=
  statusOf targetAddress
    {| UserPositions.user := targetAddress;
       UserPositions.positions := [];
       UserPositions.totalValue := "0";
       UserPositions.timestamp := now |}
    now.

(** The console lines of a tick that obtained [status] with [last] as
    the retained snapshot: the detector's debug line, the polling line
    when due, the change report. *)
Definition consoleLines (last : option TradingStatus.t) (status : TradingStatus.t)
    (pollDue : bool) : list AccountMonitor.Event :=
  (match AccountMonitor.detection last status with
   | AccountMonitor.Changed why => [AccountMonitor.DebugLine why]
   | _ => []
   end
   ++ (if pollDue
       then [AccountMonitor.LogPolling (List.length (TradingStatus.openPositions status))]
       else [])
   ++ match last with
      | Some lastSeen =>
          if AccountMonitor.detectChanges last status
          then [AccountMonitor.LogChanges (AccountMonitor.changeReport lastSeen status)]
          else []
      | None => []
      end)%list.

Definition isCallOnError (e : AccountMonitor.Event) : bool :=
  match e with AccountMonitor.CallOnError _ => true | _ => false end.

Definition isCallOnUpdate (e : AccountMonitor.Event) : bool :=
  match e with AccountMonitor.CallOnUpdate _ => true | _ => false end.

Definition isLogChanges (e : AccountMonitor.Event) : bool :=
  match e with AccountMonitor.LogChanges _ => true | _ => false end.

Definition isDebugLine (e : AccountMonitor.Event) : bool :=
  match e with AccountMonitor.DebugLine _ => true | _ => false end.

(** The calls of [setInterval] and [clearInterval]. *)
Definition isTimerCall (e : AccountMonitor.Event) : bool :=
  match e with
  | AccountMonitor.CallSetInterval _ | AccountMonitor.CallClearInterval _ => true
  | _ => false
  end.
End Snapshots.

(** The pages a call of [getUserPositions] asks for. *)
Module Paging.
(** The page numbers [0], [1], ..., [n - 1]. *)
Definition pageNumbers (n : nat) : list Z := map Z.of_nat (seq 0 n).

(** The text every error [getUserPositions] throws starts with. *)
Definition failedToFetch (cause : string) : JsError :=
  {| message := "Failed to fetch user positions: " ++ cause |}.

(** The state after [request] was sent and the world became [w]. *)
Definition sent {World : Type} (s : @PolymarketClient.State World)
    (request : Http.Request) (w : World) : @PolymarketClient.State World :=
  {| PolymarketClient.world := w;
     PolymarketClient.requests := (PolymarketClient.requests s ++ [request])%list |}.
End Paging.

(** What a run leaves behind in the executor's log. *)
Module Orders.
Import TradeExecutor.

(** The orders submitted to the gateway, in order. *)
Definition posted (log : list Event) : list Order :=
  flat_map (fun e => match e with CallCreateAndPostOrder o => [o] | _ => [] end) log.

Definition isKeyCall (e : Event) : bool :=
  match e with CallCreateOrDeriveApiKey => true | _ => false end.

(** The derivations of the API key. *)
Definition keyCalls (log : list Event) : list Event := filter isKeyCall log.

(** The state after a run extends the log of the state before it by
    [new]. *)
Definition appended {World : Type} (s s' : State World) (new : list Event) : Prop :=
  events s' = (events s ++ new)%list.
End Orders.

(** What a call of [handleStatusUpdate] leaves behind on the console. *)
Module Attempts.
Import CopyTradingMonitor.

(** The positions a buy was attempted for, in order. *)
Definition bought (log : list Event) : list Position.t :=
  flat_map (fun e => match e with LogNewPosition p => [p] | _ => [] end) log.

(** The positions a sell was attempted for, in order. *)
Definition sold (log : list Event) : list Position.t :=
  flat_map (fun e => match e with LogPositionClosed p => [p] | _ => [] end) log.

(** Is the identifier of the position among those bought and not sold? *)
Definition held (executed : JsSet.t) (p : Position.t) : bool :=
  JsSet.has (Position.id p) executed.

(** The number of trades counted, executed or failed. *)
Definition counted (st : CopyTradingStatus.t) : nat :=
  (CopyTradingStatus.totalTradesExecuted st + CopyTradingStatus.totalTradesFailed st)%nat.

(** The monitor with its tracked positions replaced. *)
Definition tracking {World : Type} (s : State World) (m : JsMap.t Position.t)
  : State World :=
  {| tradeExecutor := tradeExecutor s; stats := stats s;
     executedPositions := executedPositions s;
     targetPositions := m; console := console s |}.

(** The world the monitor's executor acts on. *)
Definition worldOf {World : Type} (s : State World) : World :=
  TradeExecutor.world (tradeExecutor s).

(** The monitor in another world. *)
Definition withWorld {World : Type} (s : State World) (w : World) : State World :=
  {| tradeExecutor :=
       {| TradeExecutor.apiKeyCreated := TradeExecutor.apiKeyCreated (tradeExecutor s);
          TradeExecutor.world := w;
          TradeExecutor.events := TradeExecutor.events (tradeExecutor s) |};
     stats := stats s;
     executedPositions := executedPositions s;
     targetPositions := targetPositions s;
     console := console s |}.

(** Between [s] and [s'] no trade was attempted and the executor was not
    called: the statistics, the executed identifiers, the tracked
    positions and the executor's key and log are the same, and the console
    announces no trade. *)
Definition untraded {World : Type} (s s' : State World) : Prop :=
  stats s' = stats s
  /\ executedPositions s' = executedPositions s
  /\ targetPositions s' = targetPositions s
  /\ TradeExecutor.apiKeyCreated (tradeExecutor s')
     = TradeExecutor.apiKeyCreated (tradeExecutor s)
  /\ TradeExecutor.events (tradeExecutor s') = TradeExecutor.events (tradeExecutor s)
  /\ exists lines, console s' = (console s ++ lines)%list
                   /\ bought lines = [] /\ sold lines = [].

(** A map as [handleStatusUpdate] builds it: one entry per identifier,
    filed under the identifier of its position. *)
Definition keyed (m : JsMap.t Position.t) : Prop :=
  NoDup (JsMap.keys m) /\ forall k p, In (k, p) m -> Position.id p = k.

(** What a loop body, a loop or a whole call leaves behind: the console
    lines [new] and the gateway calls [newE]; the tracked positions and
    the two flags of the statistics are as before, and every attempt has
    been counted once. *)
Definition leaves {World : Type} (s s' : State World) (new : list Event)
    (newE : list TradeExecutor.Event) : Prop :=
  console s' = (console s ++ new)%list
  /\ Orders.appended (tradeExecutor s) (tradeExecutor s') newE
  /\ targetPositions s' = targetPositions s
  /\ CopyTradingStatus.enabled (stats s') = CopyTradingStatus.enabled (stats s)
  /\ CopyTradingStatus.dryRun (stats s') = CopyTradingStatus.dryRun (stats s)
  /\ counted (stats s')
     = (counted (stats s) + List.length (bought new) + List.length (sold new))%nat.
End Attempts.

(** Concrete positions, configurations and environments used to run the
    model. *)
Module Examples.
Definition num (s : string) : number := JS.parseFloat s.

Definition unknownMarket : Market.t :=
  {| Market.id := ""; Market.question := "Unknown Market"; Market.slug := "";
     Market.description := None; Market.endDate := None; Market.image := None;
     Market.icon := None; Market.resolutionSource := None; Market.tags := Some [];
     Market.liquidity := None; Market.volume := None; Market.active := Some true |}.

Definition positionOf (id quantity price value : string) : Position.t :=
  {| Position.id := id; Position.market := unknownMarket; Position.outcome := "Yes";
     Position.quantity := quantity; Position.price := price; Position.value := value;
     Position.initialValue := None;
     Position.timestamp := "2024-01-01T00:00:00.000Z" |}.

(** [{id: "T1", quantity: 100, price: 0.5}] *)
Definition T1 : Position.t := positionOf "T1" "100" "0.5" "50".

(** [{id: "T2", quantity: 0.5, price: 0.5}], notional 0.25 *)
Definition T2 : Position.t := positionOf "T2" "0.5" "0.5" "0.25".

(** T1 with three times the quantity, and a position not held before. *)
Definition tripled : Position.t := positionOf "T1" "300" "0.5" "150".

Definition T4 : Position.t := positionOf "T4" "10" "0.5" "5".

(** 100000 shares at 0.00004. *)
Definition pennies : Position.t := positionOf "T5" "100000" "0.00004" "4".


(** 7.3 shares, and the same position one share later. *)
Definition small : Position.t := positionOf "T6" "7.3" "0.5" "3.65".

Definition grown : Position.t := positionOf "T6" "8.3" "0.5" "4.15".

Definition statusWith (positions : list Position.t) (total : string) : TradingStatus.t :=
  {| TradingStatus.user := "0xTarget";
     TradingStatus.totalPositions := List.length positions;
     TradingStatus.totalValue := total;
     TradingStatus.recentTrades := [];
     TradingStatus.openPositions := positions;
     TradingStatus.lastUpdated := "2024-01-01T00:00:00.000Z" |}.

Definition returns {A} (a : A) : unit -> unit * completion A :=
  fun w => (w, Normal a).

Definition throws {A} (msg : string) : unit -> unit * completion A :=
  fun w => (w, Throw {| message := msg |}).

(** Multiplier 1, minimum trade 1, maximum trade 5000, maximum position
    10000. *)
Definition configWith (dry : bool)
    (executed : TradeExecutionResult.t -> unit -> unit * completion unit)
    (failed : JsError -> Position.t -> unit -> unit * completion unit)
  : TradeExecutor.CopyTradingConfig unit :=
  {| TradeExecutor.enabled := true;
     TradeExecutor.privateKey := "key";
     TradeExecutor.dryRun := dry;
     TradeExecutor.positionSizeMultiplier := num "1";
     TradeExecutor.maxPositionSize := num "10000";
     TradeExecutor.maxTradeSize := num "5000";
     TradeExecutor.slippageTolerance := num "1";
     TradeExecutor.minTradeSize := num "1";
     TradeExecutor.chainId := 137%Z;
     TradeExecutor.clobHost := "https://clob.polymarket.com";
     TradeExecutor.onTradeExecuted := executed;
     TradeExecutor.onTradeError := failed |}.

Definition dryConfig : TradeExecutor.CopyTradingConfig unit :=
  configWith true (fun _ => returns tt) (fun _ _ => returns tt).

Definition liveConfig : TradeExecutor.CopyTradingConfig unit :=
  configWith false (fun _ => returns tt) (fun _ _ => returns tt).

(** A success callback that throws. *)
Definition throwingObserver : TradeExecutor.CopyTradingConfig unit :=
  configWith true (fun _ => throws "observer failed") (fun _ _ => returns tt).

(** A failure callback that throws. *)
Definition throwingHandler : TradeExecutor.CopyTradingConfig unit :=
  configWith true (fun _ => returns tt) (fun _ _ => throws "handler failed").

Definition gateway : TradeExecutor.ClobClient unit :=
  {| TradeExecutor.createOrDeriveApiKey := returns tt;
     TradeExecutor.createAndPostOrder :=
       fun _ => returns {| TradeExecutor.orderID := Some "order-1" |} |}.

Definition downGateway : TradeExecutor.ClobClient unit :=
  {| TradeExecutor.createOrDeriveApiKey := throws "no credentials";
     TradeExecutor.createAndPostOrder := fun _ => throws "gateway down" |}.

Definition rejectingGateway : TradeExecutor.ClobClient unit :=
  {| TradeExecutor.createOrDeriveApiKey := returns tt;
     TradeExecutor.createAndPostOrder := fun _ => throws "order rejected" |}.

Definition fresh : TradeExecutor.State unit :=
  {| TradeExecutor.apiKeyCreated := false; TradeExecutor.world := tt;
     TradeExecutor.events := [] |}.

Definition options : AccountMonitor.MonitorOptions unit :=
  {| AccountMonitor.pollInterval := 30000%Z;
     AccountMonitor.enableWebSocket := false;
     AccountMonitor.onUpdate := fun _ => returns tt;
     AccountMonitor.onError := fun _ => returns tt;
     AccountMonitor.targetAddress := "0xTarget" |}.

Definition clockAt (iso : string) (ms : Z)
    (fetch : string -> unit -> unit * completion UserPositions.t)
  : AccountMonitor.Environment unit :=
  {| AccountMonitor.getUserPositions := fetch;
     AccountMonitor.toISOString := fun _ => iso;
     AccountMonitor.dateNow := fun _ => ms |}.


(** A data source that returns the given positions. *)
Definition serving (positions : list Position.t) : AccountMonitor.Environment unit :=
  clockAt "2024-01-01T00:00:30.000Z" 1704067230000%Z
          (fun user => returns (PolymarketClient.userPositionsOf user positions
                                  "2024-01-01T00:00:30.000Z")).

Definition monitoring (last : option TradingStatus.t) : AccountMonitor.State unit :=
  {| AccountMonitor.isMonitoring := true;
     AccountMonitor.lastStatus := last;
     AccountMonitor.lastPollTime := Some 1704067200000%Z;
     AccountMonitor.pollIntervalId := Some (AccountMonitor.Interval 30000%Z);
     AccountMonitor.world := tt;
     AccountMonitor.events := [] |}.

Definition rawWith (size curPrice avgPrice currentValue initialValue : JS.value)
  : RawPosition.t :=
  {| RawPosition.size := size; RawPosition.quantity := JS.VUndefined;
     RawPosition.curPrice := curPrice; RawPosition.currentPrice := JS.VUndefined;
     RawPosition.avgPrice := avgPrice; RawPosition.price := JS.VUndefined;
     RawPosition.lastPrice := JS.VUndefined;
     RawPosition.currentValue := currentValue;
     RawPosition.initialValue := initialValue |}.

(** [{size: 0, curPrice: 0.5, initialValue: 10}] *)
Definition emptiedPosition : RawPosition.t :=
  rawWith (JS.VNumber (num "0")) (JS.VNumber (num "0.5")) JS.VUndefined
          JS.VUndefined (JS.VNumber (num "10")).

(** [{size: 2, lastPrice: 3}] *)
Definition lastPriceOnly : RawPosition.t :=
  {| RawPosition.size := JS.VNumber (num "2"); RawPosition.quantity := JS.VUndefined;
     RawPosition.curPrice := JS.VUndefined; RawPosition.currentPrice := JS.VUndefined;
     RawPosition.avgPrice := JS.VUndefined; RawPosition.price := JS.VUndefined;
     RawPosition.lastPrice := JS.VNumber (num "3");
     RawPosition.currentValue := JS.VUndefined;
     RawPosition.initialValue := JS.VUndefined |}.

(** A position whose quantity is not a number. *)
Definition unparsable : Position.t := positionOf "T3" "abc" "0.5" "50".

(** T1 as a later fetch returns it: the same quantity written otherwise, at
    another price. *)
Definition repriced : Position.t := positionOf "T1" "100.0" "0.6" "50".

(** A position larger than any limit one would configure. *)
Definition whale : Position.t := positionOf "T9" "1e30" "1" "1e30".

(** A configuration that leaves every optional field out. *)
Definition minimalInput : CopyTradingInput.t unit :=
  {| CopyTradingInput.enabled := true;
     CopyTradingInput.privateKey := "key";
     CopyTradingInput.dryRun := None;
     CopyTradingInput.positionSizeMultiplier := None;
     CopyTradingInput.maxPositionSize := None;
     CopyTradingInput.maxTradeSize := None;
     CopyTradingInput.slippageTolerance := None;
     CopyTradingInput.minTradeSize := None;
     CopyTradingInput.chainId := None;
     CopyTradingInput.clobHost := None;
     CopyTradingInput.onTradeExecuted := None;
     CopyTradingInput.onTradeError := None |}.

Definition wallClock : unit -> string := fun _ => "2024-01-01T00:00:30.000Z".

(** A copy-trading monitor as constructed. *)
Definition copier : CopyTradingMonitor.State unit :=
  CopyTradingMonitor.initialState minimalInput fresh.

(** The minimal configuration in dry-run mode, and with copy trading
    disabled. *)
Definition dryInput : CopyTradingInput.t unit :=
  {| CopyTradingInput.enabled := true;
     CopyTradingInput.privateKey := "key";
     CopyTradingInput.dryRun := Some true;
     CopyTradingInput.positionSizeMultiplier := None;
     CopyTradingInput.maxPositionSize := None;
     CopyTradingInput.maxTradeSize := None;
     CopyTradingInput.slippageTolerance := None;
     CopyTradingInput.minTradeSize := None;
     CopyTradingInput.chainId := None;
     CopyTradingInput.clobHost := None;
     CopyTradingInput.onTradeExecuted := None;
     CopyTradingInput.onTradeError := None |}.

Definition disabledInput : CopyTradingInput.t unit :=
  {| CopyTradingInput.enabled := false;
     CopyTradingInput.privateKey := "key";
     CopyTradingInput.dryRun := None;
     CopyTradingInput.positionSizeMultiplier := None;
     CopyTradingInput.maxPositionSize := None;
     CopyTradingInput.maxTradeSize := None;
     CopyTradingInput.slippageTolerance := None;
     CopyTradingInput.minTradeSize := None;
     CopyTradingInput.chainId := None;
     CopyTradingInput.clobHost := None;
     CopyTradingInput.onTradeExecuted := None;
     CopyTradingInput.onTradeError := None |}.

(** Monitor options that name the target only. *)
Definition plainOptions : MonitorInput.t unit :=
  {| MonitorInput.targetAddress := "0xTarget";
     MonitorInput.pollInterval := None;
     MonitorInput.enableWebSocket := None;
     MonitorInput.onUpdate := None;
     MonitorInput.onError := None |}.

(** ** The Data API *)

(** An element of a positions array: 100 shares at 0.6. *)
Definition holding : Http.Item :=
  [("asset", JS.VString "T1"); ("conditionId", JS.VString "0xC1");
   ("title", JS.VString "Will it rain?"); ("outcome", JS.VString "Yes");
   ("size", JS.VNumber (JS.roundQ 100 1)); ("curPrice", JS.VNumber (JS.roundQ 6 10));
   ("timestamp", JS.VString "2024-01-01T00:00:00.000Z")].

(** An element with a quantity only. *)
Definition bare : Http.Item := [("asset", JS.VString "T2"); ("size", JS.VString "5")].

Definition fullPage : list (option Http.Item) := repeat (Some holding) 100.


Definition rejected (code : Z) : Http.Failure :=
  {| Http.failureMessage := "Request failed"; Http.status := Some code |}.

(** An API that answers every request with the same body, and one that
    answers the first page with [first] and the later ones with [later]. *)
Definition answering (body : Http.Payload)
  : Http.Request -> unit -> unit * (Http.Payload + Http.Failure) :=
  fun _ w => (w, inl body).


(** An API that rejects the requests for [/users/.../positions] with
    [primary] and the ones for [/positions] with [alternative]. *)
Definition rejecting (primary alternative : Z)
  : Http.Request -> unit -> unit * (Http.Payload + Http.Failure) :=
  fun request w =>
    (w, inr (rejected (if String.eqb (Http.url request) "/positions"
                       then alternative else primary))).

Definition clock : unit -> unit * string := fun w => (w, "2024-01-01T00:00:30.000Z").

(** [toISOString] of the time value 1700000000000, and of no other. *)
Definition isoOf (ms : number) : option string :=
  if PrimFloat.eqb ms (JS.roundQ 1700000000000 1)
  then Some "2023-11-14T22:13:20.000Z" else None.

Definition typeErrorText (data : Http.Payload) (name : string) : string :=
  "Cannot read properties of null (reading '" ++ name ++ "')".

Definition rangeErrorText : string := "Invalid time value".

(** A client that has sent nothing. *)
Definition idle : @PolymarketClient.State unit :=
  {| PolymarketClient.world := tt; PolymarketClient.requests := [] |}.

(** [getUserPositions] of the target against an API. *)
Definition fetchFrom (api : Http.Request -> unit -> unit * (Http.Payload + Http.Failure))
  : unit * list Http.Request * completion FetchedPositions.t :=
  let out := PolymarketClient.getUserPositions api clock isoOf typeErrorText rangeErrorText
               "0xTarget" idle in
  (PolymarketClient.world (fst out), PolymarketClient.requests (fst out), snd out).

(** A copy-trading monitor with its account monitor, as constructed. *)
Definition wired (input : CopyTradingInput.t unit)
  : AccountMonitor.State (CopyTradingMonitor.State unit) :=
  AccountMonitor.initialState (CopyTradingMonitor.initialState input fresh).
End Examples.

(* ===================================================================== *)
(** * Properties                                                           *)
(* ===================================================================== *)

(** ** Numbers *)

Lemma ltb_irrefl (x : number) : PrimFloat.ltb x x = false.
Proof.
  rewrite ltb_spec. unfold SFltb, SFcompare.
  destruct (Prim2SF x) as [s | s | | s m e]; try destruct s; try reflexivity;
    rewrite Z.compare_refl, Pos.compare_cont_refl; reflexivity.
Qed.

Lemma gt_irrefl (x : number) : gt x x = false.
Proof. apply ltb_irrefl. Qed.

Section ExactComparison.
Local Open Scope Z_scope.

Lemma digits2_bounds (m : positive) :
  2 ^ (Z.pos (digits2_pos m) - 1) <= Z.pos m < 2 ^ Z.pos (digits2_pos m).
Proof.
  induction m as [p IH | p IH |]; cbn [digits2_pos].
  - rewrite Pos2Z.inj_succ.
    replace (Z.succ (Z.pos (digits2_pos p)) - 1) with (Z.succ (Z.pos (digits2_pos p) - 1)) by lia.
    rewrite !Z.pow_succ_r by lia. lia.
  - rewrite Pos2Z.inj_succ.
    replace (Z.succ (Z.pos (digits2_pos p)) - 1) with (Z.succ (Z.pos (digits2_pos p) - 1)) by lia.
    rewrite !Z.pow_succ_r by lia. lia.
  - cbn. lia.
Qed.

(** A valid finite binary64 value has a mantissa below 2^53 and an exponent
    of at least -1074; above that exponent the mantissa has all 53 bits. *)
Lemma valid_finite (s : bool) (m : positive) (e : Z) :
  valid_binary (S754_finite s m e) = true ->
  -1074 <= e /\ Z.pos m < 2 ^ 53 /\ (-1074 < e -> 2 ^ 52 <= Z.pos m).
Proof.
  unfold SpecFloat.valid_binary, bounded, canonical_mantissa, fexp, SpecFloat.emin, prec, emax.
  intros H. apply andb_true_iff in H. destruct H as [H _].
  apply Z.eqb_eq in H.
  pose proof (digits2_bounds m) as [Hlo Hhi].
  set (d := Z.pos (digits2_pos m)) in *.
  assert (Hd : 0 < d) by (subst d; lia).
  assert (Hcases : (d = 53 /\ -1074 <= e) \/ (e = -1074 /\ d <= 53)) by lia.
  destruct Hcases as [[Hd53 He] | [He Hd53]].
  - rewrite Hd53 in *. repeat split; lia.
  - repeat split; try lia.
    apply Z.lt_le_trans with (2 ^ d); [exact Hhi |].
    apply Z.pow_le_mono_r; lia.
Qed.

Lemma scaled_lt (m1 m2 : positive) (e1 e2 : Z) :
  valid_binary (S754_finite false m1 e1) = true ->
  valid_binary (S754_finite false m2 e2) = true ->
  e1 < e2 ->
  Z.pos m1 * 2 ^ (e1 + 1074) < Z.pos m2 * 2 ^ (e2 + 1074).
Proof.
  intros V1 V2 He.
  apply valid_finite in V1. apply valid_finite in V2.
  destruct V1 as (E1 & M1 & _). destruct V2 as (E2 & _ & M2).
  specialize (M2 ltac:(lia)).
  apply Z.lt_le_trans with (2 ^ 53 * 2 ^ (e1 + 1074)).
  - apply Z.mul_lt_mono_pos_r; [apply Z.pow_pos_nonneg; lia | exact M1].
  - apply Z.le_trans with (2 ^ 52 * 2 ^ (e2 + 1074)).
    + rewrite <- !Z.pow_add_r by lia. apply Z.pow_le_mono_r; lia.
    + apply Z.mul_le_mono_nonneg_r; [apply Z.pow_nonneg; lia | exact M2].
Qed.

Lemma compare_scaled (m1 m2 : positive) (e1 e2 : Z) :
  valid_binary (S754_finite false m1 e1) = true ->
  valid_binary (S754_finite false m2 e2) = true ->
  match (e1 ?= e2) with
  | Lt => Lt
  | Gt => Gt
  | Eq => Pos.compare_cont Eq m1 m2
  end
  = (Z.pos m1 * 2 ^ (e1 + 1074) ?= Z.pos m2 * 2 ^ (e2 + 1074)).
Proof.
  intros V1 V2. destruct (Z.compare_spec e1 e2) as [E | E | E].
  - subst e2. change (Pos.compare_cont Eq m1 m2) with (Z.pos m1 ?= Z.pos m2).
    apply valid_finite in V1. destruct V1 as (E1 & _).
    assert (P : 0 < 2 ^ (e1 + 1074)) by (apply Z.pow_pos_nonneg; lia).
    destruct (Z.compare_spec (Z.pos m1) (Z.pos m2)) as [H | H | H]; symmetry.
    + rewrite H. apply Z.compare_refl.
    + apply Z.compare_lt_iff. nia.
    + apply Z.compare_gt_iff. nia.
  - symmetry. apply Z.compare_lt_iff. apply scaled_lt; assumption.
  - symmetry. apply Z.compare_gt_iff. apply scaled_lt; assumption.
Qed.

(** Comparison of finite numbers is comparison of their exact values. *)
Lemma ltb_exact (x y : number) (a b : Z) :
  JS.exactScaled x = Some a -> JS.exactScaled y = Some b ->
  PrimFloat.ltb x y = (a <? b).
Proof.
  unfold JS.exactScaled. rewrite ltb_spec.
  pose proof (Prim2SF_valid x) as Vx. pose proof (Prim2SF_valid y) as Vy.
  destruct (Prim2SF x) as [sx | sx | | sx mx ex]; try discriminate;
    destruct (Prim2SF y) as [sy | sy | | sy my ey]; try discriminate;
    intros Ha Hb; inversion Ha; inversion Hb; subst a b; clear Ha Hb.
  - reflexivity.
  - unfold SFltb, SFcompare.
    pose proof (valid_finite _ _ _ Vy) as (Ey & _).
    assert (0 < 2 ^ (ey + 1074)) by (apply Z.pow_pos_nonneg; lia).
    destruct sy; symmetry; [apply Z.ltb_ge | apply Z.ltb_lt]; nia.
  - unfold SFltb, SFcompare.
    pose proof (valid_finite _ _ _ Vx) as (Ex & _).
    assert (0 < 2 ^ (ex + 1074)) by (apply Z.pow_pos_nonneg; lia).
    destruct sx; symmetry; [apply Z.ltb_lt | apply Z.ltb_ge]; nia.
  - pose proof (valid_finite _ _ _ Vx) as (Ex & _).
    pose proof (valid_finite _ _ _ Vy) as (Ey & _).
    assert (Hx : 0 < 2 ^ (ex + 1074)) by (apply Z.pow_pos_nonneg; lia).
    assert (Hy : 0 < 2 ^ (ey + 1074)) by (apply Z.pow_pos_nonneg; lia).
    unfold SFltb, SFcompare. destruct sx, sy.
    + (* both negative *)
      assert (C : match ex ?= ey with
                  | Eq => CompOpp (Pos.compare_cont Eq mx my)
                  | Lt => Gt
                  | Gt => Lt
                  end
                  = CompOpp (Z.pos mx * 2 ^ (ex + 1074) ?= Z.pos my * 2 ^ (ey + 1074))).
      { rewrite <- (compare_scaled mx my ex ey Vx Vy). destruct (ex ?= ey); reflexivity. }
      rewrite C. unfold Z.ltb.
      change (Z.neg mx) with (- Z.pos mx). change (Z.neg my) with (- Z.pos my).
      rewrite !Z.mul_opp_l, Z.compare_opp.
      rewrite (Z.compare_antisym (Z.pos mx * 2 ^ (ex + 1074))).
      reflexivity.
    + symmetry. apply Z.ltb_lt. nia.
    + symmetry. apply Z.ltb_ge. nia.
    + rewrite (compare_scaled mx my ex ey Vx Vy). unfold Z.ltb.
      destruct (Z.pos mx * 2 ^ (ex + 1074) ?= Z.pos my * 2 ^ (ey + 1074)); reflexivity.
Qed.

(** [a > b] on finite numbers is [>] on their exact values. *)
Lemma gt_exact (x y : number) (a b : Z) :
  JS.exactScaled x = Some a -> JS.exactScaled y = Some b ->
  gt x y = (b <? a).
Proof. intros Hx Hy. unfold gt. apply ltb_exact; assumption. Qed.
End ExactComparison.

(** ** Lists *)

Lemma existsb_orb {A} (f g : A -> bool) (l : list A) :
  existsb (fun x => f x || g x) l = existsb f l || existsb g l.
Proof.
  induction l as [| x l IH]; simpl.
  - reflexivity.
  - rewrite IH. destruct (f x), (g x), (existsb f l), (existsb g l); reflexivity.
Qed.

Lemma existsb_same_elements {A} (f : A -> bool) (l l' : list A) :
  (forall x, In x l <-> In x l') -> existsb f l = existsb f l'.
Proof.
  intros H. apply eq_true_iff_eq. rewrite !existsb_exists.
  split; intros [x [Hx Hf]]; exists x; split; try assumption; apply H; assumption.
Qed.

Lemma existsb_pointwise {A} (f g : A -> bool) (l : list A) :
  (forall x, f x = g x) -> existsb f l = existsb g l.
Proof.
  intros H. induction l as [| x l IH]; simpl; [reflexivity | rewrite H, IH; reflexivity].
Qed.

Lemma existsb_map {A B} (g : A -> B) (f : B -> bool) (l : list A) :
  existsb f (map g l) = existsb (fun x => f (g x)) l.
Proof.
  induction l as [| x l IH]; simpl; [reflexivity | rewrite IH; reflexivity].
Qed.

(** ** Maps *)

Section MapFacts.
Context {A : Type}.
Implicit Types (m : JsMap.t A) (l : list (string * A)) (k : string) (v : A).

Lemma get_set k k' v m :
  JsMap.get k (JsMap.set k' v m) = if String.eqb k' k then Some v else JsMap.get k m.
Proof.
  induction m as [| [k0 v0] m IH]; simpl.
  - reflexivity.
  - destruct (String.eqb k0 k') eqn:E0; simpl.
    + apply String.eqb_eq in E0. subst k0.
      destruct (String.eqb k' k); reflexivity.
    + destruct (String.eqb k0 k) eqn:E1.
      * apply String.eqb_eq in E1. subst k0. rewrite String.eqb_sym, E0. reflexivity.
      * exact IH.
Qed.

Lemma has_set k k' v m :
  JsMap.has k (JsMap.set k' v m) = String.eqb k' k || JsMap.has k m.
Proof.
  unfold JsMap.has. rewrite get_set. destruct (String.eqb k' k); reflexivity.
Qed.

Lemma in_keys_set k k' v m :
  In k (JsMap.keys (JsMap.set k' v m)) <-> In k (JsMap.keys m) \/ k = k'.
Proof.
  unfold JsMap.keys.
  induction m as [| [k0 v0] m IH]; simpl.
  - intuition.
  - destruct (String.eqb k0 k') eqn:E0; simpl.
    + apply String.eqb_eq in E0. subst k0. intuition.
    + rewrite IH. intuition.
Qed.

Lemma in_set k v k' v' m :
  In (k, v) (JsMap.set k' v' m) -> In (k, v) m \/ (k, v) = (k', v').
Proof.
  induction m as [| [k0 v0] m IH]; simpl.
  - intuition.
  - destruct (String.eqb k0 k') eqn:E0; simpl.
    + apply String.eqb_eq in E0. subst k0. intuition.
    + intuition.
Qed.

Lemma has_setAll k l : forall m,
  JsMap.has k (JsMap.setAll l m) = JsMap.has k m || existsb (fun e => String.eqb (fst e) k) l.
Proof.
  induction l as [| e l IH]; intros m; simpl.
  - rewrite orb_false_r. reflexivity.
  - rewrite IH, has_set.
    destruct (String.eqb (fst e) k), (JsMap.has k m); reflexivity.
Qed.

Lemma in_keys_setAll k l : forall m,
  In k (JsMap.keys (JsMap.setAll l m)) <-> In k (JsMap.keys m) \/ In k (map fst l).
Proof.
  induction l as [| e l IH]; intros m; simpl.
  - intuition.
  - rewrite IH, in_keys_set. intuition.
Qed.

Lemma in_setAll k v l : forall m,
  In (k, v) (JsMap.setAll l m) -> In (k, v) m \/ In (k, v) l.
Proof.
  induction l as [| e l IH]; intros m; simpl.
  - intuition.
  - intros H. apply IH in H. destruct H as [H | H]; [| intuition].
    apply in_set in H. destruct H as [H | H]; [intuition |].
    right. left. destruct e. simpl in H. symmetry. exact H.
Qed.

Lemma set_fresh k v m :
  ~ In k (JsMap.keys m) -> JsMap.set k v m = (m ++ [(k, v)])%list.
Proof.
  induction m as [| [k0 v0] m IH]; simpl; intros H.
  - reflexivity.
  - destruct (String.eqb k0 k) eqn:E0.
    + apply String.eqb_eq in E0. intuition.
    + rewrite IH; intuition.
Qed.

Lemma setAll_nodup l : forall m,
  NoDup (JsMap.keys m ++ map fst l) -> JsMap.setAll l m = (m ++ l)%list.
Proof.
  induction l as [| e l IH]; intros m; simpl; intros H.
  - rewrite app_nil_r. reflexivity.
  - assert (Hk : ~ In (fst e) (JsMap.keys m)).
    { apply NoDup_remove_2 in H. intros Hin. apply H. apply in_or_app. left. exact Hin. }
    rewrite set_fresh by exact Hk. rewrite IH.
    + rewrite <- app_assoc. destruct e; reflexivity.
    + unfold JsMap.keys. rewrite map_app. simpl. rewrite <- app_assoc. exact H.
Qed.
End MapFacts.

(** ** The change detector *)

Section DetectorFacts.
Import TradingStatus AccountMonitor Detector.

Lemma has_positionsMap (ps : list Position.t) (k : string) :
  JsMap.has k (positionsMap ps) = hasId ps k.
Proof.
  unfold positionsMap, JsMap.fromEntries, hasId.
  rewrite has_setAll, existsb_map. reflexivity.
Qed.

Lemma in_keys_positionsMap (ps : list Position.t) (k : string) :
  In k (JsMap.keys (positionsMap ps)) <-> In k (ids ps).
Proof.
  unfold positionsMap, JsMap.fromEntries, ids.
  rewrite in_keys_setAll, map_map. simpl. intuition.
Qed.

Lemma in_positionsMap (ps : list Position.t) (k : string) (p : Position.t) :
  In (k, p) (positionsMap ps) -> In p ps /\ Position.id p = k.
Proof.
  unfold positionsMap, JsMap.fromEntries. intros H.
  apply in_setAll in H. destruct H as [[] | H].
  apply in_map_iff in H. destruct H as [q [Hq Hin]].
  inversion Hq; subst. split; [assumption | reflexivity].
Qed.

Lemma positionsMap_nodup (ps : list Position.t) :
  NoDup (ids ps) -> positionsMap ps = map (fun p => (Position.id p, p)) ps.
Proof.
  intros H. unfold positionsMap, JsMap.fromEntries.
  rewrite setAll_nodup; [reflexivity |].
  simpl. rewrite map_map. exact H.
Qed.

Lemma hasId_in (ps : list Position.t) (k : string) :
  hasId ps k = true <-> In k (ids ps).
Proof.
  unfold hasId, ids. rewrite existsb_exists, in_map_iff.
  split; intros [p [H1 H2]]; exists p.
  - apply String.eqb_eq in H2. tauto.
  - subst k. rewrite String.eqb_refl. tauto.
Qed.

(** The loop over the current map stops at the first entry that is new
    or whose quantity moved. *)
Lemma scanCurrent_hit (last : TradingStatus.t) (entries : list (string * Position.t)) :
  match scanCurrent (positionsMap (openPositions last)) entries with
  | Some _ => true
  | None => false
  end
  = existsb (fun e => negb (JsMap.has (fst e) (positionsMap (openPositions last)))
                      || isMaterial last e) entries.
Proof.
  induction entries as [| [id p] rest IH]; simpl.
  - reflexivity.
  - unfold isMaterial, JsMap.has at 1. simpl.
    destruct (JsMap.get id (positionsMap (openPositions last))) as [lp |]; simpl.
    + destruct (quantityChanged _ _); simpl; [reflexivity | exact IH].
    + reflexivity.
Qed.

Lemma scanCurrent_sound (last : TradingStatus.t) (entries : list (string * Position.t)) why :
  scanCurrent (positionsMap (openPositions last)) entries = Some why ->
  match why with
  | NewPositionId id =>
      In id (map fst entries) /\ hasId (openPositions last) id = false
  | QuantityChanged id lastQty currentQty =>
      exists p, In (id, p) entries /\ isMaterial last (id, p) = true
                /\ currentQty = JS.parseFloat (Position.quantity p)
  | _ => False
  end.
Proof.
  induction entries as [| [id p] rest IH]; simpl.
  - discriminate.
  - destruct (JsMap.get id (positionsMap (openPositions last))) as [lp |] eqn:G.
    + destruct (quantityChanged _ _) eqn:Q.
      * intros H. inversion H; subst. exists p.
        unfold isMaterial. simpl. rewrite G, Q. auto.
      * intros H. specialize (IH H). destruct why; try contradiction.
        -- tauto.
        -- destruct IH as [q Hq]. exists q. tauto.
    + intros H. inversion H; subst. split; [auto |].
      rewrite <- has_positionsMap. unfold JsMap.has. rewrite G. reflexivity.
Qed.

Lemma scanLast_hit (cur : JsMap.t Position.t) (keys : list string) :
  match scanLast cur keys with Some _ => true | None => false end
  = existsb (fun k => negb (JsMap.has k cur)) keys.
Proof.
  induction keys as [| k rest IH]; simpl.
  - reflexivity.
  - destruct (JsMap.has k cur); simpl; [exact IH | reflexivity].
Qed.

Lemma scanLast_sound (cur : JsMap.t Position.t) (keys : list string) why :
  scanLast cur keys = Some why ->
  exists id, why = PositionRemoved id /\ In id keys /\ JsMap.has id cur = false.
Proof.
  induction keys as [| k rest IH]; simpl.
  - discriminate.
  - destruct (JsMap.has k cur) eqn:H; simpl.
    + intros E. destruct (IH E) as [id Hid]. exists id. tauto.
    + intros E. inversion E. exists k. auto.
Qed.

Lemma added_hit (last status : TradingStatus.t) :
  existsb (fun e => negb (JsMap.has (fst e) (positionsMap (openPositions last))))
          (positionsMap (openPositions status))
  = anyAdded last status.
Proof.
  unfold anyAdded, isAdded.
  rewrite <- (existsb_map fst (fun k => negb (JsMap.has k _))).
  rewrite <- (existsb_map Position.id (fun k => negb (hasId _ k))).
  rewrite (existsb_same_elements _ _ (ids (openPositions status))).
  - unfold ids. apply existsb_pointwise. intros k. rewrite has_positionsMap. reflexivity.
  - intros k. apply in_keys_positionsMap.
Qed.

Lemma removed_hit (last status : TradingStatus.t) :
  existsb (fun k => negb (JsMap.has k (positionsMap (openPositions status))))
          (JsMap.keys (positionsMap (openPositions last)))
  = anyRemoved last status.
Proof.
  unfold anyRemoved, isRemoved.
  rewrite <- (existsb_map Position.id (fun k => negb (hasId _ k))).
  rewrite (existsb_same_elements _ _ (ids (openPositions last))).
  - unfold ids. apply existsb_pointwise. intros k. rewrite has_positionsMap. reflexivity.
  - intros k. apply in_keys_positionsMap.
Qed.

(** The verdict is the disjunction of the five checks, in order. *)
Lemma detectChanges_checks (last status : TradingStatus.t) :
  detectChanges (Some last) status
  = countMismatch last status || anyAdded last status || anyMaterial last status
    || anyRemoved last status || valueDrift last status.
Proof.
  unfold detectChanges, detection, countMismatch.
  destruct (negb (Nat.eqb _ _)); [reflexivity |]. simpl.
  pose proof (scanCurrent_hit last (positionsMap (openPositions status))) as HC.
  rewrite existsb_orb, added_hit in HC. fold (anyMaterial last status) in HC.
  destruct (scanCurrent _ _).
  - rewrite <- HC. reflexivity.
  - rewrite <- HC. simpl.
    pose proof (scanLast_hit (positionsMap (openPositions status))
                  (JsMap.keys (positionsMap (openPositions last)))) as HL.
    rewrite removed_hit in HL.
    destruct (scanLast _ _).
    + rewrite <- HL. reflexivity.
    + rewrite <- HL. simpl. fold (valueDrift last status).
      destruct (valueDrift last status); reflexivity.
Qed.
End DetectorFacts.

(** ** One poll tick *)

Section TickFacts.
Import TradingStatus AccountMonitor Detector Snapshots.
Context {World : Type}.
Variable env : Environment World.
Variable options : MonitorOptions World.

Lemma getStatus_fulfilled (s : State World) w up :
  getUserPositions env (targetAddress options) (world s) = (w, Normal up) ->
  getStatus env options s
  = ({| isMonitoring := isMonitoring s; lastStatus := lastStatus s;
        lastPollTime := lastPollTime s; pollIntervalId := pollIntervalId s;
        world := w; events := events s |},
     Normal (statusOf (targetAddress options) up (toISOString env w))).
Proof.
  intros H. unfold getStatus, Eff.tryCatch, Eff.bind, Eff.settled, call.
  rewrite H. reflexivity.
Qed.

Lemma getStatus_rejected (s : State World) w e :
  getUserPositions env (targetAddress options) (world s) = (w, Throw e) ->
  getStatus env options s
  = ({| isMonitoring := isMonitoring s; lastStatus := lastStatus s;
        lastPollTime := lastPollTime s; pollIntervalId := pollIntervalId s; world := w;
        events := events s ++ [WarnFetchFailed (strOr (message e) "Unknown error")] |},
     Normal (emptyStatus (targetAddress options) (toISOString env w))).
Proof.
  intros H. unfold getStatus, Eff.tryCatch, Eff.bind, Eff.settled, call.
  rewrite H. reflexivity.
Qed.

Lemma detection_first (status : TradingStatus.t) :
  detection None status = FirstStatus.
Proof. reflexivity. Qed.

Lemma detection_later (last status : TradingStatus.t) :
  detection (Some last) status <> FirstStatus.
Proof.
  unfold detection.
  destruct (negb _); [discriminate |].
  destruct (scanCurrent _ _); [discriminate |].
  destruct (scanLast _ _); [discriminate |].
  destruct (totalValueChanged _ _); discriminate.
Qed.

(** The tick after [getStatus]: console lines, then -- when the detector
    fires -- the snapshot is replaced and [onUpdate] called. *)
Lemma applyStatus_run (status : TradingStatus.t) (s : State World) :
  applyStatus env options status s
  = let due := pollLogDue (lastPollTime s) (dateNow env (world s)) in
    let polled := if due then Some (dateNow env (world s)) else lastPollTime s in
    let lines := (events s ++ consoleLines (lastStatus s) status due)%list in
    if detectChanges (lastStatus s) status then
      let '(w, r) := onUpdate options status (world s) in
      ({| isMonitoring := isMonitoring s; lastStatus := Some status;
          lastPollTime := polled; pollIntervalId := pollIntervalId s; world := w;
          events := lines ++ [CallOnUpdate status] |}, r)
    else
      ({| isMonitoring := isMonitoring s; lastStatus := lastStatus s;
          lastPollTime := polled; pollIntervalId := pollIntervalId s;
          world := world s; events := lines |}, Normal tt).
Proof.
  unfold applyStatus, consoleLines, Eff.bind, Eff.gets, Eff.when, Eff.ret,
    Eff.modify, callOnUpdate, setLastStatus, setLastPollTime, emit, call,
    Eff.bind, Eff.modify.
  destruct s as [mon last poll timer w ev].
  cbn [lastStatus lastPollTime pollIntervalId world events isMonitoring].
  unfold detectChanges.
  destruct last as [last |].
  - pose proof (detection_later last status) as NF.
    destruct (detection (Some last) status) eqn:D; [congruence | |];
      cbn [lastStatus lastPollTime world events isMonitoring orb app];
      destruct (pollLogDue poll (dateNow env w));
      cbn [lastStatus lastPollTime world events isMonitoring orb app];
      try destruct (onUpdate options status w) as [w1 r];
      rewrite <- ?app_assoc, ?app_nil_r; reflexivity.
  - rewrite detection_first.
    cbn [lastStatus lastPollTime world events isMonitoring orb app].
    destruct (pollLogDue poll (dateNow env w));
      cbn [lastStatus lastPollTime world events isMonitoring orb app];
      destruct (onUpdate options status w) as [w1 r];
      rewrite <- ?app_assoc, ?app_nil_r; reflexivity.
Qed.
End TickFacts.


Section TickTheorems.
Import TradingStatus AccountMonitor Detector Snapshots.

Lemma updateStatus_run {World : Type} (env : Environment World)
    (options : MonitorOptions World) (s s1 : State World) (status : TradingStatus.t) :
  getStatus env options s = (s1, Normal status) ->
  updateStatus env options s
  = match applyStatus env options status s1 with
    | (s2, Normal a) => (s2, Normal a)
    | (s2, Throw error) =>
        let '(w, r) := onError options error (world s2) in
        ({| isMonitoring := isMonitoring s2; lastStatus := lastStatus s2;
            lastPollTime := lastPollTime s2; pollIntervalId := pollIntervalId s2; world := w;
            events := events s2 ++ [LogErrorDuringUpdate (message error);
                                    CallOnError error] |}, r)
    end.
Proof.
  intros H. unfold updateStatus, Eff.tryCatch, Eff.bind. rewrite H.
  destruct (applyStatus env options status s1) as [s2 [a | error]]; [reflexivity |].
  unfold callOnError, emit, call, Eff.bind, Eff.modify.
  cbn [lastStatus lastPollTime world events isMonitoring].
  destruct (onError options error (world s2)) as [w r].
  rewrite <- app_assoc. reflexivity.
Qed.


End TickTheorems.

Section DetectorTheorems.
Import TradingStatus AccountMonitor Detector Snapshots.

Lemma scanCurrent_miss (last status : TradingStatus.t) :
  scanCurrent (positionsMap (openPositions last)) (positionsMap (openPositions status)) = None ->
  anyAdded last status = false /\ anyMaterial last status = false.
Proof.
  intros H.
  pose proof (scanCurrent_hit last (positionsMap (openPositions status))) as HC.
  rewrite H, existsb_orb, added_hit in HC. symmetry in HC.
  apply orb_false_iff in HC. exact HC.
Qed.

Lemma scanLast_miss (last status : TradingStatus.t) :
  scanLast (positionsMap (openPositions status))
           (JsMap.keys (positionsMap (openPositions last))) = None ->
  anyRemoved last status = false.
Proof.
  intros H.
  pose proof (scanLast_hit (positionsMap (openPositions status))
                (JsMap.keys (positionsMap (openPositions last)))) as HL.
  rewrite H, removed_hit in HL. symmetry. exact HL.
Qed.

(** Each exit of the detector is taken only when the checks before it
    found nothing, and reports a hit of its own check. *)
Lemma detection_order (last status : TradingStatus.t) :
  match detection (Some last) status with
  | FirstStatus => False
  | Changed (CountChanged _ _) => countMismatch last status = true
  | Changed (NewPositionId id) =>
      countMismatch last status = false
      /\ In id (ids (openPositions status))
      /\ hasId (openPositions last) id = false
  | Changed (QuantityChanged id _ _) =>
      countMismatch last status = false
      /\ exists p, In (id, p) (positionsMap (openPositions status))
                   /\ isMaterial last (id, p) = true
  | Changed (PositionRemoved id) =>
      countMismatch last status = false
      /\ anyAdded last status = false /\ anyMaterial last status = false
      /\ In id (ids (openPositions last))
      /\ hasId (openPositions status) id = false
  | Changed (TotalValueChanged _ _) =>
      countMismatch last status = false
      /\ anyAdded last status = false /\ anyMaterial last status = false
      /\ anyRemoved last status = false
      /\ valueDrift last status = true
  | Unchanged =>
      countMismatch last status = false
      /\ anyAdded last status = false /\ anyMaterial last status = false
      /\ anyRemoved last status = false
      /\ valueDrift last status = false
  end.
Proof.
  unfold detection. fold (countMismatch last status).
  destruct (countMismatch last status) eqn:C; [reflexivity |].
  destruct (scanCurrent _ _) as [why |] eqn:SC.
  - apply scanCurrent_sound in SC. destruct why; try contradiction.
    + destruct SC as [Hin Hno]. repeat split; [| exact Hno].
      apply in_keys_positionsMap. exact Hin.
    + destruct SC as [p [Hin [Hm _]]]. split; [reflexivity |]. exists p. tauto.
  - apply scanCurrent_miss in SC. destruct SC as [HA HM].
    destruct (scanLast _ _) as [why |] eqn:SL.
    + apply scanLast_sound in SL. destruct SL as [id [-> [Hin Hno]]].
      repeat split; try assumption.
      * apply in_keys_positionsMap. exact Hin.
      * rewrite <- has_positionsMap. exact Hno.
    + apply scanLast_miss in SL. fold (valueDrift last status).
      destruct (valueDrift last status); repeat split; assumption.
Qed.

Lemma added_complete (last status : TradingStatus.t) (p : Position.t) :
  In p (openPositions status) -> isAdded last p = true ->
  In p (added (changeReport last status)).
Proof.
  intros Hin Ha. simpl. unfold newPositions. apply filter_In. split; [exact Hin |].
  unfold isAdded, hasId in Ha. unfold sameId. exact Ha.
Qed.

Lemma removed_complete (last status : TradingStatus.t) (lp : Position.t) :
  In lp (openPositions last) -> isRemoved status lp = true ->
  In lp (removed (changeReport last status)).
Proof.
  intros Hin Hr. simpl. unfold removedPositions. apply filter_In. split; [exact Hin |].
  unfold isRemoved, hasId in Hr. unfold sameId. exact Hr.
Qed.

Lemma updated_complete (last status : TradingStatus.t) (p lp : Position.t) :
  In p (openPositions status) ->
  find (fun q => sameId q p) (openPositions last) = Some lp ->
  quantityChanged (JS.parseFloat (Position.quantity p))
                  (JS.parseFloat (Position.quantity lp)) = true ->
  In {| position := p; oldQty := Position.quantity lp; newQty := Position.quantity p |}
     (updated (changeReport last status)).
Proof.
  intros Hin Hf Hq. simpl. unfold updatedPositions. apply in_flat_map.
  exists p. split; [exact Hin |]. rewrite Hf, Hq. left. reflexivity.
Qed.

(** The loop over the current ids stops at the first entry that is new or
    whose quantity moved: the entries before it were held before and did
    not move. *)
Lemma scanCurrent_first (last : TradingStatus.t) (entries : list (string * Position.t)) why :
  scanCurrent (positionsMap (openPositions last)) entries = Some why ->
  exists before id p after,
    entries = (before ++ (id, p) :: after)%list
    /\ forallb (passed last) before = true
    /\ match why with
       | NewPositionId id' => id' = id /\ hasId (openPositions last) id = false
       | QuantityChanged id' lastQty currentQty =>
           id' = id /\ hasId (openPositions last) id = true
           /\ isMaterial last (id, p) = true
           /\ currentQty = JS.parseFloat (Position.quantity p)
       | _ => False
       end.
Proof.
  induction entries as [| [id p] rest IH]; cbn [scanCurrent]; [discriminate |].
  destruct (JsMap.get id (positionsMap (openPositions last))) as [lp |] eqn:G.
  - assert (Hh : hasId (openPositions last) id = true).
    { rewrite <- has_positionsMap. unfold JsMap.has. rewrite G. reflexivity. }
    destruct (quantityChanged _ _) eqn:Q.
    + intros H. inversion H; subst why. exists [], id, p, rest.
      split; [reflexivity |]. split; [reflexivity |].
      split; [reflexivity |]. split; [exact Hh |]. split; [| reflexivity].
      unfold isMaterial. cbn [fst snd]. rewrite G. exact Q.
    + intros H. destruct (IH H) as (before & id' & p' & after & E & B & W).
      exists ((id, p) :: before), id', p', after.
      split; [rewrite E; reflexivity |]. split; [| exact W].
      cbn [forallb]. rewrite B, andb_true_r. unfold passed. cbn [fst].
      rewrite Hh. unfold isMaterial. cbn [fst snd]. rewrite G, Q. reflexivity.
  - intros H. inversion H; subst why. exists [], id, p, rest.
    split; [reflexivity |]. split; [reflexivity |]. split; [reflexivity |].
    rewrite <- has_positionsMap. unfold JsMap.has. rewrite G. reflexivity.
Qed.

(** The lists of the change report, each in the order of its snapshot. *)
Lemma report_added (last status : TradingStatus.t) :
  added (changeReport last status) = filter (isAdded last) (openPositions status).
Proof.
  cbn [added changeReport]. unfold newPositions. apply filter_ext.
  intros p. unfold isAdded, hasId, sameId. reflexivity.
Qed.

Lemma report_removed (last status : TradingStatus.t) :
  removed (changeReport last status) = filter (isRemoved status) (openPositions last).
Proof.
  cbn [removed changeReport]. unfold removedPositions. apply filter_ext.
  intros p. unfold isRemoved, hasId, sameId. reflexivity.
Qed.

Lemma report_updated (last status : TradingStatus.t) :
  updated (changeReport last status)
  = map (updateOf last) (filter (isUpdated last) (openPositions status)).
Proof.
  cbn [updated changeReport]. unfold updatedPositions.
  induction (openPositions status) as [| p rest IH]; [reflexivity |].
  cbn [flat_map filter]. rewrite IH.
  match goal with
  | |- (?head ++ _)%list = _ =>
      assert (H : head = if isUpdated last p then [updateOf last p] else [])
  end.
  { unfold isUpdated, updateOf, previousOf, sameId.
    destruct (find _ (openPositions last)) as [lp |]; [| reflexivity].
    destruct (quantityChanged _ _); reflexivity. }
  rewrite H. destruct (isUpdated last p); reflexivity.
Qed.

(** The console lines and calls of a tick on which the detector fired. *)
Lemma changed_tick {World : Type} (env : Environment World) (options : MonitorOptions World)
    (s : State World) (last : TradingStatus.t) (w : World) (up : UserPositions.t) why :
  lastStatus s = Some last ->
  getUserPositions env (targetAddress options) (world s) = (w, Normal up) ->
  let status := statusOf (targetAddress options) up (toISOString env w) in
  detection (Some last) status = Changed why ->
  exists polling errs,
    events (fst (updateStatus env options s))
    = (events s ++ DebugLine why :: polling
         ++ LogChanges (changeReport last status) :: CallOnUpdate status :: errs)%list
    /\ (polling = [] \/ polling = [LogPolling (List.length (openPositions status))])
    /\ (errs = []
        \/ exists e, errs = [LogErrorDuringUpdate (message e); CallOnError e]).
Proof.
  intros L F status D.
  assert (V : detectChanges (Some last) status = true)
    by (unfold detectChanges; rewrite D; reflexivity).
  rewrite (updateStatus_run env options s _ _ (getStatus_fulfilled env options s w up F)).
  rewrite applyStatus_run. fold status.
  cbn [lastStatus lastPollTime pollIntervalId world events isMonitoring]. rewrite L, V.
  unfold consoleLines. rewrite D, V.
  destruct (onUpdate options status w) as [w1 [[] | e1]];
    cbn [lastStatus lastPollTime pollIntervalId world events isMonitoring fst snd];
    [| destruct (onError options e1 w1) as [w2 r2];
       cbn [lastStatus lastPollTime pollIntervalId world events isMonitoring fst snd]];
    (destruct (pollLogDue (lastPollTime s) (dateNow env w));
     [exists [LogPolling (List.length (openPositions status))] | exists []]).
  1, 2: exists [].
  3, 4: exists [LogErrorDuringUpdate (message e1); CallOnError e1].
  all: rewrite <- ?app_assoc; cbn [app]; (split; [reflexivity |]); split; eauto.
Qed.

(** C2 (as amended): with a previous snapshot, the detector tests the
    count, then for each current id in snapshot order whether the id is
    new and then whether its quantity moved -- the two tests are taken id
    by id, so that an exit at an id says that the ids before it were held
    before and did not move --, then the removals, then the drift of the
    total; it returns at the first hit, so that its verdict is the
    disjunction of the five checks.  On a tick on which it fired, the one
    debug line is that of the first hit, and the added, updated and
    removed lists are then computed in full, whichever check fired: the
    current positions whose id was not held, the current positions whose
    quantity moved against the first previous position with their id, and
    the previous positions whose id is gone, each in snapshot order. *)
Theorem detector_checks_in_order_and_full_lists
    {World : Type} (env : Environment World) (options : MonitorOptions World)
    (s : State World) (last : TradingStatus.t) (w : World) (up : UserPositions.t) :
  lastStatus s = Some last ->
  getUserPositions env (targetAddress options) (world s) = (w, Normal up) ->
  let status := statusOf (targetAddress options) up (toISOString env w) in
  let report := changeReport last status in
  let current := positionsMap (openPositions status) in
  detectChanges (Some last) status
  = countMismatch last status || anyAdded last status || anyMaterial last status
    || anyRemoved last status || valueDrift last status
  /\ match detection (Some last) status with
     | FirstStatus => False
     | Changed (CountChanged _ _) => countMismatch last status = true
     | Changed (NewPositionId id) =>
         countMismatch last status = false
         /\ exists before p after,
              current = (before ++ (id, p) :: after)%list
              /\ forallb (passed last) before = true
              /\ hasId (openPositions last) id = false
     | Changed (QuantityChanged id _ _) =>
         countMismatch last status = false
         /\ exists before p after,
              current = (before ++ (id, p) :: after)%list
              /\ forallb (passed last) before = true
              /\ hasId (openPositions last) id = true
              /\ isMaterial last (id, p) = true
     | Changed (PositionRemoved id) =>
         countMismatch last status = false
         /\ anyAdded last status = false /\ anyMaterial last status = false
         /\ In id (ids (openPositions last))
         /\ hasId (openPositions status) id = false
     | Changed (TotalValueChanged _ _) =>
         countMismatch last status = false
         /\ anyAdded last status = false /\ anyMaterial last status = false
         /\ anyRemoved last status = false
         /\ valueDrift last status = true
     | Unchanged =>
         countMismatch last status = false
         /\ anyAdded last status = false /\ anyMaterial last status = false
         /\ anyRemoved last status = false
         /\ valueDrift last status = false
     end
  /\ (forall why, detection (Some last) status = Changed why ->
      exists polling errs,
        events (fst (updateStatus env options s))
        = (events s ++ DebugLine why :: polling
             ++ LogChanges report :: CallOnUpdate status :: errs)%list
        /\ (polling = [] \/ polling = [LogPolling (List.length (openPositions status))])
        /\ (errs = []
            \/ exists e, errs = [LogErrorDuringUpdate (message e); CallOnError e]))
  /\ added report = filter (isAdded last) (openPositions status)
  /\ updated report = map (updateOf last) (filter (isUpdated last) (openPositions status))
  /\ removed report = filter (isRemoved status) (openPositions last).
Proof.
  intros L F status report current.
  split; [apply detectChanges_checks |].
  split; [| split; [| split; [| split]]].
  - pose proof (detection_order last status) as O.
    destruct (detection (Some last) status) as [| why |] eqn:D; try exact O.
    destruct why as [n m | id | id q q' | id | v v']; try exact O.
    + destruct O as (C & _). split; [exact C |].
      unfold detection in D. fold (countMismatch last status) in D. rewrite C in D.
      cbv zeta in D.
      destruct (scanCurrent _ _) as [why |] eqn:SC.
      * inversion D; subst why.
        destruct (scanCurrent_first last _ _ SC) as (before & id' & p & after & E & B & <- & H).
        exists before, p, after. auto.
      * destruct (scanLast _ _) as [why |] eqn:SL.
        -- apply scanLast_sound in SL. destruct SL as (k & -> & _). discriminate D.
        -- destruct (totalValueChanged _ _); discriminate D.
    + destruct O as (C & _). split; [exact C |].
      unfold detection in D. fold (countMismatch last status) in D. rewrite C in D.
      cbv zeta in D.
      destruct (scanCurrent _ _) as [why |] eqn:SC.
      * inversion D; subst why.
        destruct (scanCurrent_first last _ _ SC)
          as (before & id' & p & after & E & B & <- & H1 & H2 & _).
        exists before, p, after. auto.
      * destruct (scanLast _ _) as [why |] eqn:SL.
        -- apply scanLast_sound in SL. destruct SL as (k & -> & _). discriminate D.
        -- destruct (totalValueChanged _ _); discriminate D.
  - intros why D. exact (changed_tick env options s last w up why L F D).
  - apply report_added.
  - apply report_updated.
  - apply report_removed.
Qed.
End DetectorTheorems.

Section ThresholdTheorems.
Import TradingStatus AccountMonitor Detector Snapshots.

(** C5 (as amended): for an id held by both snapshots, [q] and [q'] being
    the binary64 numbers [parseFloat] reads from the previous and the
    current quantity, the position is a material quantity change exactly
    when the computed change -- the binary64 difference [q' - q], made
    positive -- exceeds the computed threshold -- the larger of 1 and the
    binary64 product [q * 0.01] --, and a material change makes the verdict
    true.  A computed change equal to the computed threshold is not
    material, and one at least one unit above it is.  The change report
    lists a current position as updated exactly under the same test,
    against the first previous position with its id. *)
Theorem material_quantity_threshold
    (last status : TradingStatus.t) (id : string) (p lp : Position.t) :
  In (id, p) (positionsMap (openPositions status)) ->
  JsMap.get id (positionsMap (openPositions last)) = Some lp ->
  let q := JS.parseFloat (Position.quantity lp) in
  let q' := JS.parseFloat (Position.quantity p) in
  let change := JS.abs (PrimFloat.sub q' q) in
  let threshold := JS.max PrimFloat.one (PrimFloat.mul q onePercent) in
  isMaterial last (id, p) = gt change threshold
  /\ (gt change threshold = true -> detectChanges (Some last) status = true)
  /\ (change = threshold -> isMaterial last (id, p) = false)
  /\ (forall c t, JS.exactScaled change = Some c -> JS.exactScaled threshold = Some t ->
      (isMaterial last (id, p) = true <-> (t < c)%Z)
      /\ ((c <= t)%Z -> isMaterial last (id, p) = false)
      /\ ((t + JS.wholeUnit <= c)%Z -> isMaterial last (id, p) = true))
  /\ (forall u, In u (updated (changeReport last status)) ->
      exists lu, find (fun x => sameId x (position u)) (openPositions last) = Some lu
                 /\ gt (JS.abs (PrimFloat.sub (JS.parseFloat (Position.quantity (position u)))
                                              (JS.parseFloat (Position.quantity lu))))
                       (JS.max PrimFloat.one
                               (PrimFloat.mul (JS.parseFloat (Position.quantity lu)) onePercent))
                    = true)
  /\ (forall c lc, In c (openPositions status) -> previousOf last c = Some lc ->
      In (updateOf last c) (updated (changeReport last status))
      <-> gt (JS.abs (PrimFloat.sub (JS.parseFloat (Position.quantity c))
                                    (JS.parseFloat (Position.quantity lc))))
             (JS.max PrimFloat.one
                     (PrimFloat.mul (JS.parseFloat (Position.quantity lc)) onePercent))
          = true).
Proof.
  intros Hin Hget q q' change threshold.
  assert (Hm : isMaterial last (id, p) = gt change threshold).
  { unfold isMaterial. simpl. rewrite Hget. reflexivity. }
  split; [exact Hm |]. split; [| split; [| split; [| split]]].
  5: { intros c lc Hc Hprev. rewrite report_updated.
       assert (Hu : isUpdated last c
                    = gt (JS.abs (PrimFloat.sub (JS.parseFloat (Position.quantity c))
                                                (JS.parseFloat (Position.quantity lc))))
                         (JS.max PrimFloat.one
                                 (PrimFloat.mul (JS.parseFloat (Position.quantity lc))
                                                onePercent))).
       { unfold isUpdated. rewrite Hprev. reflexivity. }
       rewrite <- Hu. split.
       - intros Hi. apply in_map_iff in Hi. destruct Hi as (c' & Heq & Hf).
         apply filter_In in Hf. destruct Hf as [_ Hf].
         assert (Hc' : c' = c) by (apply (f_equal position) in Heq; exact Heq).
         subst c'. exact Hf.
       - intros Hi. apply in_map. apply filter_In. split; assumption. }
  - intros Hgt. rewrite detectChanges_checks.
    assert (anyMaterial last status = true) as ->.
    { unfold anyMaterial. apply existsb_exists. exists (id, p). split; [exact Hin |].
      rewrite Hm. exact Hgt. }
    rewrite !orb_true_r. reflexivity.
  - intros E. rewrite Hm, E. apply gt_irrefl.
  - intros c t Hc Ht. rewrite Hm, (gt_exact change threshold c t Hc Ht).
    assert (0 < JS.wholeUnit)%Z by reflexivity.
    split; [apply Z.ltb_lt |]. split; intros Hle; [apply Z.ltb_ge | apply Z.ltb_lt]; lia.
  - intros u Hu. simpl in Hu. unfold updatedPositions in Hu.
    apply in_flat_map in Hu. destruct Hu as [c [Hc Hu]].
    destruct (find (fun x => sameId x c) (openPositions last)) as [lu |] eqn:F;
      [| contradiction].
    destruct (quantityChanged _ _) eqn:Q; [| contradiction].
    destruct Hu as [<- | []]. simpl. exists lu. split; [exact F | exact Q].
Qed.

(** C6 (as amended): when the counts agree, no id was added or removed and
    no quantity moved materially, [v] and [v'] being the binary64 numbers
    [parseFloat] reads from the previous and the current total, the
    detector reports a change exactly when the computed ratio -- the
    binary64 difference [v' - v], made positive, divided in binary64 by the
    larger of [v] and 0.01 -- exceeds the binary64 constant 0.01.  A
    computed ratio equal to that constant yields no change, any computed
    ratio above it does. *)
Theorem value_drift_threshold (last status : TradingStatus.t) :
  countMismatch last status = false ->
  anyAdded last status = false ->
  anyMaterial last status = false ->
  anyRemoved last status = false ->
  let v := JS.parseFloat (totalValue last) in
  let v' := JS.parseFloat (totalValue status) in
  let ratio := PrimFloat.div (JS.abs (PrimFloat.sub v' v)) (JS.max v onePercent) in
  detectChanges (Some last) status = gt ratio onePercent
  /\ (ratio = onePercent -> detectChanges (Some last) status = false)
  /\ (forall r h, JS.exactScaled ratio = Some r -> JS.exactScaled onePercent = Some h ->
      (detectChanges (Some last) status = true <-> (h < r)%Z)
      /\ ((r <= h)%Z -> detectChanges (Some last) status = false)).
Proof.
  intros HC HA HM HR v v' ratio.
  assert (E : detectChanges (Some last) status = gt ratio onePercent).
  { rewrite detectChanges_checks, HC, HA, HM, HR. reflexivity. }
  split; [exact E |]. split.
  - intros R. rewrite E, R. apply gt_irrefl.
  - intros r h Hr Hh. rewrite E, (gt_exact ratio onePercent r h Hr Hh).
    split; [apply Z.ltb_lt | intros Hle; apply Z.ltb_ge; lia].
Qed.
End ThresholdTheorems.

Section BootstrapTheorems.
Import TradingStatus AccountMonitor Detector Snapshots.

Lemma fold_left_map {A B C} (f : A -> C -> A) (g : B -> C) (l : list B) : forall a,
  fold_left f (map g l) a = fold_left (fun a x => f a (g x)) l a.
Proof.
  induction l as [| x l IH]; intros a; simpl; [reflexivity | apply IH].
Qed.

Lemma currentPositions_map (status : TradingStatus.t) :
  CopyTradingMonitor.currentPositions status = positionsMap (openPositions status).
Proof.
  unfold CopyTradingMonitor.currentPositions, positionsMap, JsMap.fromEntries, JsMap.setAll.
  rewrite fold_left_map. reflexivity.
Qed.

(** C7 (as amended): without a previous snapshot the detector reports a
    change whatever the current snapshot is, before any comparison.  The
    tick stores the snapshot as the new previous one and calls [onUpdate]
    with it, and that is all it does besides the polling line when due:
    the added, updated and removed lists are built, and the change report
    and the detector's debug line logged, only when a previous snapshot
    exists.  When [onUpdate] returns the tick ends in its world; when it
    throws, the error is logged and passed to [onError]. *)
Theorem bootstrap_reports_change_without_lists
    {World : Type} (env : Environment World) (options : MonitorOptions World)
    (s : State World) (w : World) (up : UserPositions.t) :
  lastStatus s = None ->
  getUserPositions env (targetAddress options) (world s) = (w, Normal up) ->
  let status := statusOf (targetAddress options) up (toISOString env w) in
  let due := pollLogDue (lastPollTime s) (dateNow env w) in
  let polling := if due then [LogPolling (List.length (openPositions status))] else [] in
  let called := onUpdate options status w in
  let out := updateStatus env options s in
  detectChanges None status = true
  /\ detection None status = FirstStatus
  /\ lastStatus (fst out) = Some status
  /\ lastPollTime (fst out) = (if due then Some (dateNow env w) else lastPollTime s)
  /\ (exists errs,
        events (fst out) = (events s ++ polling ++ CallOnUpdate status :: errs)%list
        /\ (snd called = Normal tt ->
            errs = [] /\ world (fst out) = fst called /\ snd out = Normal tt)
        /\ (forall e, snd called = Throw e ->
            errs = [LogErrorDuringUpdate (message e); CallOnError e]
            /\ world (fst out) = fst (onError options e (fst called))))
  /\ (forall new, events (fst out) = (events s ++ new)%list ->
      existsb isLogChanges new = false /\ existsb isDebugLine new = false).
Proof.
  intros L F status due polling called out.
  split; [reflexivity |]. split; [apply detection_first |].
  assert (HT : lastStatus (fst out) = Some status
               /\ lastPollTime (fst out)
                  = (if due then Some (dateNow env w) else lastPollTime s)
               /\ exists errs,
                    events (fst out)
                    = (events s ++ polling ++ CallOnUpdate status :: errs)%list
                    /\ (snd called = Normal tt ->
                        errs = [] /\ world (fst out) = fst called /\ snd out = Normal tt)
                    /\ (forall e, snd called = Throw e ->
                        errs = [LogErrorDuringUpdate (message e); CallOnError e]
                        /\ world (fst out) = fst (onError options e (fst called)))
                    /\ existsb isLogChanges (polling ++ CallOnUpdate status :: errs) = false
                    /\ existsb isDebugLine (polling ++ CallOnUpdate status :: errs) = false).
  { subst out called polling due.
    rewrite (updateStatus_run env options s _ _ (getStatus_fulfilled env options s w up F)).
    rewrite applyStatus_run. fold status.
    cbn [lastStatus lastPollTime pollIntervalId world events isMonitoring]. rewrite L.
    unfold consoleLines. rewrite detection_first.
    change (detectChanges None status) with true. cbn iota.
    destruct (onUpdate options status w) as [w1 [[] | e1]];
      cbn [lastStatus lastPollTime pollIntervalId world events isMonitoring fst snd];
      [| destruct (onError options e1 w1) as [w2 r2] eqn:HE];
      cbn [lastStatus lastPollTime pollIntervalId world events isMonitoring fst snd];
      (split; [reflexivity |]); (split; [reflexivity |]).
    - exists [].
      split; [destruct (pollLogDue (lastPollTime s) (dateNow env w));
              rewrite <- ?app_assoc; reflexivity |].
      split; [intros _; repeat split |]. split; [intros e He; discriminate He |].
      destruct (pollLogDue (lastPollTime s) (dateNow env w)); split; reflexivity.
    - exists [LogErrorDuringUpdate (message e1); CallOnError e1].
      split; [destruct (pollLogDue (lastPollTime s) (dateNow env w));
              rewrite <- ?app_assoc; reflexivity |].
      split; [intros He; discriminate He |].
      split; [intros e He; inversion He; subst e; rewrite HE; split; reflexivity |].
      destruct (pollLogDue (lastPollTime s) (dateNow env w)); split; reflexivity. }
  destruct HT as (H1 & H2 & errs & H3 & H4 & H5 & H6 & H7).
  split; [exact H1 |]. split; [exact H2 |]. split.
  - exists errs. split; [exact H3 |]. split; [exact H4 | exact H5].
  - intros new Hn. rewrite H3 in Hn. apply app_inv_head in Hn. subst new.
    split; assumption.
Qed.
End BootstrapTheorems.

(** ** Values and totals *)

Lemma isNaN_spec (x : number) : JS.isNaN x = true <-> Prim2SF x = S754_nan.
Proof.
  unfold JS.isNaN, PrimFloat.is_nan. rewrite eqb_spec. unfold SFeqb, SFcompare.
  destruct (Prim2SF x) as [s | s | | s m e]; try destruct s; simpl;
    rewrite ?Z.compare_refl, ?Pos.compare_cont_refl; simpl;
    split; intros H; try reflexivity; discriminate H.
Qed.

Lemma isNaN_nan (x : number) : JS.isNaN x = true -> x = PrimFloat.nan.
Proof.
  intros H. apply isNaN_spec in H. apply Prim2SF_inj. rewrite H. reflexivity.
Qed.

Section TotalTheorems.
Import PolymarketClient Normalisation.

Lemma strOr_zero_parse (s : string) :
  (if JS.isNaN (JS.parseFloat (strOr s "0")) then PrimFloat.zero
   else JS.parseFloat (strOr s "0"))
  = (if JS.isNaN (JS.parseFloat s) then PrimFloat.zero else JS.parseFloat s).
Proof.
  unfold strOr. destruct (String.eqb s "") eqn:E; [| reflexivity].
  apply String.eqb_eq in E. subst s. reflexivity.
Qed.

Lemma total_is_sum (positions : list Position.t) : forall acc,
  fold_left
    (fun sum pos =>
       let value := JS.parseFloat (strOr (Position.value pos) "0") in
       PrimFloat.add sum (if JS.isNaN value then PrimFloat.zero else value))
    positions acc
  = sumFrom acc positions.
Proof.
  induction positions as [| pos rest IH]; intros acc; simpl.
  - reflexivity.
  - rewrite IH. unfold contribution. cbv zeta. rewrite strOr_zero_parse. reflexivity.
Qed.

(** *** Digits *)

Lemma isDigit_digitChar (d : Z) : (0 <= d < 10)%Z -> JS.isDigit (JS.digitChar d) = true.
Proof.
  intros H.
  assert (d = 0 \/ d = 1 \/ d = 2 \/ d = 3 \/ d = 4 \/ d = 5 \/ d = 6 \/ d = 7
          \/ d = 8 \/ d = 9)%Z as Hd by lia.
  repeat (destruct Hd as [-> | Hd]; [reflexivity |]). subst d. reflexivity.
Qed.

Lemma allDigits_app (a b : string) :
  allDigits (a ++ b) = allDigits a && allDigits b.
Proof.
  induction a as [| c a IH]; simpl; [reflexivity |].
  rewrite IH. apply andb_assoc.
Qed.

Lemma allDigits_digitsFuel (fuel : nat) : forall n acc,
  allDigits acc = true -> allDigits (JS.digitsFuel fuel n acc) = true.
Proof.
  induction fuel as [| fuel IH]; intros n acc H; cbn [JS.digitsFuel]; [exact H |].
  destruct (n <=? 0)%Z; [exact H |].
  apply IH. cbn [allDigits]. rewrite H, isDigit_digitChar; [reflexivity |].
  apply Z.mod_pos_bound. lia.
Qed.

Lemma digitsFuel_nonempty (fuel : nat) : forall n acc,
  acc <> "" -> JS.digitsFuel fuel n acc <> "".
Proof.
  induction fuel as [| fuel IH]; intros n acc H; cbn [JS.digitsFuel]; [exact H |].
  destruct (n <=? 0)%Z; [exact H |]. apply IH. discriminate.
Qed.

Lemma decimal_digits (n : Z) :
  allDigits (JS.decimal n) = true /\ JS.decimal n <> "".
Proof.
  unfold JS.decimal. destruct (n <=? 0)%Z eqn:E.
  - split; [reflexivity | discriminate].
  - unfold JS.digits. cbn [JS.digitsFuel]. rewrite E. split.
    + apply allDigits_digitsFuel. cbn [allDigits]. rewrite isDigit_digitChar; [reflexivity |].
      apply Z.mod_pos_bound. lia.
    + apply digitsFuel_nonempty. discriminate.
Qed.

Lemma allDigits_zeros (n : nat) : allDigits (JS.zeros n) = true.
Proof. induction n; simpl; [reflexivity | exact IHn]. Qed.

Lemma length_zeros (n : nat) : String.length (JS.zeros n) = n.
Proof. induction n; simpl; [reflexivity | rewrite IHn; reflexivity]. Qed.

Lemma length_app (a b : string) :
  String.length (a ++ b) = (String.length a + String.length b)%nat.
Proof. induction a; simpl; [reflexivity | rewrite IHa; reflexivity]. Qed.

Lemma allDigits_takeS (n : nat) : forall s,
  allDigits s = true -> allDigits (JS.takeS n s) = true.
Proof.
  induction n as [| n IH]; intros [| c s] H; simpl; try reflexivity.
  simpl in H. apply andb_true_iff in H. destruct H as [H1 H2].
  rewrite H1, IH by exact H2. reflexivity.
Qed.

Lemma allDigits_dropS (n : nat) : forall s,
  allDigits s = true -> allDigits (JS.dropS n s) = true.
Proof.
  induction n as [| n IH]; intros [| c s] H; simpl; try reflexivity; try exact H.
  simpl in H. apply andb_true_iff in H. apply IH. tauto.
Qed.

Lemma length_dropS (n : nat) : forall s,
  String.length (JS.dropS n s) = (String.length s - n)%nat.
Proof.
  induction n as [| n IH]; intros [| c s]; simpl; try reflexivity. apply IH.
Qed.

Lemma takeS_nonempty (n : nat) (s : string) :
  (0 < n)%nat -> s <> "" -> JS.takeS n s <> "".
Proof.
  destruct n; [lia |]. destruct s; [contradiction |]. discriminate.
Qed.

Lemma unsignedFixed_digits (f : nat) (b : string) : forall a seen,
  allDigits a = true -> (seen = true \/ a <> "") ->
  allDigits b = true -> String.length b = f ->
  unsignedFixed f seen (a ++ "." ++ b) = true.
Proof.
  induction a as [| c a IH]; intros seen Ha Hs Hb Hl.
  - simpl. destruct Hs as [-> | Hs]; [| contradiction].
    rewrite Hb, Hl, Nat.eqb_refl. reflexivity.
  - simpl in Ha. apply andb_true_iff in Ha. destruct Ha as [Hc Ha].
    change ((String c a ++ "." ++ b)) with (String c (a ++ "." ++ b)).
    cbn [unsignedFixed].
    destruct (Ascii.eqb c ".") eqn:E.
    + apply Ascii.eqb_eq in E. subst c. discriminate Hc.
    + rewrite Hc. apply IH; auto.
Qed.

Lemma pointed_fixed (m : string) (f : nat) :
  (0 < f)%nat -> allDigits m = true -> m <> "" ->
  unsignedFixed f false (JS.pointed m f) = true
  /\ exists c r, JS.pointed m f = String c r /\ JS.isDigit c = true.
Proof.
  intros Hf Hm Hne. unfold JS.pointed. destruct f as [| f']; [lia |].
  set (f := S f') in *.
  set (m' := if Nat.leb (String.length m) f
             then JS.zeros (S f - String.length m) ++ m else m).
  assert (Hm' : allDigits m' = true).
  { subst m'. destruct (Nat.leb _ _); [| exact Hm].
    rewrite allDigits_app, allDigits_zeros, Hm. reflexivity. }
  assert (Hlen : (f < String.length m')%nat).
  { subst m'. destruct (Nat.leb (String.length m) f) eqn:E.
    - apply Nat.leb_le in E. rewrite length_app, length_zeros. lia.
    - apply Nat.leb_gt in E. exact E. }
  assert (Hne' : m' <> "").
  { intros E. rewrite E in Hlen. simpl in Hlen. lia. }
  split.
  - apply unsignedFixed_digits.
    + apply allDigits_takeS. exact Hm'.
    + right. apply takeS_nonempty; [lia | exact Hne'].
    + apply allDigits_dropS. exact Hm'.
    + rewrite length_dropS. lia.
  - destruct m' as [| c r] eqn:E; [contradiction |].
    destruct (String.length (String c r) - f)%nat eqn:K; [simpl in *; lia |].
    simpl. exists c. eexists. split; [reflexivity |].
    simpl in Hm'. apply andb_true_iff in Hm'. tauto.
Qed.

(** A finite number below 10^21 in magnitude is rendered by [toFixed]
    with exactly the requested number of fraction digits. *)
Lemma toFixed_fixed (x : number) (f : nat) :
  (0 < f)%nat -> rendersFixed x = true -> isFixedDecimal f (JS.toFixed x f) = true.
Proof.
  intros Hf Hr. unfold rendersFixed in Hr. unfold JS.toFixed.
  destruct (JS.exactValue x) as [[[sg a] b] |]; [| discriminate].
  apply Z.ltb_lt in Hr.
  destruct (10 ^ 21 * Z.pos b <=? a)%Z eqn:E; [apply Z.leb_le in E; lia |].
  set (n := ((2 * a * 10 ^ Z.of_nat f + Z.pos b) / (2 * Z.pos b))%Z).
  destruct (decimal_digits n) as [Hd Hne].
  destruct (pointed_fixed (JS.decimal n) f Hf Hd Hne) as [Hu [c [r [Hp Hc]]]].
  destruct (sg && (0 <? a)%Z).
  - simpl. exact Hu.
  - simpl. rewrite Hp in *. unfold isFixedDecimal.
    destruct c as [[] [] [] [] [] [] [] []]; try exact Hu; discriminate Hc.
Qed.

(** Any other number is rendered by [toFixed] as [String] renders it. *)
Lemma toFixed_unfixed (x : number) (f : nat) :
  rendersFixed x = false -> JS.toFixed x f = JS.numberToString x.
Proof.
  intros Hr. unfold rendersFixed in Hr. unfold JS.toFixed.
  destruct (JS.exactValue x) as [[[sg a] b] |]; [| reflexivity].
  apply Z.ltb_ge in Hr.
  destruct (10 ^ 21 * Z.pos b <=? a)%Z eqn:E; [reflexivity |].
  apply Z.leb_gt in E. lia.
Qed.

(** C10 (as amended): the snapshot's total value is the sum, from the
    first position on, of the parsed position values (NaN counting as 0)
    rendered by [toFixed(6)]: a decimal string with exactly six fraction
    digits whenever that sum is finite and below 10^21 in magnitude. *)
Theorem total_value_is_rendered_sum (user now : string) (positions : list Position.t) :
  UserPositions.totalValue (userPositionsOf user positions now)
  = calculateTotalValue positions
  /\ calculateTotalValue positions = JS.toFixed (sumOfValues positions) 6
  /\ (rendersFixed (sumOfValues positions) = true ->
      isFixedDecimal 6 (calculateTotalValue positions) = true).
Proof.
  assert (E : calculateTotalValue positions = JS.toFixed (sumOfValues positions) 6).
  { unfold calculateTotalValue, sumOfValues. rewrite total_is_sum. reflexivity. }
  split; [reflexivity |]. split; [exact E |].
  intros H. rewrite E. apply toFixed_fixed; [lia | exact H].
Qed.
End TotalTheorems.

Section ValueTheorems.
Import RawPosition PolymarketClient Normalisation.

(** C4 (as amended): the normalised current value is resolved by
    priority: (a) the upstream current value when present and not the
    number 0, else (b) quantity times current price when both are > 0,
    else (c) the upstream initial value when present and > 0, else (d)
    quantity times average price when both are > 0, else (e) what
    [calculatePositionValue] gives: the product of the raw quantity and
    raw price as [toFixed(6)] renders it -- with six fraction digits
    whenever the product is finite and below 10^21 --, "0" when that
    product is NaN.  It is the value the specification words whenever the
    quantity is > 0 and one of (a) to (d) applies. *)
Theorem normalized_value_priority (item : RawPosition.t) :
  let a := JS.present (currentValue item) && JS.strictNeqZero (currentValue item) in
  let b := gt (curPriceOf item) PrimFloat.zero && gt (sizeOf item) PrimFloat.zero in
  let c := JS.present (initialValue item) && JS.gtZero (initialValue item) in
  let d := gt (avgPriceOf item) PrimFloat.zero && gt (sizeOf item) PrimFloat.zero in
  let rawQuantity :=
    JS.parseFloatOf (JS.orElse (quantity item) (JS.orElse (size item) (JS.VString "0"))) in
  let rawPrice :=
    JS.parseFloatOf (JS.orElse (price item) (JS.orElse (lastPrice item) (JS.VString "0"))) in
  (a = true -> normalizedValue item = JS.toString (currentValue item))
  /\ (a = false -> b = true ->
      normalizedValue item
      = JS.numberToString (PrimFloat.mul (sizeOf item) (curPriceOf item)))
  /\ (a = false -> b = false -> c = true ->
      normalizedValue item = JS.toString (initialValue item))
  /\ (a = false -> b = false -> c = false -> d = true ->
      normalizedValue item
      = JS.numberToString (PrimFloat.mul (sizeOf item) (avgPriceOf item)))
  /\ (a = false -> b = false -> c = false -> d = false ->
      normalizedValue item
      = if JS.isNaN (PrimFloat.mul rawQuantity rawPrice) then "0"
        else JS.toFixed (PrimFloat.mul rawQuantity rawPrice) 6)
  /\ (a = false -> b = false -> c = false -> d = false ->
      rendersFixed (PrimFloat.mul rawQuantity rawPrice) = true ->
      isFixedDecimal 6 (normalizedValue item) = true)
  /\ (gt (sizeOf item) PrimFloat.zero = true -> a || b || c || d = true ->
      normalizedValue item = claimedValue item).
Proof.
  intros a b c d rawQuantity rawPrice.
  assert (Hcode : normalizedValue item
                  = if a then JS.toString (currentValue item)
                    else if b then JS.numberToString (PrimFloat.mul (sizeOf item) (curPriceOf item))
                    else if c then JS.toString (initialValue item)
                    else if d then JS.numberToString (PrimFloat.mul (sizeOf item) (avgPriceOf item))
                    else if JS.isNaN (PrimFloat.mul rawQuantity rawPrice) then "0"
                    else JS.toFixed (PrimFloat.mul rawQuantity rawPrice) 6)
    by reflexivity.
  assert (Hspec : claimedValue item
                  = if a then JS.toString (currentValue item)
                    else if gt (curPriceOf item) PrimFloat.zero
                    then JS.numberToString (PrimFloat.mul (sizeOf item) (curPriceOf item))
                    else if c then JS.toString (initialValue item)
                    else if gt (avgPriceOf item) PrimFloat.zero
                    then JS.numberToString (PrimFloat.mul (sizeOf item) (avgPriceOf item))
                    else "0")
    by reflexivity.
  rewrite Hcode, Hspec. clear Hcode Hspec.
  refine (conj _ (conj _ (conj _ (conj _ (conj _ (conj _ _)))))).
  - intros ->. reflexivity.
  - intros -> ->. reflexivity.
  - intros -> -> ->. reflexivity.
  - intros -> -> -> ->. reflexivity.
  - intros -> -> -> ->. reflexivity.
  - intros -> -> -> -> Hr.
    assert (N : JS.isNaN (PrimFloat.mul rawQuantity rawPrice) = false).
    { apply not_true_is_false. intros N. apply isNaN_spec in N.
      unfold rendersFixed, JS.exactValue in Hr. rewrite N in Hr. discriminate Hr. }
    rewrite N. apply toFixed_fixed; [lia | exact Hr].
  - intros Hsize. subst b d. rewrite Hsize, !andb_true_r.
    destruct a; [reflexivity |].
    destruct (gt (curPriceOf item) PrimFloat.zero); [reflexivity |].
    destruct c; [reflexivity |].
    destruct (gt (avgPriceOf item) PrimFloat.zero); [reflexivity |].
    intros H. discriminate H.
Qed.
End ValueTheorems.

(** ** The executor *)

Section ExecutorFacts.
Import TradeExecutionResult TradeExecutor Guards.
Context {World : Type}.
Variable client : ClobClient World.
Variable config : CopyTradingConfig World.

(** What the call returns once its [try] block has completed. *)
Lemma returningResult_run (position : Position.t) (tryBlock : Eff.M (Frame World) unit)
    (s : State World) fr c :
  tryBlock {| self := s; result := initialResult config position |} = (fr, c) ->
  returningResult config position tryBlock s
  = match c with
    | Normal _ => (self fr, Normal (result fr))
    | Throw e =>
        let '(w, r) := onTradeError config e position (world (self fr)) in
        ({| apiKeyCreated := apiKeyCreated (self fr); world := w;
            events := events (self fr) ++ [CallOnTradeError e position] |},
         match r with
         | Normal _ => Normal (withError (result fr) (strOr (message e) "Unknown error"))
         | Throw e' => Throw e'
         end)
    end.
Proof.
  intros H. unfold returningResult, Eff.tryCatch. rewrite H.
  destruct c as [[] | e]; [reflexivity |].
  unfold catchBlock, setError, callOnTradeError, emit, call, onSelf, onResult,
    Eff.bind, Eff.modify.
  cbn [self result apiKeyCreated world events].
  destruct (onTradeError config e position (world (self fr))) as [w [[] | e']];
    reflexivity.
Qed.



Lemma simulate_run (position : Position.t) (s : State World) :
  dryRun config = true ->
  (setExecuted None (JS.toFixed (tradeQuantity config position) 4)
                    (JS.toFixed (tradePrice position) 4) ;;
   callOnTradeExecuted config)%eff
    {| self := s; result := initialResult config position |}
  = let '(w, r) := onTradeExecuted config (simulated config position) (world s) in
    ({| self := {| apiKeyCreated := apiKeyCreated s; world := w;
                   events := events s ++ [CallOnTradeExecuted (simulated config position)] |};
        result := simulated config position |}, r).
Proof.
  intros Hdry.
  unfold setExecuted, callOnTradeExecuted, emit, call, onSelf, onResult,
    Eff.bind, Eff.modify, Eff.gets.
  cbn [self result apiKeyCreated world events].
  assert (E : withExecution (initialResult config position) None
                (JS.toFixed (tradeQuantity config position) 4)
                (JS.toFixed (tradePrice position) 4)
              = simulated config position).
  { unfold withExecution, initialResult, simulated. simpl. rewrite Hdry. reflexivity. }
  rewrite E.
  destruct (onTradeExecuted config (simulated config position) (world s)) as [w r].
  reflexivity.
Qed.

Lemma executeBuyTry_dry (position : Position.t) (s : State World) :
  Position.id position <> "" ->
  firstFailing config position = None ->
  dryRun config = true ->
  executeBuyTry client config position {| self := s; result := initialResult config position |}
  = (setExecuted None (JS.toFixed (tradeQuantity config position) 4)
                      (JS.toFixed (tradePrice position) 4) ;;
     callOnTradeExecuted config)%eff
      {| self := s; result := initialResult config position |}.
Proof.
  intros Hid Hg Hdry. unfold executeBuyTry.
  apply String.eqb_neq in Hid. rewrite Hid.
  unfold firstFailing, fails, tradeValue, tradeQuantity, tradePrice, positionValue in Hg.
  destruct (lt _ (minTradeSize config)); [discriminate |].
  destruct (gt _ (maxTradeSize config)); [discriminate |].
  destruct (gt _ (maxPositionSize config)); [discriminate |].
  rewrite Hdry. reflexivity.
Qed.

Lemma executeSellTry_dry (position : Position.t) (s : State World) :
  Position.id position <> "" ->
  dryRun config = true ->
  executeSellTry client config position {| self := s; result := initialResult config position |}
  = (setExecuted None (JS.toFixed (tradeQuantity config position) 4)
                      (JS.toFixed (tradePrice position) 4) ;;
     callOnTradeExecuted config)%eff
      {| self := s; result := initialResult config position |}.
Proof.
  intros Hid Hdry. unfold executeSellTry.
  apply String.eqb_neq in Hid. rewrite Hid, Hdry. reflexivity.
Qed.
End ExecutorFacts.

Section ExecutorTheorems.
Import TradeExecutionResult TradeExecutor Guards.




(** The outcome of a simulated trade. *)
Lemma simulated_outcome
    {World : Type} (config : CopyTradingConfig World)
    (position : Position.t) (tryBlock : Eff.M (Frame World) unit) (s : State World) :
  dryRun config = true ->
  tryBlock {| self := s; result := initialResult config position |}
  = (setExecuted None (JS.toFixed (tradeQuantity config position) 4)
                      (JS.toFixed (tradePrice position) 4) ;;
     callOnTradeExecuted config)%eff
      {| self := s; result := initialResult config position |} ->
  let out := returningResult config position tryBlock s in
  let called := onTradeExecuted config (simulated config position) (world s) in
  (exists new,
     events (fst out)
     = (events s ++ CallOnTradeExecuted (simulated config position) :: new)%list
     /\ existsb isGatewayCall new = false)
  /\ apiKeyCreated (fst out) = apiKeyCreated s
  /\ (forall r, snd out = Normal r ->
      success r = true /\ TradeExecutionResult.dryRun r = true /\ orderId r = None
      /\ executedQuantity r = Some (JS.toFixed (tradeQuantity config position) 4)
      /\ executedPrice r = Some (JS.toFixed (tradePrice position) 4))
  /\ (snd called = Normal tt ->
      out = ({| apiKeyCreated := apiKeyCreated s; world := fst called;
                events := events s ++ [CallOnTradeExecuted (simulated config position)] |},
             Normal (simulated config position)))
  /\ (forall e, snd called = Throw e ->
      exists new,
        events (fst out)
        = (events s ++ CallOnTradeExecuted (simulated config position)
             :: CallOnTradeError e position :: new)%list
        /\ world (fst out) = fst (onTradeError config e position (fst called))).
Proof.
  intros Hdry HT out called. subst out called.
  rewrite (simulate_run config position s Hdry) in HT.
  destruct (onTradeExecuted config (simulated config position) (world s))
    as [w [[] | e]] eqn:Hcb.
  - rewrite (returningResult_run config position _ s _ _ HT).
    cbn [fst snd self result apiKeyCreated world events].
    refine (conj _ (conj eq_refl (conj _ (conj _ _)))).
    + exists []. split; reflexivity.
    + intros r Hr. inversion Hr; subst r. repeat split; reflexivity.
    + reflexivity.
    + intros e He. discriminate He.
  - rewrite (returningResult_run config position _ s _ _ HT).
    cbn [fst snd self result apiKeyCreated world events].
    destruct (onTradeError config e position w) as [w2 [[] | e2]] eqn:Herr;
      cbn [fst snd self result apiKeyCreated world events];
      refine (conj _ (conj eq_refl (conj _ (conj _ _))));
      try (eexists; rewrite <- app_assoc; split; reflexivity);
      try (intros Habs; discriminate Habs).
    + intros r Hr. inversion Hr; subst r. repeat split; reflexivity.
    + intros e' He. inversion He; subst e'. exists []. rewrite <- app_assoc, Herr.
      split; reflexivity.
    + intros r Hr. discriminate Hr.
    + intros e' He. inversion He; subst e'. exists []. rewrite <- app_assoc, Herr.
      split; reflexivity.
Qed.

(** C8 (as amended): in dry-run mode an intent with an identifier that
    reaches the end of the guard chain (every sell, and every buy no guard
    rejects) produces the simulated result: success = true, dryRun = true,
    no order identifier, and for executedQuantity and executedPrice the
    computed trade quantity and trade price as [toFixed(4)] renders them,
    with four fraction digits whenever they are finite and below 10^21.
    The success callback is called with exactly that result and no gateway
    call is made: when it returns, the call returns that result and leaves
    the executor in the callback's world; when it throws, the failure
    callback is called next, with what it threw. *)
Theorem dry_run_result
    {World : Type} (client : ClobClient World) (config : CopyTradingConfig World)
    (position : Position.t) (s : State World) :
  dryRun config = true ->
  Position.id position <> "" ->
  let expected := simulated config position in
  let called := onTradeExecuted config expected (world s) in
  let outcome (out : State World * completion TradeExecutionResult.t) :=
    (exists new,
       events (fst out) = (events s ++ CallOnTradeExecuted expected :: new)%list
       /\ existsb isGatewayCall new = false)
    /\ apiKeyCreated (fst out) = apiKeyCreated s
    /\ (forall r, snd out = Normal r ->
        success r = true /\ TradeExecutionResult.dryRun r = true /\ orderId r = None
        /\ executedQuantity r = Some (JS.toFixed (tradeQuantity config position) 4)
        /\ executedPrice r = Some (JS.toFixed (tradePrice position) 4))
    /\ (snd called = Normal tt ->
        out = ({| apiKeyCreated := apiKeyCreated s; world := fst called;
                  events := events s ++ [CallOnTradeExecuted expected] |},
               Normal expected))
    /\ (forall e, snd called = Throw e ->
        exists new,
          events (fst out)
          = (events s ++ CallOnTradeExecuted expected
               :: CallOnTradeError e position :: new)%list
          /\ world (fst out) = fst (onTradeError config e position (fst called))) in
  (firstFailing config position = None ->
   outcome (executeBuy client config position s))
  /\ outcome (executeSell client config position s)
  /\ (Normalisation.rendersFixed (tradeQuantity config position) = true ->
      Normalisation.isFixedDecimal 4 (JS.toFixed (tradeQuantity config position) 4) = true)
  /\ (Normalisation.rendersFixed (tradePrice position) = true ->
      Normalisation.isFixedDecimal 4 (JS.toFixed (tradePrice position) 4) = true).
Proof.
  intros Hdry Hid expected called outcome. subst outcome expected called.
  split; [| split; [| split]].
  - intros Hg. apply simulated_outcome; [exact Hdry |].
    apply executeBuyTry_dry; assumption.
  - apply simulated_outcome; [exact Hdry |].
    apply executeSellTry_dry; assumption.
  - apply toFixed_fixed. lia.
  - apply toFixed_fixed. lia.
Qed.
End ExecutorTheorems.

Section CatchTheorems.
Import TradeExecutionResult TradeExecutor Guards.
Context {World : Type}.
Variable client : ClobClient World.
Variable config : CopyTradingConfig World.

(** An error thrown before anything was recorded in [result]. *)
Lemma caught_outcome (position : Position.t) (tryBlock : Eff.M (Frame World) unit)
    (s s1 : State World) (e : JsError) (w : World) :
  tryBlock {| self := s; result := initialResult config position |}
  = ({| self := s1; result := initialResult config position |}, Throw e) ->
  onTradeError config e position (world s1) = (w, Normal tt) ->
  returningResult config position tryBlock s
  = ({| apiKeyCreated := apiKeyCreated s1; world := w;
        events := events s1 ++ [CallOnTradeError e position] |},
     Normal (rejected config position (strOr (message e) "Unknown error"))).
Proof.
  intros HT Hcb. rewrite (returningResult_run config position _ s _ _ HT).
  cbn [self result]. rewrite Hcb. reflexivity.
Qed.

Lemma initialize_fails (s : State World) r0 w e0 :
  dryRun config = false ->
  createOrDeriveApiKey client (world s) = (w, Throw e0) ->
  initialize client config {| self := s; result := r0 |}
  = ({| self := {| apiKeyCreated := apiKeyCreated s; world := w;
                   events := events s ++ [CallCreateOrDeriveApiKey] |};
        result := r0 |},
     Throw (initializationError e0)).
Proof.
  intros Hlive Hinit.
  unfold initialize, Eff.tryCatch, Eff.bind, Eff.throw, emit, call, onSelf, Eff.modify.
  rewrite Hlive. cbn [self result apiKeyCreated world events]. rewrite Hinit. reflexivity.
Qed.

Lemma ensureApiKey_ready (s s1 : State World) r0 :
  dryRun config = false ->
  afterInitialize client s = Some s1 ->
  ensureApiKey client config {| self := s; result := r0 |}
  = ({| self := s1; result := r0 |}, Normal tt).
Proof.
  intros Hlive Hready.
  unfold afterInitialize in Hready.
  unfold ensureApiKey, Eff.bind, Eff.gets, Eff.when, Eff.ret.
  cbn [self result]. destruct (apiKeyCreated s) eqn:K; cbn [negb].
  - inversion Hready; subst s1. reflexivity.
  - unfold initialize, Eff.tryCatch, Eff.bind, Eff.throw, emit, call, onSelf, Eff.modify.
    rewrite Hlive. cbn [self result apiKeyCreated world events].
    destruct (createOrDeriveApiKey client (world s)) as [w [[] | e0]];
      [| discriminate].
    inversion Hready; subst s1. reflexivity.
Qed.

Lemma postOrder_fails (order : Order) (s : State World) r0 w e :
  createAndPostOrder client order (world s) = (w, Throw e) ->
  postOrder client order {| self := s; result := r0 |}
  = ({| self := {| apiKeyCreated := apiKeyCreated s; world := w;
                   events := events s ++ [CallCreateAndPostOrder order] |};
        result := r0 |}, Throw e).
Proof.
  intros H. unfold postOrder, Eff.bind, emit, call, onSelf, Eff.modify.
  cbn [self result apiKeyCreated world events]. rewrite H. reflexivity.
Qed.

Lemma executeBuyTry_live (position : Position.t) (fr : Frame World) :
  Position.id position <> "" ->
  firstFailing config position = None ->
  dryRun config = false ->
  executeBuyTry client config position fr
  = (ensureApiKey client config ;;
     orderResponse <- postOrder client (orderOf config BUY position) ;;
     setExecuted (orderID orderResponse)
                 (JS.toFixed (tradeQuantity config position) 4)
                 (JS.toFixed (tradePrice position) 4) ;;
     callOnTradeExecuted config)%eff fr.
Proof.
  intros Hid Hg Hlive. unfold executeBuyTry.
  apply String.eqb_neq in Hid. rewrite Hid.
  unfold firstFailing, fails, tradeValue, tradeQuantity, tradePrice, positionValue in Hg.
  destruct (lt _ (minTradeSize config)); [discriminate |].
  destruct (gt _ (maxTradeSize config)); [discriminate |].
  destruct (gt _ (maxPositionSize config)); [discriminate |].
  rewrite Hlive. reflexivity.
Qed.

Lemma executeSellTry_live (position : Position.t) (fr : Frame World) :
  Position.id position <> "" ->
  dryRun config = false ->
  executeSellTry client config position fr
  = (ensureApiKey client config ;;
     orderResponse <- postOrder client (orderOf config SELL position) ;;
     setExecuted (orderID orderResponse)
                 (JS.toFixed (tradeQuantity config position) 4)
                 (JS.toFixed (tradePrice position) 4) ;;
     callOnTradeExecuted config)%eff fr.
Proof.
  intros Hid Hlive. unfold executeSellTry.
  apply String.eqb_neq in Hid. rewrite Hid, Hlive. reflexivity.
Qed.

Lemma ensureApiKey_fails (s : State World) r0 w cause :
  dryRun config = false ->
  apiKeyCreated s = false ->
  createOrDeriveApiKey client (world s) = (w, Throw cause) ->
  ensureApiKey client config {| self := s; result := r0 |}
  = ({| self := {| apiKeyCreated := false; world := w;
                   events := events s ++ [CallCreateOrDeriveApiKey] |};
        result := r0 |},
     Throw (initializationError cause)).
Proof.
  intros Hlive Hkey Hinit.
  unfold ensureApiKey, Eff.bind, Eff.gets, Eff.when.
  cbn [self result]. rewrite Hkey. cbn [negb].
  rewrite (initialize_fails s _ w cause Hlive Hinit), Hkey. reflexivity.
Qed.

(** C9 (as amended): an error thrown by the identifier check, by
    initialization or by the gateway is caught: when the failure callback
    returns, the call returns normally, the failure callback has been
    called with the error, and the result has success = false and carries
    the error message ("Unknown error" for an empty one). *)
Theorem thrown_errors_are_caught (position : Position.t) (s : State World) :
  let caughtAt (s1 : State World) (e : JsError)
               (out : State World * completion TradeExecutionResult.t) :=
    forall w, onTradeError config e position (world s1) = (w, Normal tt) ->
      out = ({| apiKeyCreated := apiKeyCreated s1; world := w;
                events := events s1 ++ [CallOnTradeError e position] |},
             Normal (rejected config position (strOr (message e) "Unknown error"))) in
  (Position.id position = "" ->
   caughtAt s missingId (executeBuy client config position s)
   /\ caughtAt s missingId (executeSell client config position s))
  /\ (Position.id position <> "" -> dryRun config = false -> apiKeyCreated s = false ->
      forall w1 cause, createOrDeriveApiKey client (world s) = (w1, Throw cause) ->
      let s1 := {| apiKeyCreated := false; world := w1;
                   events := events s ++ [CallCreateOrDeriveApiKey] |} in
      (firstFailing config position = None ->
       caughtAt s1 (initializationError cause) (executeBuy client config position s))
      /\ caughtAt s1 (initializationError cause) (executeSell client config position s))
  /\ (Position.id position <> "" -> dryRun config = false ->
      forall s1 w2 e, afterInitialize client s = Some s1 ->
      let posted side :=
        {| apiKeyCreated := apiKeyCreated s1; world := w2;
           events := events s1 ++ [CallCreateAndPostOrder (orderOf config side position)] |} in
      (firstFailing config position = None ->
       createAndPostOrder client (orderOf config BUY position) (world s1) = (w2, Throw e) ->
       caughtAt (posted BUY) e (executeBuy client config position s))
      /\ (createAndPostOrder client (orderOf config SELL position) (world s1) = (w2, Throw e) ->
          caughtAt (posted SELL) e (executeSell client config position s))).
Proof.
  intros caughtAt. subst caughtAt. cbv beta. split; [| split].
  - intros Hid. split; intros w Hcb.
    + unfold executeBuy. apply (caught_outcome position _ s s missingId w); [| exact Hcb].
      unfold executeBuyTry. rewrite Hid. reflexivity.
    + unfold executeSell. apply (caught_outcome position _ s s missingId w); [| exact Hcb].
      unfold executeSellTry. rewrite Hid. reflexivity.
  - intros Hid Hlive Hkey w1 cause Hinit s1. split.
    + intros Hg w Hcb. unfold executeBuy.
      apply (caught_outcome position _ s s1 _ w); [| exact Hcb].
      rewrite executeBuyTry_live by assumption.
      unfold Eff.bind at 1.
      rewrite (ensureApiKey_fails s _ w1 cause Hlive Hkey Hinit). reflexivity.
    + intros w Hcb. unfold executeSell.
      apply (caught_outcome position _ s s1 _ w); [| exact Hcb].
      rewrite executeSellTry_live by assumption.
      unfold Eff.bind at 1.
      rewrite (ensureApiKey_fails s _ w1 cause Hlive Hkey Hinit). reflexivity.
  - intros Hid Hlive s1 w2 e Hready posted. split.
    + intros Hg Hpost w Hcb. unfold executeBuy.
      apply (caught_outcome position _ s (posted BUY) e w); [| exact Hcb].
      rewrite executeBuyTry_live by assumption.
      unfold Eff.bind at 1. rewrite (ensureApiKey_ready s s1 _ Hlive Hready).
      unfold Eff.bind at 1.
      rewrite (postOrder_fails _ s1 _ w2 e Hpost). reflexivity.
    + intros Hpost w Hcb. unfold executeSell.
      apply (caught_outcome position _ s (posted SELL) e w); [| exact Hcb].
      rewrite executeSellTry_live by assumption.
      unfold Eff.bind at 1. rewrite (ensureApiKey_ready s s1 _ Hlive Hready).
      unfold Eff.bind at 1.
      rewrite (postOrder_fails _ s1 _ w2 e Hpost). reflexivity.
Qed.
End CatchTheorems.

(** ** More on numbers *)

Section NumberFacts.

(** Every comparison with NaN is false. *)
Lemma ltb_nan (x y : number) :
  JS.isNaN x = true \/ JS.isNaN y = true -> PrimFloat.ltb x y = false.
Proof.
  rewrite !isNaN_spec, ltb_spec. unfold SFltb, SFcompare.
  intros [H | H]; rewrite H; [reflexivity |].
  destruct (Prim2SF x); reflexivity.
Qed.

(** A product with NaN is NaN. *)
Lemma mul_nan (x y : number) :
  JS.isNaN x = true \/ JS.isNaN y = true -> JS.isNaN (PrimFloat.mul x y) = true.
Proof.
  rewrite !isNaN_spec, mul_spec. unfold SF64mul, SFmul.
  intros [H | H]; rewrite H; [reflexivity |].
  destruct (Prim2SF x); reflexivity.
Qed.

(** Nothing is above [Infinity]. *)
Lemma gt_infinity (x : number) : gt x PrimFloat.infinity = false.
Proof.
  unfold gt. rewrite ltb_spec. unfold SFltb, SFcompare.
  change (Prim2SF PrimFloat.infinity) with (S754_infinity false).
  destruct (Prim2SF x) as [s | s | | s m e]; try destruct s; reflexivity.
Qed.

Lemma toFixed_nan (x : number) (f : nat) : JS.isNaN x = true -> JS.toFixed x f = "NaN".
Proof.
  intros H. apply isNaN_nan in H. subst x. reflexivity.
Qed.

(** [x - x] is +0, or NaN when [x] is not finite. *)
Lemma abs_sub_same (x : number) :
  Prim2SF (JS.abs (PrimFloat.sub x x)) = S754_zero false
  \/ Prim2SF (JS.abs (PrimFloat.sub x x)) = S754_nan.
Proof.
  unfold JS.abs. rewrite abs_spec, sub_spec. unfold SF64sub, SFsub.
  destruct (Prim2SF x) as [s | s | | s m e].
  - destruct s; auto.
  - destruct s; auto.
  - auto.
  - cbv zeta. rewrite Z.sub_diag. auto.
Qed.

Lemma max_one (y : number) :
  PrimFloat.ltb (JS.max PrimFloat.one y) PrimFloat.zero = false.
Proof.
  unfold JS.max.
  destruct (JS.isNaN PrimFloat.one || JS.isNaN y) eqn:N; [reflexivity |].
  destruct (PrimFloat.ltb PrimFloat.one y) eqn:L.
  - rewrite ltb_spec in *. unfold SFltb, SFcompare in *.
    change (Prim2SF PrimFloat.zero) with (S754_zero false).
    change (Prim2SF PrimFloat.one) with (S754_finite false 4503599627370496 (-52)) in L.
    destruct (Prim2SF y) as [s | s | | s m e]; try destruct s; try reflexivity;
      discriminate L.
  - destruct (PrimFloat.ltb y PrimFloat.one); reflexivity.
Qed.
End NumberFacts.

Section SameFacts.
Import AccountMonitor.

(** A quantity compared with itself has not changed. *)
Lemma quantityChanged_same (q : number) : quantityChanged q q = false.
Proof.
  unfold quantityChanged, gt. rewrite ltb_spec.
  pose proof (max_one (PrimFloat.mul q onePercent)) as M. rewrite ltb_spec in M.
  change (Prim2SF PrimFloat.zero) with (S754_zero false) in M.
  destruct (abs_sub_same q) as [E | E]; rewrite E.
  - exact M.
  - unfold SFltb, SFcompare. destruct (Prim2SF _); reflexivity.
Qed.

(** A total compared with itself has not changed. *)
Lemma totalValueChanged_same (v : number) : totalValueChanged v v = false.
Proof.
  unfold totalValueChanged, gt. rewrite ltb_spec, div_spec.
  change (Prim2SF onePercent) with (S754_finite false 5764607523034235 (-59)).
  unfold SF64div, SFdiv.
  destruct (abs_sub_same v) as [E | E]; rewrite E.
  - destruct (Prim2SF (JS.max v onePercent)) as [s | s | | s m e]; reflexivity.
  - reflexivity.
Qed.
End SameFacts.

Section OrderTheorems.
Import TradeExecutionResult TradeExecutor Guards Orders.
Context {World : Type}.
Variable client : ClobClient World.
Variable config : CopyTradingConfig World.

Ltac run_executor :=
  unfold executeBuy, executeSell, returningResult, Eff.tryCatch, executeBuyTry, executeSellTry,
    catchBlock, reject, ensureApiKey, initialize, postOrder, setExecuted, setError,
    callOnTradeError, callOnTradeExecuted, emit, call, onSelf, onResult,
    Eff.when, Eff.tryCatch, Eff.bind, Eff.throw, Eff.ret, Eff.gets, Eff.modify.

Ltac executor_step :=
  cbn [self result apiKeyCreated world events fst snd negb];
  match goal with
  | |- context [if ?b then _ else _] => destruct b eqn:?
  | |- context [onTradeError config ?e ?p ?w] =>
      destruct (onTradeError config e p w) as [? [[] | ?]] eqn:?
  | |- context [onTradeExecuted config ?r ?w] =>
      destruct (onTradeExecuted config r w) as [? [[] | ?]] eqn:?
  | |- context [createOrDeriveApiKey client ?w] =>
      destruct (createOrDeriveApiKey client w) as [? [[] | ?]] eqn:?
  | |- context [createAndPostOrder client ?o ?w] =>
      destruct (createAndPostOrder client o w) as [? [? | ?]] eqn:?
  end.

Ltac executor_cases :=
  run_executor; repeat executor_step;
  cbn [self result apiKeyCreated world events fst snd negb];
  rewrite <- ?app_assoc; cbn [app].

Lemma firstFailing_none (position : Position.t) :
  lt (tradeValue config position) (minTradeSize config) = false ->
  gt (tradeValue config position) (maxTradeSize config) = false ->
  gt (positionValue config position) (maxPositionSize config) = false ->
  firstFailing config position = None.
Proof.
  intros H1 H2 H3. unfold firstFailing, fails. rewrite H1, H2, H3. reflexivity.
Qed.

(** The orders [executeBuy] submits. *)
Lemma orders_of_buy (position : Position.t) (s : State World) :
  exists new,
    appended s (fst (executeBuy client config position s)) new
    /\ (posted new = [] \/ posted new = [orderOf config BUY position])
    /\ (posted new <> [] ->
        dryRun config = false /\ Position.id position <> ""
        /\ firstFailing config position = None)
    /\ (forall r, snd (executeBuy client config position s) = Normal r ->
        (orderId r <> None \/ (success r = true /\ dryRun config = false)) ->
        posted new = [orderOf config BUY position]).
Proof.
  unfold appended.
  executor_cases; (eexists; split; [reflexivity |]); cbn [posted flat_map app].
  all: try (split; [left; reflexivity |]; split;
            [intros K; exfalso; apply K; reflexivity |];
            intros r Hr [Ho | [Hs Hd]]; inversion Hr; subst r;
            cbn in *; congruence).
  all: split; [right; reflexivity |]; split; [| intros; reflexivity]; intros _.
  all: split; [reflexivity |].
  all: split; [apply String.eqb_neq; assumption | apply firstFailing_none; assumption].
Qed.

(** The orders [executeSell] submits. *)
Lemma orders_of_sell (position : Position.t) (s : State World) :
  exists new,
    appended s (fst (executeSell client config position s)) new
    /\ (posted new = [] \/ posted new = [orderOf config SELL position])
    /\ (posted new <> [] -> dryRun config = false /\ Position.id position <> "")
    /\ (forall r, snd (executeSell client config position s) = Normal r ->
        (orderId r <> None \/ (success r = true /\ dryRun config = false)) ->
        posted new = [orderOf config SELL position]).
Proof.
  unfold appended.
  executor_cases; (eexists; split; [reflexivity |]); cbn [posted flat_map app].
  all: try (split; [left; reflexivity |]; split;
            [intros K; exfalso; apply K; reflexivity |];
            intros r Hr [Ho | [Hs Hd]]; inversion Hr; subst r;
            cbn in *; congruence).
  all: split; [right; reflexivity |]; split; [| intros; reflexivity]; intros _.
  all: split; [reflexivity |].
  all: apply String.eqb_neq; assumption.
Qed.

(** X1: a call of [executeBuy] submits at most one order, and only in live
    mode for a position that has an identifier and that no guard rejects;
    the order is the GTC buy of the position's identifier at its parsed
    price for its parsed quantity times the multiplier.  A returned result
    with an order identifier, or a live result marked successful, means
    that this order was submitted.  [executeSell] likewise, with the sell
    order and without the guards. *)
Theorem orders_only_after_every_check (position : Position.t) (s : State World) :
  (exists new,
     appended s (fst (executeBuy client config position s)) new
     /\ (posted new = [] \/ posted new = [orderOf config BUY position])
     /\ (posted new <> [] ->
         dryRun config = false /\ Position.id position <> ""
         /\ firstFailing config position = None)
     /\ (forall r, snd (executeBuy client config position s) = Normal r ->
         (orderId r <> None \/ (success r = true /\ dryRun config = false)) ->
         posted new = [orderOf config BUY position]))
  /\ (exists new,
        appended s (fst (executeSell client config position s)) new
        /\ (posted new = [] \/ posted new = [orderOf config SELL position])
        /\ (posted new <> [] -> dryRun config = false /\ Position.id position <> "")
        /\ (forall r, snd (executeSell client config position s) = Normal r ->
            (orderId r <> None \/ (success r = true /\ dryRun config = false)) ->
            posted new = [orderOf config SELL position])).
Proof.
  split; [apply orders_of_buy | apply orders_of_sell].
Qed.

Lemma key_calls (position : Position.t) (s : State World) :
  let outcome (out : State World * completion TradeExecutionResult.t) :=
    exists new,
      appended s (fst out) new
      /\ (List.length (keyCalls new) <= 1)%nat
      /\ (apiKeyCreated s = true ->
          keyCalls new = [] /\ apiKeyCreated (fst out) = true)
      /\ (dryRun config = true ->
          keyCalls new = [] /\ apiKeyCreated (fst out) = apiKeyCreated s)
      /\ (posted new <> [] -> apiKeyCreated (fst out) = true)
      /\ (apiKeyCreated (fst out) = true /\ apiKeyCreated s = false ->
          keyCalls new = [CallCreateOrDeriveApiKey]) in
  outcome (executeBuy client config position s)
  /\ outcome (executeSell client config position s).
Proof.
  cbv zeta. unfold appended. split.
  - executor_cases; (eexists; split; [reflexivity |]);
      cbn [posted keyCalls filter isKeyCall flat_map app List.length];
      repeat split; intros; try reflexivity; try lia; try congruence;
      try (destruct (apiKeyCreated s); cbn in *; congruence);
      try (match goal with K : [] <> [] |- _ => exfalso; apply K; reflexivity end);
      try (match goal with K : _ /\ _ |- _ => destruct K; congruence end).
  - executor_cases; (eexists; split; [reflexivity |]);
      cbn [posted keyCalls filter isKeyCall flat_map app List.length];
      repeat split; intros; try reflexivity; try lia; try congruence;
      try (destruct (apiKeyCreated s); cbn in *; congruence);
      try (match goal with K : [] <> [] |- _ => exfalso; apply K; reflexivity end);
      try (match goal with K : _ /\ _ |- _ => destruct K; congruence end).
Qed.

(** X2: a call of [executeBuy] or [executeSell] derives the API key at
    most once, never in dry-run mode and never when the key exists; an
    order is submitted only with the key in place; and once a call leaves
    the key in place, the next call -- of either kind, for any position --
    does not derive it again. *)
Theorem api_key_derived_at_most_once
    (side side' : Side) (position position' : Position.t) (s : State World) :
  let run (sd : Side) :=
    match sd with
    | BUY => executeBuy client config
    | SELL => executeSell client config
    end in
  let s1 := fst (run side position s) in
  let s2 := fst (run side' position' s1) in
  exists new new',
    appended s s1 new /\ appended s1 s2 new'
    /\ (List.length (keyCalls new) <= 1)%nat
    /\ (apiKeyCreated s = true -> keyCalls new = [] /\ apiKeyCreated s1 = true)
    /\ (dryRun config = true -> keyCalls new = [] /\ apiKeyCreated s1 = apiKeyCreated s)
    /\ (posted new <> [] -> apiKeyCreated s1 = true)
    /\ (apiKeyCreated s = false -> apiKeyCreated s1 = true ->
        keyCalls new = [CallCreateOrDeriveApiKey])
    /\ (apiKeyCreated s1 = true -> keyCalls new' = [] /\ apiKeyCreated s2 = true).
Proof.
  intros run s1 s2.
  assert (H1 : exists new, appended s s1 new
      /\ (List.length (keyCalls new) <= 1)%nat
      /\ (apiKeyCreated s = true -> keyCalls new = [] /\ apiKeyCreated s1 = true)
      /\ (dryRun config = true -> keyCalls new = [] /\ apiKeyCreated s1 = apiKeyCreated s)
      /\ (posted new <> [] -> apiKeyCreated s1 = true)
      /\ (apiKeyCreated s1 = true /\ apiKeyCreated s = false ->
          keyCalls new = [CallCreateOrDeriveApiKey])).
  { subst s1 run. destruct side; [apply (proj1 (key_calls position s))
                                 | apply (proj2 (key_calls position s))]. }
  assert (H2 : exists new', appended s1 s2 new'
      /\ (apiKeyCreated s1 = true -> keyCalls new' = [] /\ apiKeyCreated s2 = true)).
  { subst s2 run.
    destruct side'; [destruct (proj1 (key_calls position' s1)) as (n & A & _ & B & _)
                    | destruct (proj2 (key_calls position' s1)) as (n & A & _ & B & _)];
      exists n; split; assumption. }
  destruct H1 as (new & A1 & B1 & C1 & D1 & E1 & F1).
  destruct H2 as (new' & A2 & B2).
  exists new, new'. repeat split; try assumption; tauto.
Qed.

(** X5: a result returned by [executeBuy] or [executeSell] carries the
    position passed in and the executor's dry-run flag, and never a
    transaction hash.  Marked successful, it has for executed quantity and
    price the computed trade quantity and trade price as [toFixed(4)]
    renders them: with four fraction digits when the number is finite and
    below 10^21, and as [String] renders it otherwise (NaN, Infinity, an
    exponent form).  Not marked successful, it has no order identifier, no
    executed quantity or price, and a non-empty error message.  An order
    identifier appears only in live mode, on a successful result. *)
Theorem returned_result_shape (side : Side) (position : Position.t)
    (s : State World) (r : TradeExecutionResult.t) :
  snd (match side with
       | BUY => executeBuy client config position s
       | SELL => executeSell client config position s
       end) = Normal r ->
  TradeExecutionResult.position r = position
  /\ TradeExecutionResult.dryRun r = dryRun config
  /\ transactionHash r = None
  /\ (success r = true ->
      executedQuantity r = Some (JS.toFixed (tradeQuantity config position) 4)
      /\ executedPrice r = Some (JS.toFixed (tradePrice position) 4))
  /\ (success r = false ->
      orderId r = None /\ executedQuantity r = None /\ executedPrice r = None
      /\ exists m, error r = Some m /\ m <> "")
  /\ (orderId r <> None -> dryRun config = false /\ success r = true)
  /\ (forall x : JS.number,
      (Normalisation.rendersFixed x = true ->
       Normalisation.isFixedDecimal 4 (JS.toFixed x 4) = true)
      /\ (Normalisation.rendersFixed x = false ->
          JS.toFixed x 4 = JS.numberToString x)).
Proof.
  assert (Hfix : forall x : JS.number,
      (Normalisation.rendersFixed x = true ->
       Normalisation.isFixedDecimal 4 (JS.toFixed x 4) = true)
      /\ (Normalisation.rendersFixed x = false ->
          JS.toFixed x 4 = JS.numberToString x)).
  { intros x. split; [apply toFixed_fixed; lia |]. apply toFixed_unfixed. }
  assert (Hmsg : forall m, strOr m "Unknown error" <> "").
  { intros m. unfold strOr. destruct (String.eqb m "") eqn:E; [discriminate |].
    apply String.eqb_neq. exact E. }
  destruct side.
  - executor_cases; intros Hr; inversion Hr; subst r;
      cbn [success TradeExecutionResult.position orderId transactionHash executedQuantity
           executedPrice error TradeExecutionResult.dryRun withError withExecution
           initialResult];
      repeat split; intros; try reflexivity; try congruence;
      try (eexists; split; [reflexivity | first [apply Hmsg | discriminate]]);
      apply Hfix; assumption.
  - executor_cases; intros Hr; inversion Hr; subst r;
      cbn [success TradeExecutionResult.position orderId transactionHash executedQuantity
           executedPrice error TradeExecutionResult.dryRun withError withExecution
           initialResult];
      repeat split; intros; try reflexivity; try congruence;
      try (eexists; split; [reflexivity | first [apply Hmsg | discriminate]]);
      apply Hfix; assumption.
Qed.

(** X3: a position whose quantity does not parse to a number is stopped
    by neither trade-size guard, its trade value being NaN: only the
    position-size guard can reject it.  When that guard passes and the
    position has an identifier, dry-run mode returns a successful result
    with executedQuantity "NaN", and live mode, once the API key is in
    place, submits the order, whose size is NaN. *)
Theorem unparsable_quantity_passes_trade_guards (position : Position.t) (s : State World) :
  JS.isNaN (JS.parseFloat (Position.quantity position)) = true ->
  fails config BelowMinimum position = false
  /\ fails config AboveMaximum position = false
  /\ firstFailing config position
     = (if fails config PositionTooLarge position then Some PositionTooLarge else None)
  /\ JS.isNaN (size (orderOf config BUY position)) = true
  /\ (Position.id position <> "" -> fails config PositionTooLarge position = false ->
      (dryRun config = true ->
       forall r, snd (executeBuy client config position s) = Normal r ->
       success r = true /\ executedQuantity r = Some "NaN")
      /\ (dryRun config = false ->
          forall s1, afterInitialize client s = Some s1 ->
          exists new, appended s (fst (executeBuy client config position s)) new
                      /\ posted new = [orderOf config BUY position])).
Proof.
  intros Hq.
  assert (Hn : JS.isNaN (tradeQuantity config position) = true).
  { unfold tradeQuantity. apply mul_nan. left. exact Hq. }
  assert (Hv : JS.isNaN (tradeValue config position) = true).
  { unfold tradeValue. apply mul_nan. left. exact Hn. }
  assert (Hmin : fails config BelowMinimum position = false).
  { unfold fails, lt. apply ltb_nan. left. exact Hv. }
  assert (Hmax : fails config AboveMaximum position = false).
  { unfold fails, gt. apply ltb_nan. right. exact Hv. }
  assert (Hfirst : firstFailing config position
     = (if fails config PositionTooLarge position then Some PositionTooLarge else None)).
  { unfold firstFailing. rewrite Hmin, Hmax. reflexivity. }
  refine (conj Hmin (conj Hmax (conj Hfirst (conj Hn _)))).
  intros Hid Hpos. rewrite Hpos in Hfirst. split.
  - intros Hdry r Hr.
    destruct (simulated_outcome config position (executeBuyTry client config position) s Hdry
                (executeBuyTry_dry client config position s Hid Hfirst Hdry))
      as (_ & _ & Hres & _).
    destruct (Hres r Hr) as (Hs & _ & _ & Hx & _).
    split; [exact Hs |]. rewrite Hx, (toFixed_nan _ 4 Hn). reflexivity.
  - intros Hlive s1 Hready.
    unfold executeBuy, returningResult, Eff.tryCatch.
    rewrite (executeBuyTry_live client config position _ Hid Hfirst Hlive).
    unfold Eff.bind at 1. rewrite (ensureApiKey_ready client config s s1 _ Hlive Hready).
    assert (Hk : exists k, events s1 = (events s ++ k)%list /\ posted k = []).
    { unfold afterInitialize in Hready. destruct (apiKeyCreated s).
      - inversion Hready; subst s1. exists []. rewrite app_nil_r. auto.
      - destruct (createOrDeriveApiKey client (world s)) as [w [[] | e]]; [| discriminate].
        inversion Hready; subst s1. eexists. split; reflexivity. }
    destruct Hk as (k & Hk & Hp).
    unfold appended.
    executor_cases; rewrite Hk, <- ?app_assoc;
      (eexists; split; [reflexivity |]);
      unfold posted in *; rewrite flat_map_app; fold posted;
      rewrite Hp; reflexivity.
Qed.

(** X4: with [maxTradeSize] and [maxPositionSize] left out of the
    configuration, the constructor's defaults (Infinity) let every
    position through the two maximum guards: a buy is rejected by the
    guard chain only for a trade value below the minimum trade size, which
    is 1 (with multiplier 1) when those are left out as well. *)
Theorem default_limits_never_reject (input : CopyTradingInput.t World)
    (position : Position.t) :
  CopyTradingInput.maxTradeSize input = None ->
  CopyTradingInput.maxPositionSize input = None ->
  let defaults := requiredConfig input in
  fails defaults AboveMaximum position = false
  /\ fails defaults PositionTooLarge position = false
  /\ firstFailing defaults position
     = (if lt (tradeValue defaults position)
              (nullish (CopyTradingInput.minTradeSize input) PrimFloat.one)
        then Some BelowMinimum else None)
  /\ (CopyTradingInput.minTradeSize input = None ->
      CopyTradingInput.positionSizeMultiplier input = None ->
      firstFailing defaults position
      = (if lt (PrimFloat.mul (PrimFloat.mul (JS.parseFloat (Position.quantity position))
                                             PrimFloat.one)
                              (JS.parseFloat (Position.price position)))
               PrimFloat.one
         then Some BelowMinimum else None)).
Proof.
  intros Ht Hp defaults.
  assert (H1 : fails defaults AboveMaximum position = false).
  { unfold fails, defaults, requiredConfig. cbn [maxTradeSize]. rewrite Ht. apply gt_infinity. }
  assert (H2 : fails defaults PositionTooLarge position = false).
  { unfold fails, defaults, requiredConfig. cbn [maxPositionSize]. rewrite Hp.
    apply gt_infinity. }
  assert (H3 : firstFailing defaults position
     = (if lt (tradeValue defaults position)
              (nullish (CopyTradingInput.minTradeSize input) PrimFloat.one)
        then Some BelowMinimum else None)).
  { unfold firstFailing. rewrite H1, H2. reflexivity. }
  refine (conj H1 (conj H2 (conj H3 _))).
  intros Hm Hx. rewrite H3.
  unfold tradeValue, tradeQuantity, tradePrice, defaults, requiredConfig.
  cbn [positionSizeMultiplier]. rewrite Hm, Hx. reflexivity.
Qed.
End OrderTheorems.

Section MapLookup.
Context {A : Type}.
Implicit Types (m : JsMap.t A) (l : list (string * A)) (k : string) (v : A).

Lemma get_in k v m : JsMap.get k m = Some v -> In (k, v) m.
Proof.
  induction m as [| [k0 v0] m IH]; simpl; [discriminate |].
  destruct (String.eqb k0 k) eqn:E.
  - apply String.eqb_eq in E. subst k0. intros H. inversion H. auto.
  - auto.
Qed.

Lemma in_has k v m : In (k, v) m -> JsMap.has k m = true.
Proof.
  unfold JsMap.has. induction m as [| [k0 v0] m IH]; simpl; [tauto |].
  intros [H | H].
  - inversion H; subst. rewrite String.eqb_refl. reflexivity.
  - destruct (String.eqb k0 k); [reflexivity | auto].
Qed.

Lemma in_get k v m : NoDup (JsMap.keys m) -> In (k, v) m -> JsMap.get k m = Some v.
Proof.
  unfold JsMap.keys.
  induction m as [| [k0 v0] m IH]; simpl; [tauto |].
  intros ND [H | H].
  - inversion H; subst. rewrite String.eqb_refl. reflexivity.
  - inversion ND as [| ? ? Hn ND']; subst.
    destruct (String.eqb k0 k) eqn:E.
    + apply String.eqb_eq in E. subst k0. exfalso. apply Hn.
      apply in_map_iff. exists (k, v). auto.
    + auto.
Qed.

Lemma keys_set_nodup k v m : NoDup (JsMap.keys m) -> NoDup (JsMap.keys (JsMap.set k v m)).
Proof.
  unfold JsMap.keys.
  induction m as [| [k0 v0] m IH]; simpl; intros ND.
  - constructor; [tauto | constructor].
  - inversion ND as [| ? ? Hn ND']; subst.
    destruct (String.eqb k0 k) eqn:E; simpl.
    + constructor; assumption.
    + constructor; [| auto].
      intros Hin. apply Hn.
      change (In k0 (JsMap.keys (JsMap.set k v m))) in Hin.
      apply in_keys_set in Hin. destruct Hin as [Hin | Hin]; [exact Hin |].
      subst k0. rewrite String.eqb_refl in E. discriminate.
Qed.

Lemma keys_setAll_nodup l : forall m,
  NoDup (JsMap.keys m) -> NoDup (JsMap.keys (JsMap.setAll l m)).
Proof.
  induction l as [| e l IH]; intros m ND; simpl; [exact ND |].
  apply IH. apply keys_set_nodup. exact ND.
Qed.
End MapLookup.

Section UnchangedFacts.
Import TradingStatus AccountMonitor Detector.

Lemma keys_positionsMap_nodup (ps : list Position.t) : NoDup (JsMap.keys (positionsMap ps)).
Proof. apply keys_setAll_nodup. constructor. Qed.

(** The quantity recorded for an identifier depends only on the
    identifiers and quantities of the positions, in order. *)
Lemma lookup_quantity (k : string) (l l' : list Position.t) :
  map (fun p => (Position.id p, JS.parseFloat (Position.quantity p))) l
  = map (fun p => (Position.id p, JS.parseFloat (Position.quantity p))) l' ->
  option_map (fun p => JS.parseFloat (Position.quantity p)) (JsMap.get k (positionsMap l))
  = option_map (fun p => JS.parseFloat (Position.quantity p)) (JsMap.get k (positionsMap l')).
Proof.
  unfold positionsMap, JsMap.fromEntries.
  assert (G : forall l l' m m',
    option_map (fun p => JS.parseFloat (Position.quantity p)) (JsMap.get k m)
    = option_map (fun p => JS.parseFloat (Position.quantity p)) (JsMap.get k m') ->
    map (fun p => (Position.id p, JS.parseFloat (Position.quantity p))) l
    = map (fun p => (Position.id p, JS.parseFloat (Position.quantity p))) l' ->
    option_map (fun p => JS.parseFloat (Position.quantity p))
      (JsMap.get k (JsMap.setAll (map (fun p => (Position.id p, p)) l) m))
    = option_map (fun p => JS.parseFloat (Position.quantity p))
        (JsMap.get k (JsMap.setAll (map (fun p => (Position.id p, p)) l') m'))).
  { clear l l'. induction l as [| p l IH]; intros [| p' l'] m m' Hm Hl;
      try discriminate Hl; [exact Hm |].
    simpl in Hl. inversion Hl as [[Hid Hq Hrest]]. simpl.
    apply IH; [| exact Hrest].
    rewrite !get_set, Hid. destruct (String.eqb (Position.id p') k); [| exact Hm].
    simpl. rewrite Hq. reflexivity. }
  intros H. apply G; [reflexivity | exact H].
Qed.
End UnchangedFacts.

Section UnchangedTheorems.
Import TradingStatus AccountMonitor Detector Snapshots.

(** A snapshot with the identifiers, quantities and total of the previous
    one, position by position, is no change. *)
Lemma same_positions_unchanged (last status : TradingStatus.t) :
  map (fun p => (Position.id p, JS.parseFloat (Position.quantity p))) (openPositions status)
  = map (fun p => (Position.id p, JS.parseFloat (Position.quantity p))) (openPositions last) ->
  JS.parseFloat (totalValue status) = JS.parseFloat (totalValue last) ->
  detectChanges (Some last) status = false.
Proof.
  intros Hp Hv.
  assert (Hids : ids (openPositions status) = ids (openPositions last)).
  { pose proof (f_equal (map fst) Hp) as E. rewrite !map_map in E. exact E. }
  rewrite detectChanges_checks.
  assert (C : countMismatch last status = false).
  { unfold countMismatch. apply negb_false_iff, Nat.eqb_eq.
    rewrite <- (length_map Position.id (openPositions status)).
    rewrite <- (length_map Position.id (openPositions last)).
    fold (ids (openPositions status)). fold (ids (openPositions last)).
    rewrite Hids. reflexivity. }
  assert (A : anyAdded last status = false).
  { unfold anyAdded. apply not_true_is_false. intros H.
    apply existsb_exists in H. destruct H as [p [Hin Ha]].
    unfold isAdded in Ha. apply negb_true_iff in Ha.
    assert (hasId (openPositions last) (Position.id p) = true); [| congruence].
    apply hasId_in. rewrite <- Hids. unfold ids. apply in_map. exact Hin. }
  assert (R : anyRemoved last status = false).
  { unfold anyRemoved. apply not_true_is_false. intros H.
    apply existsb_exists in H. destruct H as [p [Hin Ha]].
    unfold isRemoved in Ha. apply negb_true_iff in Ha.
    assert (hasId (openPositions status) (Position.id p) = true); [| congruence].
    apply hasId_in. rewrite Hids. unfold ids. apply in_map. exact Hin. }
  assert (M : anyMaterial last status = false).
  { unfold anyMaterial. apply not_true_is_false. intros H.
    apply existsb_exists in H. destruct H as [[k p] [Hin Hm]].
    unfold isMaterial in Hm. cbn [fst snd] in Hm.
    pose proof (in_get k p _ (keys_positionsMap_nodup _) Hin) as G.
    pose proof (lookup_quantity k (openPositions status) (openPositions last) Hp) as Q.
    rewrite G in Q. cbn [option_map] in Q.
    destruct (JsMap.get k (positionsMap (openPositions last))) as [lp |]; [| discriminate].
    cbn [option_map] in Q. inversion Q as [Q']. rewrite Q', quantityChanged_same in Hm.
    discriminate. }
  assert (V : valueDrift last status = false).
  { unfold valueDrift. rewrite Hv. apply totalValueChanged_same. }
  rewrite C, A, M, R, V. reflexivity.
Qed.

(** A tick that fetched [up] and detects no change: only console lines
    are added. *)
Lemma quiet_tick {World : Type} (env : Environment World) (options : MonitorOptions World)
    (s : State World) (w : World) (up : UserPositions.t) :
  getUserPositions env (targetAddress options) (world s) = (w, Normal up) ->
  detectChanges (lastStatus s) (statusOf (targetAddress options) up (toISOString env w))
  = false ->
  let out := updateStatus env options s in
  snd out = Normal tt
  /\ lastStatus (fst out) = lastStatus s
  /\ isMonitoring (fst out) = isMonitoring s
  /\ world (fst out) = w
  /\ exists new, events (fst out) = (events s ++ new)%list
                 /\ existsb isCallOnUpdate new = false
                 /\ existsb isCallOnError new = false.
Proof.
  intros F D out. subst out.
  rewrite (updateStatus_run env options s _ _ (getStatus_fulfilled env options s w up F)).
  rewrite applyStatus_run.
  cbn [lastStatus lastPollTime world events isMonitoring]. rewrite D.
  cbn [lastStatus lastPollTime world events isMonitoring fst snd].
  repeat (split; [reflexivity |]).
  eexists. split; [reflexivity |].
  unfold consoleLines. rewrite D.
  destruct (detection (lastStatus s) _), (pollLogDue _ _), (lastStatus s);
    split; reflexivity.
Qed.

(** A quiet tick calls no timer function. *)
Lemma quiet_tick_consoleOnly {World : Type} (env : Environment World)
    (options : MonitorOptions World) (s : State World) (w : World) (up : UserPositions.t) :
  getUserPositions env (targetAddress options) (world s) = (w, Normal up) ->
  detectChanges (lastStatus s) (statusOf (targetAddress options) up (toISOString env w))
  = false ->
  exists new, events (fst (updateStatus env options s)) = (events s ++ new)%list
              /\ filter isTimerCall new = [].
Proof.
  intros F D.
  rewrite (updateStatus_run env options s _ _ (getStatus_fulfilled env options s w up F)).
  rewrite applyStatus_run.
  cbn [lastStatus lastPollTime pollIntervalId world events isMonitoring]. rewrite D.
  cbn [lastStatus lastPollTime pollIntervalId world events isMonitoring fst snd].
  eexists. split; [reflexivity |].
  unfold consoleLines. rewrite D.
  destruct (detection (lastStatus s) _), (pollLogDue _ _), (lastStatus s); reflexivity.
Qed.

(** X6: a fetch that returns the positions of the previous snapshot --
    the same identifiers in the same order with numerically equal
    quantities -- and a numerically equal total is no change, whatever
    happened to prices, position values, markets and timestamps: the tick
    completes without calling [onUpdate] or [onError] and keeps the
    previous snapshot. *)
Theorem unchanged_positions_are_not_reported
    {World : Type} (env : Environment World) (options : MonitorOptions World)
    (s : State World) (last : TradingStatus.t) (w : World) (up : UserPositions.t) :
  lastStatus s = Some last ->
  getUserPositions env (targetAddress options) (world s) = (w, Normal up) ->
  map (fun p => (Position.id p, JS.parseFloat (Position.quantity p))) (UserPositions.positions up)
  = map (fun p => (Position.id p, JS.parseFloat (Position.quantity p))) (openPositions last) ->
  JS.parseFloat (UserPositions.totalValue up) = JS.parseFloat (totalValue last) ->
  let status := statusOf (targetAddress options) up (toISOString env w) in
  let out := updateStatus env options s in
  detectChanges (Some last) status = false
  /\ snd out = Normal tt
  /\ lastStatus (fst out) = Some last
  /\ exists new, events (fst out) = (events s ++ new)%list
                 /\ existsb isCallOnUpdate new = false
                 /\ existsb isCallOnError new = false.
Proof.
  intros L F Hp Hv status out.
  assert (D : detectChanges (Some last) status = false)
    by (apply same_positions_unchanged; assumption).
  split; [exact D |].
  rewrite <- L in D.
  destruct (quiet_tick env options s w up F D) as (H1 & H2 & _ & _ & H3).
  rewrite L in H2. auto.
Qed.

(** [start] on a running monitor only logs a warning. *)
Lemma start_running {World : Type} (env : Environment World)
    (options : MonitorOptions World) (s : State World) :
  isMonitoring s = true ->
  start env options s
  = ({| isMonitoring := isMonitoring s; lastStatus := lastStatus s;
        lastPollTime := lastPollTime s; pollIntervalId := pollIntervalId s; world := world s;
        events := events s ++ [LogAlreadyRunning] |}, Normal tt).
Proof.
  intros H. unfold start, Eff.bind, Eff.gets, emit, Eff.modify.
  destruct s as [running seen polled timer w log].
  cbn [isMonitoring lastStatus lastPollTime world events] in *. subst running. reflexivity.
Qed.

(** A quiet tick leaves the timer alone. *)
Lemma quiet_tick_timer {World : Type} (env : Environment World)
    (options : MonitorOptions World) (s : State World) (w : World) (up : UserPositions.t) :
  getUserPositions env (targetAddress options) (world s) = (w, Normal up) ->
  detectChanges (lastStatus s) (statusOf (targetAddress options) up (toISOString env w))
  = false ->
  pollIntervalId (fst (updateStatus env options s)) = pollIntervalId s.
Proof.
  intros F D.
  rewrite (updateStatus_run env options s _ _ (getStatus_fulfilled env options s w up F)).
  rewrite applyStatus_run.
  cbn [lastStatus lastPollTime pollIntervalId world events isMonitoring]. rewrite D.
  reflexivity.
Qed.

(** [stop] on a running monitor. *)
Lemma stop_running {World : Type} (s : State World) :
  isMonitoring s = true ->
  stop s
  = ({| isMonitoring := false; lastStatus := lastStatus s;
        lastPollTime := lastPollTime s; pollIntervalId := None;
        world := world s;
        events := events s
                  ++ match pollIntervalId s with
                     | Some timer => [CallClearInterval timer]
                     | None => []
                     end
                  ++ [LogStopped] |}, Normal tt).
Proof.
  intros H. unfold stop, Eff.bind, Eff.gets, Eff.when, setIsMonitoring, setPollIntervalId,
    emit, Eff.modify, Eff.ret.
  destruct s as [running seen polled timer w log].
  cbn [isMonitoring lastStatus lastPollTime pollIntervalId world events] in *.
  subst running. destruct timer as [timer |];
    cbn [isMonitoring lastStatus lastPollTime pollIntervalId world events fst snd];
    rewrite <- ?app_assoc; reflexivity.
Qed.

(** [start] on a monitor that is not running: the first tick, and when
    it completes the timer. *)
Lemma start_idle {World : Type} (env : Environment World) (options : MonitorOptions World)
    (s : State World) :
  isMonitoring s = false ->
  start env options s
  = match updateStatus env options
            {| isMonitoring := true; lastStatus := lastStatus s;
               lastPollTime := lastPollTime s; pollIntervalId := pollIntervalId s;
               world := world s;
               events := events s ++ [LogStarting (targetAddress options);
                                      LogPollingInterval (pollInterval options)] |} with
    | (s1, Normal _) =>
        ({| isMonitoring := isMonitoring s1; lastStatus := lastStatus s1;
            lastPollTime := lastPollTime s1;
            pollIntervalId := Some (Interval (pollInterval options));
            world := world s1;
            events := events s1
                      ++ [CallSetInterval (pollInterval options); LogStarted]
                      ++ (if enableWebSocket options then [LogWebSocketFallback] else []) |},
         Normal tt)
    | (s1, Throw e) => (s1, Throw e)
    end.
Proof.
  intros H. unfold start. unfold Eff.bind at 1. unfold Eff.gets at 1. rewrite H.
  unfold Eff.bind at 1. unfold setIsMonitoring at 1. unfold Eff.modify at 1.
  unfold Eff.bind at 1. unfold emit at 1. unfold Eff.modify at 1.
  unfold Eff.bind at 1. unfold emit at 1. unfold Eff.modify at 1.
  cbn [isMonitoring lastStatus lastPollTime pollIntervalId world events].
  rewrite <- app_assoc. cbn [app].
  unfold Eff.bind at 1.
  destruct (updateStatus env options _) as [s1 [[] | e]]; [| reflexivity].
  unfold Eff.bind, emit, setPollIntervalId, Eff.modify, Eff.when, Eff.ret.
  cbn [isMonitoring lastStatus lastPollTime pollIntervalId world events].
  destruct (enableWebSocket options);
    cbn [isMonitoring lastStatus lastPollTime pollIntervalId world events];
    rewrite <- ?app_assoc; reflexivity.
Qed.

(** X8: [stop] clears the running flag and the interval timer, logs that
    the monitor stopped and leaves the stored snapshot, the time of the
    last polling line and the world in place (a second [stop] does
    nothing).  When the monitor is started again and the
    account holds what the snapshot holds, the first tick reports nothing
    and keeps the snapshot, and one timer with the poll interval is set.
    [start] on the running monitor then only logs a warning: it fetches
    nothing, sets no second timer and leaves the snapshot alone. *)
Theorem restart_keeps_snapshot
    {World : Type} (env : Environment World) (options : MonitorOptions World)
    (s : State World) (last : TradingStatus.t) (w : World) (up : UserPositions.t) :
  isMonitoring s = true ->
  lastStatus s = Some last ->
  getUserPositions env (targetAddress options) (world s) = (w, Normal up) ->
  map (fun p => (Position.id p, JS.parseFloat (Position.quantity p))) (UserPositions.positions up)
  = map (fun p => (Position.id p, JS.parseFloat (Position.quantity p))) (openPositions last) ->
  JS.parseFloat (UserPositions.totalValue up) = JS.parseFloat (totalValue last) ->
  let stopped := fst (stop s) in
  let restarted := start env options stopped in
  let again := start env options (fst restarted) in
  isMonitoring stopped = false /\ lastStatus stopped = Some last
  /\ pollIntervalId stopped = None /\ world stopped = world s
  /\ lastPollTime stopped = lastPollTime s
  /\ events stopped
     = (events s
        ++ match pollIntervalId s with
           | Some timer => [CallClearInterval timer]
           | None => []
           end
        ++ [LogStopped])%list
  /\ stop stopped = (stopped, Normal tt)
  /\ snd restarted = Normal tt
  /\ isMonitoring (fst restarted) = true
  /\ lastStatus (fst restarted) = Some last
  /\ pollIntervalId (fst restarted) = Some (Interval (pollInterval options))
  /\ (exists new, events (fst restarted) = (events stopped ++ new)%list
                  /\ existsb isCallOnUpdate new = false
                  /\ filter isTimerCall new = [CallSetInterval (pollInterval options)])
  /\ snd again = Normal tt
  /\ world (fst again) = world (fst restarted)
  /\ lastStatus (fst again) = Some last
  /\ pollIntervalId (fst again) = pollIntervalId (fst restarted)
  /\ events (fst again) = (events (fst restarted) ++ [LogAlreadyRunning])%list.
Proof.
  intros Hrun L F Hp Hv. cbv zeta.
  rewrite (stop_running s Hrun). cbn [fst].
  set (s0 := {| isMonitoring := false; lastStatus := lastStatus s;
                lastPollTime := lastPollTime s; pollIntervalId := None;
                world := world s; events := _ |}).
  split; [reflexivity |]. split; [exact L |]. split; [reflexivity |].
  split; [reflexivity |]. split; [reflexivity |]. split; [reflexivity |].
  split; [reflexivity |].
  rewrite (start_idle env options s0 eq_refl).
  set (s1 := {| isMonitoring := true; lastStatus := lastStatus s0;
                lastPollTime := lastPollTime s0; pollIntervalId := pollIntervalId s0;
                world := world s0; events := _ |}).
  assert (D : detectChanges (lastStatus s1)
                (statusOf (targetAddress options) up (toISOString env w)) = false).
  { cbn [lastStatus s1 s0]. rewrite L. apply same_positions_unchanged; assumption. }
  assert (F1 : getUserPositions env (targetAddress options) (world s1) = (w, Normal up))
    by exact F.
  destruct (quiet_tick env options s1 w up F1 D)
    as (H1 & H2 & H3 & H4 & new & H5 & H6 & H7).
  pose proof (quiet_tick_consoleOnly env options s1 w up F1 D) as H8.
  destruct (updateStatus env options s1) as [s2 [[] | e]]; [| discriminate H1].
  cbn [fst snd isMonitoring lastStatus lastPollTime pollIntervalId world events] in *.
  split; [reflexivity |]. split; [exact H3 |]. split; [rewrite H2; exact L |].
  split; [reflexivity |]. split.
  - destruct H8 as (new' & E & T).
    exists ([LogStarting (targetAddress options);
             LogPollingInterval (pollInterval options)]
            ++ new'
            ++ [CallSetInterval (pollInterval options); LogStarted]
            ++ (if enableWebSocket options then [LogWebSocketFallback] else []))%list.
    split; [rewrite E; subst s1; cbn [events]; rewrite <- !app_assoc; reflexivity |].
    assert (E' : new' = new).
    { rewrite H5 in E. apply app_inv_head in E. symmetry. exact E. }
    subst new'. split.
    + rewrite !existsb_app, H6. destruct (enableWebSocket options); reflexivity.
    + rewrite !filter_app, T. destruct (enableWebSocket options); reflexivity.
  - rewrite start_running by exact H3.
    cbn [fst snd isMonitoring lastStatus lastPollTime pollIntervalId world events].
    rewrite H2. auto.
Qed.
End UnchangedTheorems.

Section CallbackTheorems.
Import TradingStatus AccountMonitor Detector Snapshots.

(** [getStatus] returns a status whatever the client does. *)
Lemma getStatus_returns {World : Type} (env : Environment World)
    (options : MonitorOptions World) (s : State World) :
  exists s1 status,
    getStatus env options s = (s1, Normal status)
    /\ lastStatus s1 = lastStatus s /\ lastPollTime s1 = lastPollTime s
    /\ isMonitoring s1 = isMonitoring s
    /\ exists warned, events s1 = (events s ++ warned)%list
                      /\ existsb isCallOnError warned = false
                      /\ existsb isCallOnUpdate warned = false.
Proof.
  destruct (getUserPositions env (targetAddress options) (world s)) as [w [up | e]] eqn:F.
  - eexists. eexists. split; [apply (getStatus_fulfilled env options s w up F) |].
    repeat (split; [reflexivity |]). exists []. rewrite app_nil_r. auto.
  - eexists. eexists. split; [apply (getStatus_rejected env options s w e F) |].
    repeat (split; [reflexivity |]). eexists. split; [reflexivity |]. auto.
Qed.

(** X7: [getStatus] returns a status whatever the client does, and a
    tick throws only when [onError] does.  When the detector finds no
    change the tick completes and keeps the snapshot.  When it finds one,
    the new snapshot is stored before [onUpdate] is called: if [onUpdate]
    returns, [onError] is not called; if [onUpdate] throws, the error is
    logged and passed to [onError], whose completion is the tick's, and
    the stored snapshot stays. *)
Theorem tick_survives_failing_callback
    {World : Type} (env : Environment World) (options : MonitorOptions World)
    (s : State World) :
  exists s1 status,
    getStatus env options s = (s1, Normal status)
    /\ let out := updateStatus env options s in
       (detectChanges (lastStatus s) status = false ->
        snd out = Normal tt /\ lastStatus (fst out) = lastStatus s
        /\ world (fst out) = world s1)
       /\ (detectChanges (lastStatus s) status = true ->
           lastStatus (fst out) = Some status
           /\ match onUpdate options status (world s1) with
              | (w, Normal _) =>
                  snd out = Normal tt /\ world (fst out) = w
                  /\ exists new, events (fst out) = (events s ++ new)%list
                                 /\ existsb isCallOnError new = false
              | (w, Throw e) =>
                  snd out = snd (onError options e w)
                  /\ world (fst out) = fst (onError options e w)
                  /\ exists lines,
                       events (fst out)
                       = (events s ++ lines
                          ++ [CallOnUpdate status; LogErrorDuringUpdate (message e);
                              CallOnError e])%list
                       /\ existsb isCallOnError lines = false
                       /\ existsb isCallOnUpdate lines = false
              end)
       /\ ((forall e w, snd (onError options e w) = Normal tt) -> snd out = Normal tt).
Proof.
  destruct (getStatus_returns env options s)
    as (s1 & status & G & L & P & M & warned & E & W1 & W2).
  exists s1, status. split; [exact G |]. cbv zeta.
  rewrite (updateStatus_run env options s s1 status G), applyStatus_run.
  rewrite L, P, E.
  set (due := pollLogDue (lastPollTime s) (dateNow env (world s1))).
  assert (C1 : existsb isCallOnError (consoleLines (lastStatus s) status due) = false).
  { unfold consoleLines. rewrite !existsb_app.
    destruct (detection (lastStatus s) status), due, (lastStatus s);
      try destruct (detectChanges _ status); reflexivity. }
  assert (C2 : existsb isCallOnUpdate (consoleLines (lastStatus s) status due) = false).
  { unfold consoleLines. rewrite !existsb_app.
    destruct (detection (lastStatus s) status), due, (lastStatus s);
      try destruct (detectChanges _ status); reflexivity. }
  destruct (detectChanges (lastStatus s) status) eqn:D.
  - destruct (onUpdate options status (world s1)) as [w [[] | e]] eqn:U;
      cbn [lastStatus lastPollTime world events isMonitoring fst snd].
    + split; [intros K; discriminate K |].
      split; [| reflexivity]. intros _. split; [reflexivity |].
      split; [reflexivity |]. split; [reflexivity |].
      eexists. rewrite <- !app_assoc. split; [reflexivity |].
      rewrite !existsb_app, W1, C1. reflexivity.
    + destruct (onError options e w) as [w2 r2] eqn:O.
      cbn [lastStatus lastPollTime world events isMonitoring fst snd].
      split; [intros K; discriminate K |].
      split.
      * intros _. split; [reflexivity |]. split; [reflexivity |]. split; [reflexivity |].
        exists (warned ++ consoleLines (lastStatus s) status due)%list.
        rewrite <- !app_assoc. split; [reflexivity |].
        rewrite !existsb_app, W1, W2, C1, C2. auto.
      * intros H. specialize (H e w). rewrite O in H. exact H.
  - cbn [lastStatus lastPollTime world events isMonitoring fst snd].
    split; [| split; [intros K; discriminate K | reflexivity]].
    intros _. auto.
Qed.
End CallbackTheorems.

(** ** Sets *)

Section SetFacts.
Implicit Types (k : string) (s : JsSet.t).

Lemma has_add k k' s : JsSet.has k (JsSet.add k' s) = String.eqb k k' || JsSet.has k s.
Proof.
  unfold JsSet.add. destruct (JsSet.has k' s) eqn:H.
  - destruct (String.eqb k k') eqn:E; [| reflexivity].
    apply String.eqb_eq in E. subst k'. rewrite H. reflexivity.
  - unfold JsSet.has. rewrite existsb_app. simpl.
    destruct (existsb (String.eqb k) s), (String.eqb k k'); reflexivity.
Qed.

Lemma has_delete k k' s :
  JsSet.has k (JsSet.delete k' s) = JsSet.has k s && negb (String.eqb k k').
Proof.
  unfold JsSet.has, JsSet.delete. induction s as [| x s IH]; simpl; [reflexivity |].
  destruct (String.eqb x k') eqn:E; simpl.
  - rewrite IH. apply String.eqb_eq in E. subst x.
    destruct (String.eqb k k'); simpl; [rewrite andb_false_r; reflexivity |].
    rewrite andb_true_r. reflexivity.
  - rewrite IH. destruct (String.eqb k x) eqn:E2; simpl; [| reflexivity].
    apply String.eqb_eq in E2. subst x. rewrite E. reflexivity.
Qed.
End SetFacts.

(** ** Loops *)

Section LoopFacts.
Context {S A : Type}.

Lemma forEach_cons (x : A) (l : list A) (body : A -> Eff.M S unit) (s : S) :
  Eff.forEach (x :: l) body s
  = match body x s with
    | (s1, Normal _) => Eff.forEach l body s1
    | (s1, Throw e) => (s1, Throw e)
    end.
Proof. reflexivity. Qed.
End LoopFacts.

Lemma filter_none {A : Type} (f : A -> bool) (l : list A) :
  (forall x, In x l -> f x = false) -> filter f l = [].
Proof.
  induction l as [| x l IH]; simpl; intros H; [reflexivity |].
  rewrite (H x) by auto. apply IH. intros y Hy. apply H. auto.
Qed.

Section HandlerFacts.
Import CopyTradingMonitor Attempts Orders.
Context {World : Type}.
Variable client : TradeExecutor.ClobClient World.
Variable config : TradeExecutor.CopyTradingConfig World.
Variable toISOString : World -> string.

Lemma bought_app (a b : list CopyTradingMonitor.Event) :
  bought (a ++ b) = (bought a ++ bought b)%list.
Proof. apply flat_map_app. Qed.

Lemma sold_app (a b : list CopyTradingMonitor.Event) :
  sold (a ++ b) = (sold a ++ sold b)%list.
Proof. apply flat_map_app. Qed.

Lemma posted_app (a b : list TradeExecutor.Event) :
  posted (a ++ b) = (posted a ++ posted b)%list.
Proof. apply flat_map_app. Qed.

Lemma leaves_nothing (s : State World) : leaves s s [] [].
Proof.
  unfold leaves, appended. rewrite !app_nil_r. cbn [bought sold flat_map List.length].
  repeat split; lia.
Qed.

Lemma leaves_trans (s s1 s2 : State World) new1 newE1 new2 newE2 :
  leaves s s1 new1 newE1 -> leaves s1 s2 new2 newE2 ->
  leaves s s2 (new1 ++ new2) (newE1 ++ newE2).
Proof.
  unfold leaves, appended.
  intros (A1 & B1 & C1 & D1 & E1 & F1) (A2 & B2 & C2 & D2 & E2 & F2).
  rewrite A2, A1, B2, B1, C2, C1, D2, D1, E2, E1, F2, F1, !app_assoc.
  rewrite bought_app, sold_app, !List.length_app.
  repeat split; lia.
Qed.

Ltac run_handler :=
  unfold Eff.tryCatch, Eff.bind, Eff.gets, Eff.ret, Eff.modify, emit, onExecutor,
    recordExecuted, onStats, onExecuted, Eff.bind, Eff.gets, Eff.modify;
  cbn [tradeExecutor stats executedPositions targetPositions console fst snd].

(** One iteration of the loop over the new positions. *)
Lemma buy_step (p : Position.t) (s : State World) :
  let out := buyNewPosition client config toISOString p s in
  snd out = Normal tt
  /\ exists new newE,
       leaves s (fst out) new newE
       /\ bought new = (if held (executedPositions s) p then [] else [p])
       /\ sold new = []
       /\ (executedPositions (fst out) = executedPositions s
           \/ (held (executedPositions s) p = false
               /\ executedPositions (fst out)
                  = JsSet.add (Position.id p) (executedPositions s)))
       /\ (posted newE = []
           \/ (held (executedPositions s) p = false
               /\ posted newE = [Guards.orderOf config TradeExecutor.BUY p]))
       /\ (TradeExecutor.dryRun config = true -> posted newE = []).
Proof.
  cbv zeta. unfold buyNewPosition, held.
  destruct (orders_of_buy client config p (tradeExecutor s)) as (newE & A & B & C & _).
  run_handler.
  destruct (JsSet.has (Position.id p) (executedPositions s)) eqn:H.
  - split; [reflexivity |]. exists [], []. cbn [fst].
    split; [apply leaves_nothing |]. repeat split; auto.
  - destruct (TradeExecutor.executeBuy client config p (tradeExecutor s)) as [e [r | err]];
      [destruct (TradeExecutionResult.success r) |];
      cbn [tradeExecutor stats executedPositions targetPositions console fst snd] in *;
      rewrite <- ?app_assoc;
      (split; [reflexivity |]); eexists; exists newE;
      (split; [unfold leaves;
               cbn [tradeExecutor stats executedPositions targetPositions console];
               split; [reflexivity |]; split; [exact A |];
               repeat (split; [reflexivity |]);
               unfold counted, stampTrade, addVolume, countExecuted, countFailed;
               cbn [CopyTradingStatus.totalTradesExecuted
                    CopyTradingStatus.totalTradesFailed bought sold flat_map app
                    List.length]; lia |]);
      cbn [bought sold flat_map app];
      (split; [reflexivity |]); (split; [reflexivity |]);
      (split; [auto |]);
      (split; [destruct B as [B | B]; auto |]);
      intros Hdry; destruct B as [B | B]; [exact B | | exact B | | exact B |];
      destruct C as (C & _); [rewrite B; discriminate | congruence
                             | rewrite B; discriminate | congruence
                             | rewrite B; discriminate | congruence].
Qed.
(** One iteration of the loop over the closed positions. *)
Lemma sell_step (p : Position.t) (s : State World) :
  let out := sellClosedPosition client config toISOString p s in
  snd out = Normal tt
  /\ exists new newE,
       leaves s (fst out) new newE
       /\ bought new = []
       /\ sold new = (if held (executedPositions s) p then [p] else [])
       /\ (executedPositions (fst out) = executedPositions s
           \/ (held (executedPositions s) p = true
               /\ executedPositions (fst out)
                  = JsSet.delete (Position.id p) (executedPositions s)))
       /\ (posted newE = []
           \/ (held (executedPositions s) p = true
               /\ posted newE = [Guards.orderOf config TradeExecutor.SELL p]))
       /\ (TradeExecutor.dryRun config = true -> posted newE = []).
Proof.
  cbv zeta. unfold sellClosedPosition, held.
  destruct (orders_of_sell client config p (tradeExecutor s)) as (newE & A & B & C & _).
  run_handler.
  destruct (JsSet.has (Position.id p) (executedPositions s)) eqn:H; cbn [negb].
  - destruct (TradeExecutor.executeSell client config p (tradeExecutor s)) as [e [r | err]];
      [destruct (TradeExecutionResult.success r) |];
      cbn [tradeExecutor stats executedPositions targetPositions console fst snd] in *;
      rewrite <- ?app_assoc;
      (split; [reflexivity |]); eexists; exists newE;
      (split; [unfold leaves;
               cbn [tradeExecutor stats executedPositions targetPositions console];
               split; [reflexivity |]; split; [exact A |];
               repeat (split; [reflexivity |]);
               unfold counted, stampTrade, addVolume, countExecuted, countFailed;
               cbn [CopyTradingStatus.totalTradesExecuted
                    CopyTradingStatus.totalTradesFailed bought sold flat_map app
                    List.length]; lia |]);
      cbn [bought sold flat_map app];
      (split; [reflexivity |]); (split; [reflexivity |]);
      (split; [auto |]);
      (split; [destruct B as [B | B]; auto |]);
      intros Hdry; destruct B as [B | B]; [exact B | | exact B | | exact B |];
      destruct C as (C & _); [rewrite B; discriminate | congruence
                             | rewrite B; discriminate | congruence
                             | rewrite B; discriminate | congruence].
  - split; [reflexivity |]. exists [], []. cbn [fst].
    split; [apply leaves_nothing |]. repeat split; auto.
Qed.

(** The loop over the new positions. *)
Lemma buy_loop (l : list Position.t) : forall s : State World,
  let out := Eff.forEach l (buyNewPosition client config toISOString) s in
  snd out = Normal tt
  /\ exists new newE,
       leaves s (fst out) new newE
       /\ sold new = []
       /\ (forall id, JsSet.has id (executedPositions (fst out)) = true ->
           JsSet.has id (executedPositions s) = true
           \/ In id (map Position.id (bought new)))
       /\ (forall id, JsSet.has id (executedPositions s) = true ->
           JsSet.has id (executedPositions (fst out)) = true)
       /\ (forall o, In o (posted newE) ->
           exists p, In p (bought new) /\ o = Guards.orderOf config TradeExecutor.BUY p)
       /\ (TradeExecutor.dryRun config = true -> posted newE = [])
       /\ (forall p, In p (bought new) -> In p l /\ held (executedPositions s) p = false)
       /\ (NoDup (map Position.id l) ->
           bought new = filter (fun p => negb (held (executedPositions s) p)) l)
       /\ (List.length (posted newE) <= List.length (bought new))%nat.
Proof.
  induction l as [| x l IH]; intros s; cbv zeta.
  - cbn [Eff.forEach]. unfold Eff.ret. cbn [fst snd].
    split; [reflexivity |]. exists [], [].
    split; [apply leaves_nothing |].
    cbn [bought sold posted flat_map map filter].
    repeat split; auto; try (intros ? []); try (intros ? ? []);
      try (match goal with H : In _ [] |- _ => destruct H end).
  - rewrite forEach_cons.
    destruct (buy_step x s) as (N1 & new1 & newE1 & L1 & B1 & S1 & X1 & P1 & D1).
    destruct (buyNewPosition client config toISOString x s) as [s1 c1].
    cbn [fst snd] in *. subst c1.
    destruct (IH s1) as (N2 & new2 & newE2 & L2 & S2 & G2 & M2 & P2 & D2 & I2 & F2 & Q2).
    split; [exact N2 |].
    exists (new1 ++ new2)%list, (newE1 ++ newE2)%list.
    assert (Mono : forall id, JsSet.has id (executedPositions s) = true ->
                              JsSet.has id (executedPositions s1) = true).
    { intros id Hid. destruct X1 as [X1 | (_ & X1)]; rewrite X1; [exact Hid |].
      rewrite has_add, Hid. apply orb_true_r. }
    split; [exact (leaves_trans _ _ _ _ _ _ _ L1 L2) |].
    split; [rewrite sold_app, S1, S2; reflexivity |].
    split; [| split; [| split; [| split; [| split; [| split]]]]].
    + intros id Hid. rewrite bought_app, map_app, in_app_iff.
      destruct (G2 id Hid) as [H | H]; [| tauto].
      destruct X1 as [X1 | (Hx & X1)]; rewrite X1 in H; [tauto |].
      rewrite has_add in H. apply orb_true_iff in H. destruct H as [H | H]; [| tauto].
      apply String.eqb_eq in H. subst id. right. left.
      rewrite B1, Hx. left. reflexivity.
    + intros id Hid. apply M2, Mono, Hid.
    + intros o Ho. rewrite posted_app, in_app_iff in Ho. destruct Ho as [Ho | Ho].
      * destruct P1 as [P1 | (Hx & P1)]; rewrite P1 in Ho; [destruct Ho |].
        destruct Ho as [<- | []]. exists x. split; [| reflexivity].
        rewrite bought_app, B1, Hx. left. reflexivity.
      * destruct (P2 o Ho) as (p & Hp & ->). exists p. split; [| reflexivity].
        rewrite bought_app, in_app_iff. tauto.
    + intros Hdry. rewrite posted_app, (D1 Hdry), (D2 Hdry). reflexivity.
    + intros p Hp. rewrite bought_app, in_app_iff in Hp. destruct Hp as [Hp | Hp].
      * rewrite B1 in Hp. destruct (held (executedPositions s) x) eqn:Hx; [destruct Hp |].
        destruct Hp as [<- | []]. split; [left; reflexivity | exact Hx].
      * destruct (I2 p Hp) as (Hin & Hh). split; [right; exact Hin |].
        unfold held in *. destruct (JsSet.has (Position.id p) (executedPositions s)) eqn:E;
          [| reflexivity].
        rewrite (Mono _ E) in Hh. discriminate.
    + intros ND. inversion ND as [| ? ? Hnot ND']; subst.
      rewrite bought_app, B1, (F2 ND'). cbn [filter].
      assert (Same : filter (fun p => negb (held (executedPositions s1) p)) l
                     = filter (fun p => negb (held (executedPositions s) p)) l).
      { apply filter_ext_in. intros q Hq. f_equal. unfold held.
        destruct X1 as [X1 | (_ & X1)]; rewrite X1; [reflexivity |].
        rewrite has_add.
        destruct (String.eqb (Position.id q) (Position.id x)) eqn:E; [| reflexivity].
        apply String.eqb_eq in E. exfalso. apply Hnot. rewrite <- E. apply in_map. exact Hq. }
      rewrite Same. destruct (held (executedPositions s) x); reflexivity.
    + rewrite posted_app, bought_app, !List.length_app, B1.
      destruct P1 as [P1 | (Hx & P1)]; rewrite P1; [cbn [List.length]; lia |].
      rewrite Hx. cbn [List.length]. lia.
Qed.

(** The loop over the closed positions. *)
Lemma sell_loop (l : list Position.t) : forall s : State World,
  let out := Eff.forEach l (sellClosedPosition client config toISOString) s in
  snd out = Normal tt
  /\ exists new newE,
       leaves s (fst out) new newE
       /\ bought new = []
       /\ (forall id, JsSet.has id (executedPositions (fst out)) = true ->
           JsSet.has id (executedPositions s) = true)
       /\ (forall id, JsSet.has id (executedPositions s) = true ->
           ~ In id (map Position.id (sold new)) ->
           JsSet.has id (executedPositions (fst out)) = true)
       /\ (forall o, In o (posted newE) ->
           exists p, In p (sold new) /\ o = Guards.orderOf config TradeExecutor.SELL p)
       /\ (TradeExecutor.dryRun config = true -> posted newE = [])
       /\ (forall p, In p (sold new) -> In p l /\ held (executedPositions s) p = true)
       /\ (NoDup (map Position.id l) ->
           sold new = filter (held (executedPositions s)) l)
       /\ (List.length (posted newE) <= List.length (sold new))%nat.
Proof.
  induction l as [| x l IH]; intros s; cbv zeta.
  - cbn [Eff.forEach]. unfold Eff.ret. cbn [fst snd].
    split; [reflexivity |]. exists [], [].
    split; [apply leaves_nothing |].
    cbn [bought sold posted flat_map map filter].
    repeat split; auto; try (intros ? []); try (intros ? ? []);
      try (match goal with H : In _ [] |- _ => destruct H end).
  - rewrite forEach_cons.
    destruct (sell_step x s) as (N1 & new1 & newE1 & L1 & B1 & S1 & X1 & P1 & D1).
    destruct (sellClosedPosition client config toISOString x s) as [s1 c1].
    cbn [fst snd] in *. subst c1.
    destruct (IH s1) as (N2 & new2 & newE2 & L2 & B2 & G2 & M2 & P2 & D2 & I2 & F2 & Q2).
    split; [exact N2 |].
    exists (new1 ++ new2)%list, (newE1 ++ newE2)%list.
    assert (Anti : forall id, JsSet.has id (executedPositions s1) = true ->
                              JsSet.has id (executedPositions s) = true).
    { intros id Hid. destruct X1 as [X1 | (_ & X1)]; rewrite X1 in Hid; [exact Hid |].
      rewrite has_delete in Hid. apply andb_true_iff in Hid. tauto. }
    split; [exact (leaves_trans _ _ _ _ _ _ _ L1 L2) |].
    split; [rewrite bought_app, B1, B2; reflexivity |].
    split; [| split; [| split; [| split; [| split; [| split]]]]].
    + intros id Hid. apply Anti, G2, Hid.
    + intros id Hid Hno. rewrite sold_app, map_app, in_app_iff in Hno.
      apply M2; [| tauto].
      destruct X1 as [X1 | (Hx & X1)]; rewrite X1; [exact Hid |].
      rewrite has_delete, Hid. cbn [andb]. apply negb_true_iff.
      destruct (String.eqb id (Position.id x)) eqn:E; [| reflexivity].
      apply String.eqb_eq in E. exfalso. apply Hno. left.
      rewrite S1, Hx, E. left. reflexivity.
    + intros o Ho. rewrite posted_app, in_app_iff in Ho. destruct Ho as [Ho | Ho].
      * destruct P1 as [P1 | (Hx & P1)]; rewrite P1 in Ho; [destruct Ho |].
        destruct Ho as [<- | []]. exists x. split; [| reflexivity].
        rewrite sold_app, S1, Hx. left. reflexivity.
      * destruct (P2 o Ho) as (p & Hp & ->). exists p. split; [| reflexivity].
        rewrite sold_app, in_app_iff. tauto.
    + intros Hdry. rewrite posted_app, (D1 Hdry), (D2 Hdry). reflexivity.
    + intros p Hp. rewrite sold_app, in_app_iff in Hp. destruct Hp as [Hp | Hp].
      * rewrite S1 in Hp. destruct (held (executedPositions s) x) eqn:Hx; [| destruct Hp].
        destruct Hp as [<- | []]. split; [left; reflexivity | exact Hx].
      * destruct (I2 p Hp) as (Hin & Hh). split; [right; exact Hin |].
        apply Anti. exact Hh.
    + intros ND. inversion ND as [| ? ? Hnot ND']; subst.
      rewrite sold_app, S1, (F2 ND'). cbn [filter].
      assert (Same : filter (held (executedPositions s1)) l
                     = filter (held (executedPositions s)) l).
      { apply filter_ext_in. intros q Hq. unfold held.
        destruct X1 as [X1 | (_ & X1)]; rewrite X1; [reflexivity |].
        rewrite has_delete.
        destruct (String.eqb (Position.id q) (Position.id x)) eqn:E;
          [| apply andb_true_r].
        apply String.eqb_eq in E. exfalso. apply Hnot. rewrite <- E. apply in_map. exact Hq. }
      rewrite Same. destruct (held (executedPositions s) x); reflexivity.
    + rewrite posted_app, sold_app, !List.length_app, S1.
      destruct P1 as [P1 | (Hx & P1)]; rewrite P1; [cbn [List.length]; lia |].
      rewrite Hx. cbn [List.length]. lia.
Qed.

(** The whole call: the two loops, then the tracked positions are
    replaced. *)
Lemma handle_run (status : TradingStatus.t) (s : State World) :
  handleStatusUpdate client config toISOString status s
  = (tracking
       (fst (Eff.forEach (closedPositions (targetPositions s) status)
               (sellClosedPosition client config toISOString)
               (fst (Eff.forEach (newPositions (targetPositions s) status)
                       (buyNewPosition client config toISOString) s))))
       (currentPositions status),
     Normal tt).
Proof.
  unfold handleStatusUpdate, Eff.bind, Eff.gets, setTargetPositions, Eff.modify, tracking.
  destruct (buy_loop (newPositions (targetPositions s) status) s) as (N1 & _).
  destruct (Eff.forEach (newPositions (targetPositions s) status) _ s) as [s1 c1].
  cbn [fst snd] in *. subst c1.
  destruct (sell_loop (closedPositions (targetPositions s) status) s1) as (N2 & _).
  destruct (Eff.forEach (closedPositions (targetPositions s) status) _ s1) as [s2 c2].
  cbn [fst snd] in *. subst c2. reflexivity.
Qed.

Lemma keyed_currentPositions (status : TradingStatus.t) : keyed (currentPositions status).
Proof.
  rewrite currentPositions_map. split.
  - apply keys_positionsMap_nodup.
  - intros k p H. apply in_positionsMap in H. tauto.
Qed.

Lemma nodup_filter_fst {B : Type} (f : string * B -> bool) (m : list (string * B)) :
  NoDup (map fst m) -> NoDup (map fst (filter f m)).
Proof.
  induction m as [| e m IH]; simpl; intros ND; [constructor |].
  inversion ND as [| ? ? Hn ND']; subst.
  destruct (f e); simpl; [| auto].
  constructor; [| auto].
  intros Hin. apply Hn. apply in_map_iff in Hin. destruct Hin as (x & Hx & Hin).
  apply filter_In in Hin. apply in_map_iff. exists x. tauto.
Qed.

Lemma nodup_selected (f : string * Position.t -> bool) (m : JsMap.t Position.t) :
  keyed m -> NoDup (map Position.id (map snd (filter f m))).
Proof.
  intros (ND & K). rewrite map_map.
  rewrite (map_ext_in _ fst).
  - apply nodup_filter_fst. exact ND.
  - intros [k p] Hin. apply filter_In in Hin. cbn [fst snd]. apply K. tauto.
Qed.

Lemma new_not_tracked (target : JsMap.t Position.t) (status : TradingStatus.t)
    (p : Position.t) :
  In p (newPositions target status) ->
  JsMap.has (Position.id p) target = false /\ In p (TradingStatus.openPositions status).
Proof.
  unfold newPositions. intros H. apply in_map_iff in H. destruct H as ([k q] & E & H).
  cbn [snd] in E. subst q. apply filter_In in H. destruct H as (H & F). cbn [fst] in F.
  destruct (keyed_currentPositions status) as (_ & K).
  rewrite (K k p H). split; [apply negb_true_iff; exact F |].
  rewrite currentPositions_map in H. apply in_positionsMap in H. tauto.
Qed.

Lemma closed_tracked (target : JsMap.t Position.t) (status : TradingStatus.t)
    (p : Position.t) :
  keyed target ->
  In p (closedPositions target status) ->
  JsMap.has (Position.id p) target = true
  /\ JsMap.has (Position.id p) (currentPositions status) = false.
Proof.
  unfold closedPositions. intros (_ & K) H.
  apply in_map_iff in H. destruct H as ([k q] & E & H).
  cbn [snd] in E. subst q. apply filter_In in H. destruct H as (H & F). cbn [fst] in F.
  rewrite (K k p H). split; [apply (in_has k p); exact H | apply negb_true_iff; exact F].
Qed.
End HandlerFacts.

Section HandlerTheorems.
Import CopyTradingMonitor Attempts Orders.
Context {World : Type}.
Variable client : TradeExecutor.ClobClient World.
Variable config : TradeExecutor.CopyTradingConfig World.
Variable toISOString : World -> string.

(** X9: [handleStatusUpdate] never throws, whatever the gateway and the
    callbacks do, and when it is done the tracked positions are those of
    the status -- one entry per identifier -- whether the trades it
    attempted succeeded or not; the [enabled] and [dryRun] flags of the
    statistics are never changed. *)
Theorem handler_completes_and_tracks (status : TradingStatus.t) (s : State World) :
  let out := handleStatusUpdate client config toISOString status s in
  snd out = Normal tt
  /\ targetPositions (fst out) = currentPositions status
  /\ keyed (targetPositions (fst out))
  /\ (forall id, JsMap.has id (targetPositions (fst out))
                 = Detector.hasId (TradingStatus.openPositions status) id)
  /\ CopyTradingStatus.enabled (stats (fst out)) = CopyTradingStatus.enabled (stats s)
  /\ CopyTradingStatus.dryRun (stats (fst out)) = CopyTradingStatus.dryRun (stats s).
Proof.
  cbv zeta. rewrite handle_run. cbn [fst snd tracking targetPositions stats].
  split; [reflexivity |]. split; [reflexivity |].
  split; [apply keyed_currentPositions |].
  split; [intros id; rewrite currentPositions_map; apply has_positionsMap |].
  destruct (buy_loop client config toISOString (newPositions (targetPositions s) status) s)
    as (_ & n1 & e1 & (_ & _ & T1 & A1 & B1 & _) & _).
  destruct (Eff.forEach (newPositions (targetPositions s) status) _ s) as [s1 c1].
  cbn [fst] in *.
  destruct (sell_loop client config toISOString (closedPositions (targetPositions s) status) s1)
    as (_ & n2 & e2 & (_ & _ & T2 & A2 & B2 & _) & _).
  rewrite A2, B2, A1, B1. auto.
Qed.

(** X10: when the status holds exactly the identifiers that are tracked,
    no position is new and none is closed, and [handleStatusUpdate] does
    nothing but replace the tracked positions: it attempts no trade,
    whatever happened to quantities and prices.  In particular handling a
    status a second time changes nothing: a trade that failed is not
    attempted again. *)
Theorem unchanged_identifiers_trade_nothing (status : TradingStatus.t) (s : State World) :
  let handle := handleStatusUpdate client config toISOString status in
  ((forall id, JsMap.has id (targetPositions s)
               = Detector.hasId (TradingStatus.openPositions status) id) ->
   newPositions (targetPositions s) status = []
   /\ closedPositions (targetPositions s) status = []
   /\ handle s = (tracking s (currentPositions status), Normal tt))
  /\ handle (fst (handle s)) = (fst (handle s), Normal tt).
Proof.
  cbv zeta.
  assert (Quiet : forall s0 : State World,
    (forall id, JsMap.has id (targetPositions s0)
                = Detector.hasId (TradingStatus.openPositions status) id) ->
    newPositions (targetPositions s0) status = []
    /\ closedPositions (targetPositions s0) status = []
    /\ handleStatusUpdate client config toISOString status s0
       = (tracking s0 (currentPositions status), Normal tt)).
  { intros s0 H.
    assert (Hnew : newPositions (targetPositions s0) status = []).
    { unfold newPositions.
      rewrite filter_none; [reflexivity |].
      intros [k p] Hin. cbn [fst]. apply negb_false_iff.
      rewrite H, <- has_positionsMap, <- currentPositions_map.
      apply (in_has k p). exact Hin. }
    assert (Hclosed : closedPositions (targetPositions s0) status = []).
    { unfold closedPositions.
      rewrite filter_none; [reflexivity |].
      intros [k p] Hin. cbn [fst]. apply negb_false_iff.
      rewrite currentPositions_map, has_positionsMap, <- H.
      apply (in_has k p). exact Hin. }
    split; [exact Hnew |]. split; [exact Hclosed |].
    rewrite handle_run, Hnew, Hclosed. reflexivity. }
  split; [apply Quiet |].
  set (s1 := fst (handleStatusUpdate client config toISOString status s)).
  assert (T : targetPositions s1 = currentPositions status).
  { subst s1. rewrite handle_run. reflexivity. }
  destruct (Quiet s1) as (_ & _ & E).
  { intros id. rewrite T, currentPositions_map. apply has_positionsMap. }
  rewrite E. unfold tracking. rewrite <- T. destruct s1; reflexivity.
Qed.

(** What the two loops leave behind, one after the other. *)
Lemma handle_summary (status : TradingStatus.t) (s : State World) :
  let news := newPositions (targetPositions s) status in
  let closed := closedPositions (targetPositions s) status in
  exists s1 s2 new1 newE1 new2 newE2,
    fst (handleStatusUpdate client config toISOString status s)
    = tracking s2 (currentPositions status)
    /\ leaves s s1 new1 newE1
    /\ sold new1 = []
    /\ (forall id, JsSet.has id (executedPositions s1) = true ->
        JsSet.has id (executedPositions s) = true
        \/ In id (map Position.id (bought new1)))
    /\ (forall id, JsSet.has id (executedPositions s) = true ->
        JsSet.has id (executedPositions s1) = true)
    /\ (forall o, In o (posted newE1) ->
        exists p, In p (bought new1) /\ o = Guards.orderOf config TradeExecutor.BUY p)
    /\ (TradeExecutor.dryRun config = true -> posted newE1 = [])
    /\ (forall p, In p (bought new1) -> In p news /\ held (executedPositions s) p = false)
    /\ (NoDup (map Position.id news) ->
        bought new1 = filter (fun p => negb (held (executedPositions s) p)) news)
    /\ (List.length (posted newE1) <= List.length (bought new1))%nat
    /\ leaves s1 s2 new2 newE2
    /\ bought new2 = []
    /\ (forall id, JsSet.has id (executedPositions s2) = true ->
        JsSet.has id (executedPositions s1) = true)
    /\ (forall id, JsSet.has id (executedPositions s1) = true ->
        ~ In id (map Position.id (sold new2)) ->
        JsSet.has id (executedPositions s2) = true)
    /\ (forall o, In o (posted newE2) ->
        exists p, In p (sold new2) /\ o = Guards.orderOf config TradeExecutor.SELL p)
    /\ (TradeExecutor.dryRun config = true -> posted newE2 = [])
    /\ (forall p, In p (sold new2) -> In p closed /\ held (executedPositions s1) p = true)
    /\ (NoDup (map Position.id closed) ->
        sold new2 = filter (held (executedPositions s1)) closed)
    /\ (List.length (posted newE2) <= List.length (sold new2))%nat.
Proof.
  cbv zeta. rewrite handle_run. cbn [fst].
  destruct (buy_loop client config toISOString (newPositions (targetPositions s) status) s)
    as (_ & new1 & newE1 & L1 & A1 & B1 & C1 & D1 & E1 & F1 & G1 & H1).
  set (s1 := fst (Eff.forEach (newPositions (targetPositions s) status) _ s)) in *.
  destruct (sell_loop client config toISOString (closedPositions (targetPositions s) status) s1)
    as (_ & new2 & newE2 & L2 & A2 & B2 & C2 & D2 & E2 & F2 & G2 & H2).
  set (s2 := fst (Eff.forEach (closedPositions (targetPositions s) status) _ s1)) in *.
  exists s1, s2, new1, newE1, new2, newE2.
  split; [reflexivity |].
  refine (conj L1 (conj A1 (conj B1 (conj C1 (conj D1 (conj E1 (conj F1 (conj G1 (conj
    H1 (conj L2 (conj A2 (conj B2 (conj C2 (conj D2 (conj E2 (conj F2 (conj G2
    H2))))))))))))))))).
Qed.

(** X11: with the tracked positions filed one per identifier, the buys
    [handleStatusUpdate] attempts are exactly the new positions (current
    identifiers that are not tracked) whose identifier is not among the
    executed ones, in order, and the sells it attempts are exactly the
    closed positions (tracked identifiers absent from the status) whose
    identifier is among the executed ones as the call starts, in order. *)
Theorem attempted_trades_are_the_new_and_the_held
    (status : TradingStatus.t) (s : State World) :
  keyed (targetPositions s) ->
  let out := handleStatusUpdate client config toISOString status s in
  exists new,
    console (fst out) = (console s ++ new)%list
    /\ bought new
       = filter (fun p => negb (held (executedPositions s) p))
                (newPositions (targetPositions s) status)
    /\ sold new
       = filter (held (executedPositions s)) (closedPositions (targetPositions s) status)
    /\ (forall p, In p (bought new) ->
        JsMap.has (Position.id p) (targetPositions s) = false
        /\ In p (TradingStatus.openPositions status))
    /\ (forall p, In p (sold new) ->
        JsMap.has (Position.id p) (targetPositions s) = true
        /\ Detector.hasId (TradingStatus.openPositions status) (Position.id p) = false).
Proof.
  intros K. cbv zeta.
  destruct (handle_summary status s)
    as (s1 & s2 & new1 & newE1 & new2 & newE2 & E & L1 & S1 & G1 & M1 & _ & _ & I1 & F1 & _
        & L2 & B2 & _ & _ & _ & _ & I2 & F2 & _).
  rewrite E. cbn [tracking console].
  pose proof (leaves_trans _ _ _ _ _ _ _ L1 L2) as (C & _).
  exists (new1 ++ new2)%list. split; [exact C |].
  rewrite bought_app, sold_app, S1, B2, app_nil_r. cbn [app].
  assert (HB : bought new1
               = filter (fun p => negb (held (executedPositions s) p))
                        (newPositions (targetPositions s) status)).
  { apply F1. apply nodup_selected. apply keyed_currentPositions. }
  assert (Same : forall q, In q (closedPositions (targetPositions s) status) ->
                 held (executedPositions s1) q = held (executedPositions s) q).
  { intros q Hq. unfold held.
    destruct (JsSet.has (Position.id q) (executedPositions s)) eqn:Hs.
    - apply M1. exact Hs.
    - apply not_true_is_false. intros H1.
      destruct (G1 _ H1) as [H | H]; [congruence |].
      apply in_map_iff in H. destruct H as (p & Hid & Hp).
      destruct (I1 p Hp) as (Hnew & _).
      destruct (new_not_tracked _ _ _ Hnew) as (Hno & _).
      destruct (closed_tracked _ _ _ K Hq) as (Hyes & _).
      rewrite Hid in Hno. congruence. }
  assert (HS : sold new2
               = filter (held (executedPositions s))
                        (closedPositions (targetPositions s) status)).
  { rewrite F2 by (apply nodup_selected; exact K). apply filter_ext_in. exact Same. }
  split; [exact HB |]. split; [exact HS |]. split.
  - intros p Hp. destruct (I1 p Hp) as (Hnew & _). apply (new_not_tracked _ _ _ Hnew).
  - intros p Hp. destruct (I2 p Hp) as (Hc & _).
    destruct (closed_tracked _ status _ K Hc) as (H1 & H2).
    split; [exact H1 |]. rewrite <- has_positionsMap, <- currentPositions_map. exact H2.
Qed.

(** X12: every trade [handleStatusUpdate] attempts is counted once, as
    executed or as failed; every order that reaches the gateway is the buy
    order of a position it attempted to buy or the sell order of one it
    attempted to sell, at most one order per attempt and none in dry-run
    mode; an identifier is among the executed ones afterwards only if it
    was before or a buy was attempted for it, and it stays among them
    unless a sell was attempted for it. *)
Theorem every_attempt_is_counted_once (status : TradingStatus.t) (s : State World) :
  let out := handleStatusUpdate client config toISOString status s in
  exists new newE,
    console (fst out) = (console s ++ new)%list
    /\ appended (tradeExecutor s) (tradeExecutor (fst out)) newE
    /\ counted (stats (fst out))
       = (counted (stats s) + List.length (bought new) + List.length (sold new))%nat
    /\ (forall o, In o (posted newE) ->
        (exists p, In p (bought new) /\ o = Guards.orderOf config TradeExecutor.BUY p)
        \/ (exists p, In p (sold new) /\ o = Guards.orderOf config TradeExecutor.SELL p))
    /\ (List.length (posted newE) <= List.length (bought new) + List.length (sold new))%nat
    /\ (TradeExecutor.dryRun config = true -> posted newE = [])
    /\ (forall id, JsSet.has id (executedPositions (fst out)) = true ->
        JsSet.has id (executedPositions s) = true
        \/ In id (map Position.id (bought new)))
    /\ (forall id, JsSet.has id (executedPositions s) = true ->
        ~ In id (map Position.id (sold new)) ->
        JsSet.has id (executedPositions (fst out)) = true).
Proof.
  cbv zeta.
  destruct (handle_summary status s)
    as (s1 & s2 & new1 & newE1 & new2 & newE2 & E & L1 & S1 & G1 & M1 & P1 & D1 & _ & _ & Q1
        & L2 & B2 & G2 & M2 & P2 & D2 & _ & _ & Q2).
  rewrite E. cbn [tracking console tradeExecutor stats executedPositions].
  pose proof (leaves_trans _ _ _ _ _ _ _ L1 L2) as (C & A & _ & _ & _ & N).
  exists (new1 ++ new2)%list, (newE1 ++ newE2)%list.
  split; [exact C |]. split; [exact A |]. split; [exact N |].
  rewrite bought_app, sold_app, S1, B2, app_nil_r. cbn [app].
  split; [| split; [| split; [| split]]].
  - intros o Ho. rewrite posted_app, in_app_iff in Ho.
    destruct Ho as [Ho | Ho]; [left; apply P1 | right; apply P2]; exact Ho.
  - rewrite posted_app, List.length_app. lia.
  - intros Hdry. rewrite posted_app, (D1 Hdry), (D2 Hdry). reflexivity.
  - intros id Hid. apply G1, G2, Hid.
  - intros id Hid Hno. apply M2; [apply M1; exact Hid | exact Hno].
Qed.
End HandlerTheorems.

(** ** The world as the account monitor leaves it *)

Section WorldFacts.
Import TradingStatus AccountMonitor Detector Snapshots.
Context {World : Type}.
Variable env : Environment World.
Variable options : MonitorOptions World.

(** The world after a tick: the fetch, then [onUpdate] when the detector
    fires, then [onError] when [onUpdate] threw. *)
Lemma tick_world (s : State World) :
  exists status,
    let w1 := fst (getUserPositions env (targetAddress options) (world s)) in
    fst (getStatus env options s)
    = {| isMonitoring := isMonitoring s; lastStatus := lastStatus s;
         lastPollTime := lastPollTime s; pollIntervalId := pollIntervalId s; world := w1;
         events := events (fst (getStatus env options s)) |}
    /\ snd (getStatus env options s) = Normal status
    /\ (match snd (getUserPositions env (targetAddress options) (world s)) with
        | Normal up => status = statusOf (targetAddress options) up (toISOString env w1)
        | Throw _ => status = emptyStatus (targetAddress options) (toISOString env w1)
        end)
    /\ world (fst (updateStatus env options s))
       = (if detectChanges (lastStatus s) status then
            match onUpdate options status w1 with
            | (w2, Normal _) => w2
            | (w2, Throw e) => fst (onError options e w2)
            end
          else w1)
    /\ lastStatus (fst (updateStatus env options s))
       = (if detectChanges (lastStatus s) status then Some status else lastStatus s)
    /\ isMonitoring (fst (updateStatus env options s)) = isMonitoring s
    /\ snd (updateStatus env options s)
       = (if detectChanges (lastStatus s) status then
            match onUpdate options status w1 with
            | (w2, Normal _) => Normal tt
            | (w2, Throw e) => snd (onError options e w2)
            end
          else Normal tt).
Proof.
  destruct (getUserPositions env (targetAddress options) (world s)) as [w [up | e]] eqn:F.
  - exists (statusOf (targetAddress options) up (toISOString env w)).
    pose proof (getStatus_fulfilled env options s w up F) as G.
    rewrite (updateStatus_run env options s _ _ G), applyStatus_run, G.
    cbn [fst snd lastStatus lastPollTime world events isMonitoring].
    do 3 (split; [reflexivity |]).
    destruct (detectChanges (lastStatus s) _);
      [destruct (onUpdate options _ w) as [w2 [[] | e2]];
       cbn [fst snd lastStatus lastPollTime world events isMonitoring];
       [| destruct (onError options e2 w2) as [w3 r3]] |];
      cbn [fst snd lastStatus lastPollTime world events isMonitoring]; auto.
  - exists (emptyStatus (targetAddress options) (toISOString env w)).
    pose proof (getStatus_rejected env options s w e F) as G.
    rewrite (updateStatus_run env options s _ _ G), applyStatus_run, G.
    cbn [fst snd lastStatus lastPollTime world events isMonitoring].
    do 3 (split; [reflexivity |]).
    destruct (detectChanges (lastStatus s) _);
      [destruct (onUpdate options _ w) as [w2 [[] | e2]];
       cbn [fst snd lastStatus lastPollTime world events isMonitoring];
       [| destruct (onError options e2 w2) as [w3 r3]] |];
      cbn [fst snd lastStatus lastPollTime world events isMonitoring]; auto.
Qed.
End WorldFacts.

(** ** The copy-trading monitor around the account monitor *)

Section WiringFacts.
Import CopyTradingMonitor Attempts Orders.
Context {World : Type}.
Variable polymarket : AccountMonitor.Environment World.
Variable clob : TradeExecutor.ClobClient World.
Variable monitorOptions : MonitorInput.t World.
Variable copyTradingConfig : CopyTradingInput.t World.

Lemma untraded_refl (s : State World) : untraded s s.
Proof.
  unfold untraded. repeat (split; [reflexivity |]).
  exists []. rewrite app_nil_r. auto.
Qed.

Lemma untraded_trans (s s1 s2 : State World) :
  untraded s s1 -> untraded s1 s2 -> untraded s s2.
Proof.
  unfold untraded.
  intros (A1 & B1 & C1 & D1 & E1 & l1 & F1 & G1 & H1)
         (A2 & B2 & C2 & D2 & E2 & l2 & F2 & G2 & H2).
  rewrite A2, A1, B2, B1, C2, C1, D2, D1, E2, E1.
  repeat (split; [reflexivity |]).
  exists (l1 ++ l2)%list. rewrite F2, F1, app_assoc.
  unfold bought, sold in *. rewrite !flat_map_app, G1, G2, H1, H2. auto.
Qed.

Lemma onWorld_run {A : Type} (f : World -> World * completion A) (s : State World) :
  onWorld f s = (withWorld s (fst (f (worldOf s))), snd (f (worldOf s))).
Proof.
  unfold onWorld, onExecutor, withWorld, worldOf.
  destruct (f (TradeExecutor.world (tradeExecutor s))) as [w r]. reflexivity.
Qed.

Lemma untraded_withWorld (s : State World) (w : World) : untraded s (withWorld s w).
Proof.
  unfold untraded, withWorld. cbn.
  repeat (split; [reflexivity |]). exists []. rewrite app_nil_r. auto.
Qed.

(** The caller's callback, when there is one. *)
Lemma untraded_original {X : Type}
    (original : option (X -> World -> World * completion unit)) (x : X) (s : State World) :
  untraded s (fst (match original with
                   | Some f => onWorld (f x)
                   | None => Eff.ret tt
                   end s)).
Proof.
  destruct original as [f |].
  - rewrite onWorld_run. apply untraded_withWorld.
  - apply untraded_refl.
Qed.

Lemma untraded_onError (error : JsError) (s : State World) :
  untraded s (fst (CopyTradingMonitor.onError monitorOptions error s)).
Proof.
  unfold CopyTradingMonitor.onError, Eff.bind.
  pose proof (untraded_original (MonitorInput.onError monitorOptions) error s) as U.
  destruct (match MonitorInput.onError monitorOptions with
            | Some f => onWorld (f error)
            | None => Eff.ret tt
            end s) as [s1 [[] | e]]; cbn [fst] in *; [| exact U].
  apply (untraded_trans _ _ _ U).
  unfold emit, Eff.modify, untraded. cbn.
  repeat (split; [reflexivity |]). eexists. split; [reflexivity |]. auto.
Qed.

(** The installed [onUpdate]: the caller's callback, then the
    copy-trading logic unless the callback threw or copy trading is
    disabled. *)
Lemma onUpdate_run (status : TradingStatus.t) (s : State World) :
  CopyTradingMonitor.onUpdate polymarket clob monitorOptions copyTradingConfig status s
  = match MonitorInput.onUpdate monitorOptions with
    | Some original =>
        match original status (worldOf s) with
        | (w, Normal _) =>
            if CopyTradingInput.enabled copyTradingConfig
            then (fst (handle polymarket clob copyTradingConfig status (withWorld s w)),
                  Normal tt)
            else (withWorld s w, Normal tt)
        | (w, Throw e) => (withWorld s w, Throw e)
        end
    | None =>
        if CopyTradingInput.enabled copyTradingConfig
        then (fst (handle polymarket clob copyTradingConfig status s), Normal tt)
        else (s, Normal tt)
    end.
Proof.
  unfold CopyTradingMonitor.onUpdate, Eff.bind.
  destruct (MonitorInput.onUpdate monitorOptions) as [original |].
  - rewrite onWorld_run.
    destruct (original status (worldOf s)) as [w [[] | e]]; cbn [fst snd]; [| reflexivity].
    destruct (CopyTradingInput.enabled copyTradingConfig); reflexivity.
  - unfold Eff.ret. destruct (CopyTradingInput.enabled copyTradingConfig); reflexivity.
Qed.

Lemma untraded_onUpdate_disabled (status : TradingStatus.t) (s : State World) :
  CopyTradingInput.enabled copyTradingConfig = false ->
  untraded s
    (fst (CopyTradingMonitor.onUpdate polymarket clob monitorOptions copyTradingConfig
            status s)).
Proof.
  intros H. rewrite onUpdate_run, H.
  destruct (MonitorInput.onUpdate monitorOptions) as [original |].
  - destruct (original status (worldOf s)) as [w [[] | e]]; apply untraded_withWorld.
  - apply untraded_refl.
Qed.

(** A tick of the wrapped monitor that does not run the copy-trading
    logic leaves the books alone. *)
Lemma untraded_tick (am : AccountMonitor.State (State World)) :
  (forall status s,
     untraded s
       (fst (CopyTradingMonitor.onUpdate polymarket clob monitorOptions copyTradingConfig
               status s))) ->
  untraded (AccountMonitor.world am)
    (AccountMonitor.world
       (fst (tick polymarket clob monitorOptions copyTradingConfig am))).
Proof.
  intros HU. unfold tick.
  destruct (tick_world (environment polymarket)
              (accountMonitorOptions polymarket clob monitorOptions copyTradingConfig) am)
    as (status & _ & _ & _ & W & _).
  cbv zeta in W. rewrite W. clear W.
  change (AccountMonitor.getUserPositions (environment polymarket))
    with (fun user => onWorld (AccountMonitor.getUserPositions polymarket user)).
  cbv beta. rewrite onWorld_run. cbn [fst].
  set (s1 := withWorld (AccountMonitor.world am) _).
  assert (U1 : untraded (AccountMonitor.world am) s1) by apply untraded_withWorld.
  destruct (AccountMonitor.detectChanges (AccountMonitor.lastStatus am) status);
    [| exact U1].
  change (AccountMonitor.onUpdate
            (accountMonitorOptions polymarket clob monitorOptions copyTradingConfig))
    with (CopyTradingMonitor.onUpdate polymarket clob monitorOptions copyTradingConfig).
  change (AccountMonitor.onError
            (accountMonitorOptions polymarket clob monitorOptions copyTradingConfig))
    with (CopyTradingMonitor.onError monitorOptions).
  pose proof (HU status s1) as U2.
  destruct (CopyTradingMonitor.onUpdate polymarket clob monitorOptions copyTradingConfig
              status s1) as [s2 [[] | e]]; cbn [fst] in U2.
  - apply (untraded_trans _ _ _ U1 U2).
  - apply (untraded_trans _ _ _ U1). apply (untraded_trans _ _ _ U2).
    apply untraded_onError.
Qed.
End WiringFacts.

Section WiringTheorems.
Import CopyTradingMonitor Attempts Orders.
Context {World : Type}.
Variable polymarket : AccountMonitor.Environment World.
Variable clob : TradeExecutor.ClobClient World.
Variable monitorOptions : MonitorInput.t World.
Variable copyTradingConfig : CopyTradingInput.t World.

(** X13. With copy trading disabled the copy-trading monitor is the account
    monitor alone: [start] is the account monitor's [start], and neither
    [start] nor a poll tick attempts a trade, calls the executor, derives
    the API key or touches the statistics, the executed identifiers and the
    tracked positions -- whatever the target's positions do. *)
Theorem disabled_monitor_never_trades (am : AccountMonitor.State (State World)) :
  CopyTradingInput.enabled copyTradingConfig = false ->
  start polymarket clob monitorOptions copyTradingConfig am
  = AccountMonitor.start (environment polymarket)
      (accountMonitorOptions polymarket clob monitorOptions copyTradingConfig) am
  /\ untraded (AccountMonitor.world am)
       (AccountMonitor.world
          (fst (start polymarket clob monitorOptions copyTradingConfig am)))
  /\ untraded (AccountMonitor.world am)
       (AccountMonitor.world
          (fst (tick polymarket clob monitorOptions copyTradingConfig am))).
Proof.
  intros H.
  assert (HU : forall status s,
    untraded s
      (fst (CopyTradingMonitor.onUpdate polymarket clob monitorOptions copyTradingConfig
              status s))).
  { intros status s. apply untraded_onUpdate_disabled. exact H. }
  assert (E : start polymarket clob monitorOptions copyTradingConfig am
              = AccountMonitor.start (environment polymarket)
                  (accountMonitorOptions polymarket clob monitorOptions copyTradingConfig) am).
  { unfold start. rewrite H. reflexivity. }
  split; [exact E |]. split; [| apply untraded_tick; exact HU].
  rewrite E.
  destruct (AccountMonitor.isMonitoring am) eqn:R.
  - rewrite (start_running _ _ am R). cbn [fst AccountMonitor.world]. apply untraded_refl.
  - rewrite (start_idle _ _ am R).
    set (am1 := {| AccountMonitor.isMonitoring := true;
                   AccountMonitor.lastStatus := AccountMonitor.lastStatus am;
                   AccountMonitor.lastPollTime := AccountMonitor.lastPollTime am;
                   AccountMonitor.pollIntervalId := AccountMonitor.pollIntervalId am;
                   AccountMonitor.world := AccountMonitor.world am;
                   AccountMonitor.events := _ |}).
    pose proof (untraded_tick polymarket clob monitorOptions copyTradingConfig am1 HU) as T.
    unfold tick in T.
    destruct (AccountMonitor.updateStatus _ _ am1) as [am2 [[] | e]];
      cbn [fst AccountMonitor.world] in *; exact T.
Qed.

(** X14. With copy trading enabled, a poll tick of the wrapped account
    monitor reaches the copy-trading logic exactly when the account monitor
    detects a change. Without a change the snapshot is kept and nothing is
    traded. With a change the new snapshot is stored and
    [handleStatusUpdate] runs on it, after the caller's [onUpdate] if there
    is one; how the handler completes is not seen by the tick. If the
    caller's [onUpdate] throws, the copy-trading logic is skipped for that
    change, while the snapshot is stored all the same. *)
Theorem tick_hands_changes_to_copy_trading (am : AccountMonitor.State (State World)) :
  CopyTradingInput.enabled copyTradingConfig = true ->
  let target := MonitorInput.targetAddress monitorOptions in
  let fetch := AccountMonitor.getUserPositions polymarket target
                 (worldOf (AccountMonitor.world am)) in
  let fetched := withWorld (AccountMonitor.world am) (fst fetch) in
  let now := AccountMonitor.toISOString polymarket (fst fetch) in
  let out := tick polymarket clob monitorOptions copyTradingConfig am in
  exists status,
    status = match snd fetch with
             | Normal up => Snapshots.statusOf target up now
             | Throw _ => Snapshots.emptyStatus target now
             end
    /\ (AccountMonitor.detectChanges (AccountMonitor.lastStatus am) status = false ->
        snd out = Normal tt
        /\ AccountMonitor.lastStatus (fst out) = AccountMonitor.lastStatus am
        /\ untraded (AccountMonitor.world am) (AccountMonitor.world (fst out)))
    /\ (AccountMonitor.detectChanges (AccountMonitor.lastStatus am) status = true ->
        AccountMonitor.lastStatus (fst out) = Some status
        /\ match MonitorInput.onUpdate monitorOptions with
           | None =>
               snd out = Normal tt
               /\ AccountMonitor.world (fst out)
                  = fst (handle polymarket clob copyTradingConfig status fetched)
           | Some original =>
               match original status (fst fetch) with
               | (w, Normal _) =>
                   snd out = Normal tt
                   /\ AccountMonitor.world (fst out)
                      = fst (handle polymarket clob copyTradingConfig status
                               (withWorld fetched w))
               | (w, Throw e) =>
                   untraded (AccountMonitor.world am) (AccountMonitor.world (fst out))
               end
           end).
Proof.
  intros H. cbv zeta. unfold tick.
  destruct (tick_world (environment polymarket)
              (accountMonitorOptions polymarket clob monitorOptions copyTradingConfig) am)
    as (status & _ & _ & S & W & L & _ & N).
  cbv zeta in S, W, N.
  change (AccountMonitor.getUserPositions (environment polymarket))
    with (fun user => onWorld (AccountMonitor.getUserPositions polymarket user)) in *.
  change (AccountMonitor.targetAddress
            (accountMonitorOptions polymarket clob monitorOptions copyTradingConfig))
    with (MonitorInput.targetAddress monitorOptions) in *.
  change (AccountMonitor.onUpdate
            (accountMonitorOptions polymarket clob monitorOptions copyTradingConfig))
    with (CopyTradingMonitor.onUpdate polymarket clob monitorOptions copyTradingConfig) in *.
  change (AccountMonitor.onError
            (accountMonitorOptions polymarket clob monitorOptions copyTradingConfig))
    with (CopyTradingMonitor.onError monitorOptions) in *.
  cbv beta in S, W, N. rewrite onWorld_run in S, W, N. cbn [fst snd] in S, W, N.
  set (fetch := AccountMonitor.getUserPositions polymarket
                  (MonitorInput.targetAddress monitorOptions)
                  (worldOf (AccountMonitor.world am))) in *.
  set (fetched := withWorld (AccountMonitor.world am) (fst fetch)) in *.
  exists status. split.
  { destruct (snd fetch); exact S. }
  rewrite W, L, N. clear W L N S.
  destruct (AccountMonitor.detectChanges (AccountMonitor.lastStatus am) status).
  - split; [intros K; discriminate K |]. intros _. split; [reflexivity |].
    rewrite onUpdate_run, H.
    destruct (MonitorInput.onUpdate monitorOptions) as [original |]; [| auto].
    change (worldOf fetched) with (fst fetch).
    destruct (original status (fst fetch)) as [w [[] | e]]; [auto |].
    apply (untraded_trans _ fetched); [apply untraded_withWorld |].
    apply (untraded_trans _ (withWorld fetched w)); [apply untraded_withWorld |].
    apply untraded_onError.
  - split; [| intros K; discriminate K]. intros _.
    split; [reflexivity |]. split; [reflexivity |]. apply untraded_withWorld.
Qed.

(** X15. With copy trading enabled, [start] in dry-run mode is the account
    monitor's [start]: no API key is asked for. In live mode the key is
    derived first; if that succeeds the account monitor starts with the key
    in place, and if it fails [start] throws
    "Failed to initialize trade executor: <cause>", logs it, and the account
    monitor is not started. *)
Theorem start_needs_the_api_key_in_live_mode (am : AccountMonitor.State (State World)) :
  CopyTradingInput.enabled copyTradingConfig = true ->
  let s := AccountMonitor.world am in
  let monitorStart :=
    AccountMonitor.start (environment polymarket)
      (accountMonitorOptions polymarket clob monitorOptions copyTradingConfig) in
  let inWorld (s' : State World) :=
    {| AccountMonitor.isMonitoring := AccountMonitor.isMonitoring am;
       AccountMonitor.lastStatus := AccountMonitor.lastStatus am;
       AccountMonitor.lastPollTime := AccountMonitor.lastPollTime am;
       AccountMonitor.pollIntervalId := AccountMonitor.pollIntervalId am;
       AccountMonitor.world := s';
       AccountMonitor.events := AccountMonitor.events am |} in
  let derived (created : bool) (w : World) (lines : list Event) :=
    {| tradeExecutor :=
         {| TradeExecutor.apiKeyCreated := created;
            TradeExecutor.world := w;
            TradeExecutor.events :=
              TradeExecutor.events (tradeExecutor s)
              ++ [TradeExecutor.CallCreateOrDeriveApiKey] |};
       stats := stats s;
       executedPositions := executedPositions s;
       targetPositions := targetPositions s;
       console := console s ++ lines |} in
  (CopyTradingInput.dryRun copyTradingConfig = Some true ->
   start polymarket clob monitorOptions copyTradingConfig am = monitorStart am)
  /\ (CopyTradingInput.dryRun copyTradingConfig <> Some true ->
      match TradeExecutor.createOrDeriveApiKey clob (worldOf s) with
      | (w, Normal _) =>
          start polymarket clob monitorOptions copyTradingConfig am
          = monitorStart (inWorld (derived true w []))
      | (w, Throw cause) =>
          start polymarket clob monitorOptions copyTradingConfig am
          = (inWorld
               (derived (TradeExecutor.apiKeyCreated (tradeExecutor s)) w
                  [LogInitializationFailed
                     (message (Guards.initializationError cause))]),
             Throw (Guards.initializationError cause))
      end).
Proof.
  intros H. cbv zeta. unfold start. rewrite H. cbn [negb].
  unfold AccountMonitor.call, Eff.bind, Eff.tryCatch, onExecutor,
    TradeExecutor.initializeExecutor, TradeExecutor.requiredConfig.
  cbn [TradeExecutor.dryRun].
  destruct am as [running seen polled timer s log].
  destruct s as [executor st executed target lines].
  destruct executor as [created w events].
  cbn [AccountMonitor.world AccountMonitor.isMonitoring AccountMonitor.lastStatus
       AccountMonitor.lastPollTime AccountMonitor.events tradeExecutor stats
       executedPositions targetPositions console worldOf TradeExecutor.world
       TradeExecutor.apiKeyCreated TradeExecutor.events].
  split.
  - intros D. rewrite D. cbn [nullish]. unfold Eff.ret. reflexivity.
  - intros D.
    assert (L : nullish (CopyTradingInput.dryRun copyTradingConfig) false = false).
    { destruct (CopyTradingInput.dryRun copyTradingConfig) as [[] |];
        [exfalso; apply D; reflexivity | reflexivity | reflexivity]. }
    rewrite L. unfold Eff.tryCatch, Eff.bind, Eff.modify, Eff.throw, emit.
    cbn [TradeExecutor.world TradeExecutor.apiKeyCreated TradeExecutor.events
         tradeExecutor stats executedPositions targetPositions console].
    destruct (TradeExecutor.createOrDeriveApiKey clob w) as [w1 [[] | cause]];
      cbn [TradeExecutor.world TradeExecutor.apiKeyCreated TradeExecutor.events
           tradeExecutor stats executedPositions targetPositions console negb message];
      rewrite ?app_nil_r; reflexivity.
Qed.
End WiringTheorems.

(** ** The statistics *)

Section StatisticsFacts.
Import CopyTradingMonitor Attempts.
Context {World : Type}.
Variable client : TradeExecutor.ClobClient World.
Variable config : TradeExecutor.CopyTradingConfig World.
Variable toISOString : World -> string.



End StatisticsFacts.

Section StatisticsTheorems.
Import CopyTradingMonitor Attempts.
Context {World : Type}.
Variable client : TradeExecutor.ClobClient World.
Variable config : TradeExecutor.CopyTradingConfig World.
Variable toISOString : World -> string.

End StatisticsTheorems.

Section FetchFacts.
Import PolymarketClient Paging.
Context {World : Type}.
Variable get : Http.Request -> World -> World * (Http.Payload + Http.Failure).
Variable now : World -> World * string.
Variable dateToISOString : number -> option string.
Variable typeErrorMessage : Http.Payload -> string -> string.
Variable rangeErrorMessage : string.

(** [totalOfValues] is [calculateTotalValue] read off the values. *)
Lemma calculateTotalValue_values (positions : list Position.t) :
  calculateTotalValue positions = totalOfValues (map Position.value positions).
Proof. unfold calculateTotalValue, totalOfValues. rewrite fold_left_map. reflexivity. Qed.

Lemma httpGet_run (request : Http.Request) (s : @State World) :
  httpGet get request s
  = (sent s request (fst (get request (world s))), snd (get request (world s))).
Proof. unfold httpGet, sent. destruct (get request (world s)). reflexivity. Qed.

Lemma pageNumbers_S (n : nat) :
  pageNumbers (S n) = (pageNumbers n ++ [Z.of_nat n])%list.
Proof. unfold pageNumbers. rewrite seq_S, map_app. reflexivity. Qed.

(** One turn of the loop, by what the request brings. *)
Lemma pages_step (request : Z -> Http.Request) (remaining : nat) (page : Z)
    (allPositions : list (option Http.Item)) (s : @State World) :
  let s1 := sent s (request page) (fst (get (request page) (world s))) in
  pages get typeErrorMessage request (S remaining) page allPositions s
  = match snd (get (request page) (world s)) with
    | inr error => (s1, inr error)
    | inl data =>
        match Http.pagePositions data with
        | None =>
            (s1, inr {| Http.failureMessage := typeErrorMessage data "positions";
                        Http.status := None |})
        | Some (Http.Items elements) =>
            if Z.of_nat (List.length elements) <? pageLimit
            then (s1, inl (Http.Items (allPositions ++ elements)))
            else pages get typeErrorMessage request remaining (page + 1)
                   (allPositions ++ elements) s1
        | Some notAnArray => (s1, inl notAnArray)
        end
    end.
Proof.
  cbn [pages]. unfold Http.bind at 1. rewrite httpGet_run. cbn [fst snd].
  destruct (snd (get (request page) (world s))) as [data | error]; [| reflexivity].
  unfold Http.bind, pagePositionsOf.
  destruct (Http.pagePositions data) as [[v | elements | fields] |]; try reflexivity.
  unfold Http.ret. destruct (Z.of_nat (List.length elements) <? pageLimit); reflexivity.
Qed.

(** The requests a loop sends are those for consecutive pages, at least
    one and at most [remaining]. *)
Lemma pages_requests (request : Z -> Http.Request) (remaining : nat) :
  forall (page : nat) (allPositions : list (option Http.Item)) (s : @State World),
  exists n : nat,
    (n <= remaining)%nat /\ (remaining <> 0%nat -> n <> 0%nat)
    /\ requests (fst (pages get typeErrorMessage request remaining (Z.of_nat page)
                        allPositions s))
       = (requests s ++ map request (map Z.of_nat (seq page n)))%list.
Proof.
  induction remaining as [| remaining IH]; intros page allPositions s.
  - exists 0%nat. cbn. rewrite app_nil_r. repeat split; [lia | congruence].
  - rewrite pages_step. cbv zeta.
    assert (One : forall r : Http.Payload + Http.Failure,
               exists n : nat,
                 (n <= S remaining)%nat /\ (S remaining <> 0%nat -> n <> 0%nat)
                 /\ requests
                      (fst (sent s (request (Z.of_nat page))
                              (fst (get (request (Z.of_nat page)) (world s))), r))
                    = (requests s ++ map request (map Z.of_nat (seq page n)))%list).
    { intros r. exists 1%nat. cbn. repeat split; [lia | congruence]. }
    destruct (snd (get (request (Z.of_nat page)) (world s))) as [data | error];
      [| apply One].
    destruct (Http.pagePositions data) as [[v | elements | fields] |]; try apply One.
    destruct (Z.of_nat (List.length elements) <? pageLimit); [apply One |].
    replace (Z.of_nat page + 1) with (Z.of_nat (S page)) by lia.
    destruct (IH (S page) (allPositions ++ elements)%list
                (sent s (request (Z.of_nat page))
                   (fst (get (request (Z.of_nat page)) (world s)))))
      as (n & Hn & _ & Hr).
    exists (S n). split; [lia |]. split; [congruence |].
    rewrite Hr. cbn [sent requests seq map]. rewrite <- app_assoc. reflexivity.
Qed.

(** While the pages are full the loop goes on, to the tenth page at most. *)
Lemma pages_full (request : Z -> Http.Request) (k : nat) :
  (forall (page : nat) (w : World),
     (page < k)%nat ->
     exists data elements,
       snd (get (request (Z.of_nat page)) w) = inl data
       /\ Http.pagePositions data = Some (Http.Items elements)
       /\ pageLimit <= Z.of_nat (List.length elements)) ->
  forall (remaining page : nat) (allPositions : list (option Http.Item)) (s : @State World),
    (page + remaining <= k)%nat ->
    exists s' fetched,
      pages get typeErrorMessage request remaining (Z.of_nat page) allPositions s
      = (s', inl (Http.Items (allPositions ++ fetched)))
      /\ requests s' = (requests s ++ map request (map Z.of_nat (seq page remaining)))%list
      /\ (100 * remaining <= List.length fetched)%nat.
Proof.
  intros Full. induction remaining as [| remaining IH]; intros page allPositions s Hk.
  - exists s, []. cbn. rewrite !app_nil_r. repeat split. lia.
  - rewrite pages_step. cbv zeta.
    destruct (Full page (world s) ltac:(lia)) as (data & elements & Hd & Hp & Hl).
    rewrite Hd, Hp.
    replace (Z.of_nat (List.length elements) <? pageLimit) with false
      by (symmetry; apply Z.ltb_ge; exact Hl).
    replace (Z.of_nat page + 1) with (Z.of_nat (S page)) by lia.
    destruct (IH (S page) (allPositions ++ elements)%list
                (sent s (request (Z.of_nat page))
                   (fst (get (request (Z.of_nat page)) (world s)))) ltac:(lia))
      as (s' & fetched & Hrun & Hreq & Hlen).
    exists s', (elements ++ fetched)%list. rewrite Hrun, app_assoc.
    split; [reflexivity |]. split.
    + rewrite Hreq. cbn [sent requests seq map]. rewrite <- app_assoc. reflexivity.
    + rewrite List.length_app. unfold pageLimit in Hl. lia.
Qed.


Lemma readClock_requests (s : @State World) :
  requests (fst (readClock now s)) = requests s.
Proof. unfold readClock. destruct (now (world s)). reflexivity. Qed.

Lemma noPositions_requests (userAddress : string) (s : @State World) :
  requests (fst (noPositions now userAddress s)) = requests s.
Proof.
  unfold noPositions. pose proof (readClock_requests s) as H.
  destruct (readClock now s). exact H.
Qed.

Lemma timestampOf_requests (item : Http.Item) (s : @State World) :
  requests (fst (timestampOf now dateToISOString rangeErrorMessage item s)) = requests s.
Proof.
  unfold timestampOf.
  destruct (JS.truthy (Http.field item "timestamp")).
  - destruct (Http.field item "timestamp"); try reflexivity.
    destruct (dateToISOString _); reflexivity.
  - unfold Http.bind, newDateToISOString, Http.lift.
    pose proof (readClock_requests s) as H.
    destruct (readClock now s). exact H.
Qed.

Lemma normalizePosition_requests (item : Http.Item) (s : @State World) :
  requests (fst (normalizePosition now dateToISOString rangeErrorMessage item s))
  = requests s.
Proof.
  unfold normalizePosition, Http.bind.
  pose proof (timestampOf_requests item s) as H.
  destruct (timestampOf now dateToISOString rangeErrorMessage item s) as [s' [t | e]];
    exact H.
Qed.

Lemma mapM_requests (items : list Http.Item) :
  forall s : @State World,
  requests (fst (Http.mapM (normalizePosition now dateToISOString rangeErrorMessage)
                   items s))
  = requests s.
Proof.
  induction items as [| item items IH]; intros s; [reflexivity |].
  cbn [Http.mapM]. unfold Http.bind at 1.
  pose proof (normalizePosition_requests item s) as H.
  destruct (normalizePosition now dateToISOString rangeErrorMessage item s)
    as [s' [p | e]]; [| exact H].
  unfold Http.bind. specialize (IH s').
  destruct (Http.mapM _ items s') as [s'' [ps | e]]; unfold Http.ret;
    cbn [fst] in *; congruence.
Qed.

Lemma answer_requests (userAddress : string) (positions : Http.Payload)
    (s : @State World) :
  requests (fst (answer now dateToISOString rangeErrorMessage userAddress positions s))
  = requests s.
Proof.
  unfold answer, normalizePositions. unfold Http.bind at 1.
  pose proof (mapM_requests (notNull (Http.arrayOr positions)) s) as H.
  destruct (Http.mapM _ (notNull (Http.arrayOr positions)) s) as [s' [ps | e]];
    [| exact H].
  unfold Http.bind, newDateToISOString, Http.lift.
  pose proof (readClock_requests s') as H'.
  destruct (readClock now s'). unfold Http.ret. cbn [fst] in *. congruence.
Qed.

Lemma timestampOf_outcome (item : Http.Item) (s : @State World) :
  match timestampOf now dateToISOString rangeErrorMessage item s with
  | (s', inl timestamp) => True
  | (s', inr error) =>
      error = {| Http.failureMessage := rangeErrorMessage; Http.status := None |}
      /\ exists seconds,
           Http.field item "timestamp" = JS.VNumber seconds
           /\ dateToISOString (PrimFloat.mul seconds 1000%float) = None
  end.
Proof.
  unfold timestampOf.
  destruct (JS.truthy (Http.field item "timestamp")).
  - destruct (Http.field item "timestamp") as [| | b | seconds | text]; cbn; trivial.
    destruct (dateToISOString (PrimFloat.mul seconds 1000%float)) eqn:E; cbn; trivial.
    split; [reflexivity |]. exists seconds. split; [reflexivity | exact E].
  - unfold Http.bind, newDateToISOString, Http.lift.
    destruct (readClock now s). cbn. trivial.
Qed.

(** [normalizePositions] on the elements that are not [null]. *)
Lemma mapM_normalizePosition (items : list Http.Item) :
  forall s : @State World,
  match Http.mapM (normalizePosition now dateToISOString rangeErrorMessage) items s with
  | (s', inl positions) =>
      Forall2 (fun item position => exists timestamp, position = normalized item timestamp)
        items positions
  | (s', inr error) =>
      error = {| Http.failureMessage := rangeErrorMessage; Http.status := None |}
      /\ exists item seconds,
           In item items
           /\ Http.field item "timestamp" = JS.VNumber seconds
           /\ dateToISOString (PrimFloat.mul seconds 1000%float) = None
  end.
Proof.
  induction items as [| item items IH]; intros s; [constructor |].
  cbn [Http.mapM]. unfold Http.bind at 1. unfold normalizePosition at 1.
  unfold Http.bind at 1.
  pose proof (timestampOf_outcome item s) as Ht.
  destruct (timestampOf now dateToISOString rangeErrorMessage item s)
    as [s1 [timestamp | error]].
  - unfold Http.ret at 1. unfold Http.bind. specialize (IH s1).
    destruct (Http.mapM _ items s1) as [s2 [positions | error]]; unfold Http.ret.
    + constructor; [eexists; reflexivity | exact IH].
    + destruct IH as (He & item' & seconds & Hin & Hf & Hd).
      split; [exact He |]. exists item', seconds. split; [right; exact Hin | tauto].
  - destruct Ht as (He & seconds & Hf & Hd).
    split; [exact He |]. exists item, seconds. split; [left; reflexivity | tauto].
Qed.

(** What follows the inner [try], by how the normalisation ends; the
    outer handler's check for a 404 never holds there. *)
Lemma answered (userAddress : string) (positions : Http.Payload) (s : @State World) :
  orReject now (answer now dateToISOString rangeErrorMessage userAddress positions)
    userAddress s
  = match normalizePositions now dateToISOString rangeErrorMessage
            (Http.arrayOr positions) s with
    | (s1, inl normalizedPositions) =>
        (fst (readClock now s1),
         Normal {| FetchedPositions.user := userAddress;
                   FetchedPositions.positions := normalizedPositions;
                   FetchedPositions.totalValue :=
                     totalOfValues (map NormalizedPosition.value normalizedPositions);
                   FetchedPositions.timestamp := snd (readClock now s1) |})
    | (s1, inr _) => (s1, Throw (failedToFetch rangeErrorMessage))
    end.
Proof.
  unfold orReject, answer, normalizePositions. unfold Http.bind at 1.
  pose proof (mapM_normalizePosition (notNull (Http.arrayOr positions)) s) as H.
  destruct (Http.mapM _ (notNull (Http.arrayOr positions)) s) as [s1 [ps | error]].
  - unfold Http.bind, newDateToISOString, Http.lift, Http.ret.
    destruct (readClock now s1). reflexivity.
  - destruct H as (-> & _). reflexivity.
Qed.

Lemma orReject_requests (c : Http.M (@State World) FetchedPositions.t)
    (userAddress : string) (s : @State World) :
  requests (fst (orReject now c userAddress s)) = requests (fst (c s)).
Proof.
  unfold orReject. destruct (c s) as [s' [r | e]]; [reflexivity |].
  destruct (Http.notFound e); [| reflexivity].
  pose proof (noPositions_requests userAddress s') as H.
  destruct (noPositions now userAddress s'). exact H.
Qed.

(** The inner [try] and what follows it, by how the first loop ends. *)
Lemma getUserPositions_run (userAddress : string) (s : @State World) :
  getUserPositions get now dateToISOString typeErrorMessage rangeErrorMessage userAddress s
  = orReject now
      (fun s =>
         match pages get typeErrorMessage (primaryRequest userAddress) 10 0 [] s with
         | (s1, inl positions) =>
             answer now dateToISOString rangeErrorMessage userAddress positions s1
         | (s1, inr primaryError) =>
             match pages get typeErrorMessage (alternativeRequest userAddress) 10 0 [] s1 with
             | (s2, inl positions) =>
                 answer now dateToISOString rangeErrorMessage userAddress positions s2
             | (s2, inr altError) =>
                 if Http.notFound primaryError || Http.notFound altError
                 then (fst (noPositions now userAddress s2),
                       inl (snd (noPositions now userAddress s2)))
                 else (s2, inr primaryError)
             end
         end)
      userAddress s.
Proof.
  unfold getUserPositions, orReject.
  unfold fetchPositions, alternative, Http.tryCatch, Http.bind, Http.ret, Http.throw,
    Http.lift.
  destruct (pages get typeErrorMessage (primaryRequest userAddress) 10 0 [] s)
    as [s1 [positions | primaryError]]; [reflexivity |].
  destruct (pages get typeErrorMessage (alternativeRequest userAddress) 10 0 [] s1)
    as [s2 [positions | altError]]; [reflexivity |].
  destruct (Http.notFound primaryError || Http.notFound altError); [| reflexivity].
  destruct (noPositions now userAddress s2). reflexivity.
Qed.
End FetchFacts.

Section FetchTheorems.
Import PolymarketClient Paging.
Context {World : Type}.
Variable get : Http.Request -> World -> World * (Http.Payload + Http.Failure).
Variable now : World -> World * string.
Variable dateToISOString : number -> option string.
Variable typeErrorMessage : Http.Payload -> string -> string.
Variable rangeErrorMessage : string.

(** X17. [getUserPositions] sends a bounded run of requests: the pages 0,
    1, ... of the primary endpoint in order, at least one and at most ten,
    then possibly the pages 0, 1, ... of the alternative endpoint, at most
    ten, and nothing else.  The alternative endpoint is asked only if the
    loop over the primary one threw. *)
Theorem paging_is_bounded (userAddress : string) (s : @State World) :
  exists n m : nat,
    (1 <= n <= 10)%nat /\ (m <= 10)%nat
    /\ requests
         (fst (getUserPositions get now dateToISOString typeErrorMessage rangeErrorMessage
                 userAddress s))
       = (requests s ++ map (primaryRequest userAddress) (pageNumbers n)
            ++ map (alternativeRequest userAddress) (pageNumbers m))%list
    /\ (m <> 0%nat ->
        exists primaryError,
          snd (pages get typeErrorMessage (primaryRequest userAddress) 10 0 [] s)
          = inr primaryError).
Proof.
  rewrite getUserPositions_run, orReject_requests.
  destruct (pages_requests get typeErrorMessage (primaryRequest userAddress) 10 0 [] s)
    as (n & Hn & Hn' & Hr).
  change (Z.of_nat 0) with 0 in Hr.
  destruct (pages get typeErrorMessage (primaryRequest userAddress) 10 0 [] s)
    as [s1 [positions | primaryError]].
  - exists n, 0%nat. cbn [fst snd] in *.
    rewrite answer_requests, Hr. cbn [pageNumbers seq map]. rewrite app_nil_r.
    repeat split; lia.
  - destruct (pages_requests get typeErrorMessage (alternativeRequest userAddress) 10 0 []
                s1) as (m & Hm & _ & Hr').
    change (Z.of_nat 0) with 0 in Hr'. cbn [fst snd] in *.
    exists n, m. split; [lia |]. split; [lia |]. split; [| intros _; eauto].
    destruct (pages get typeErrorMessage (alternativeRequest userAddress) 10 0 [] s1)
      as [s2 [positions | altError]]; cbn [fst] in *.
    + rewrite answer_requests, Hr', Hr, <- app_assoc. reflexivity.
    + destruct (Http.notFound primaryError || Http.notFound altError); cbn [fst].
      * rewrite noPositions_requests, Hr', Hr, <- app_assoc. reflexivity.
      * rewrite Hr', Hr, <- app_assoc. reflexivity.
Qed.

(** X18. If the primary endpoint answers every page with an array of 100
    elements or more, [getUserPositions] stops after the tenth page: it
    sends exactly the ten requests for the pages 0 to 9, keeps the elements
    of those pages (1000 or more) and goes on to normalise them as if they
    were all there is; the alternative endpoint is not asked. *)
Theorem full_pages_stop_at_ten (userAddress : string) (s : @State World) :
  (forall (page : nat) (w : World),
     (page < 10)%nat ->
     exists data elements,
       snd (get (primaryRequest userAddress (Z.of_nat page)) w) = inl data
       /\ Http.pagePositions data = Some (Http.Items elements)
       /\ pageLimit <= Z.of_nat (List.length elements)) ->
  exists s10 allPositions,
    pages get typeErrorMessage (primaryRequest userAddress) 10 0 [] s
    = (s10, inl (Http.Items allPositions))
    /\ requests s10
       = (requests s ++ map (primaryRequest userAddress) (pageNumbers 10))%list
    /\ (1000 <= List.length allPositions)%nat
    /\ requests
         (fst (getUserPositions get now dateToISOString typeErrorMessage rangeErrorMessage
                 userAddress s))
       = requests s10.
Proof.
  intros Full.
  destruct (pages_full get typeErrorMessage (primaryRequest userAddress) 10 Full
              10 0 [] s ltac:(lia)) as (s10 & fetched & Hrun & Hreq & Hlen).
  change (Z.of_nat 0) with 0 in Hrun. cbn [app] in Hrun.
  exists s10, fetched. split; [exact Hrun |]. split; [exact Hreq |]. split; [lia |].
  rewrite getUserPositions_run, orReject_requests, Hrun. apply answer_requests.
Qed.

(** X19. Once a loop has ended with [positions], from the primary endpoint
    or, the primary loop having thrown, from the alternative one,
    [getUserPositions] resolves to the normalised elements of [positions]
    (none if it is no array) with their total and a fresh timestamp.  It
    throws only if the normalisation throws, and then with the message
    "Failed to fetch user positions: " followed by the RangeError's; the
    outer handler's check for a 404 never holds there. *)
Theorem fetched_positions_are_normalised (userAddress : string) (s s1 : @State World)
    (positions : Http.Payload) :
  pages get typeErrorMessage (primaryRequest userAddress) 10 0 [] s = (s1, inl positions)
  \/ (exists s0 primaryError,
        pages get typeErrorMessage (primaryRequest userAddress) 10 0 [] s
        = (s0, inr primaryError)
        /\ pages get typeErrorMessage (alternativeRequest userAddress) 10 0 [] s0
           = (s1, inl positions)) ->
  getUserPositions get now dateToISOString typeErrorMessage rangeErrorMessage userAddress s
  = match normalizePositions now dateToISOString rangeErrorMessage
            (Http.arrayOr positions) s1 with
    | (s2, inl normalizedPositions) =>
        (fst (readClock now s2),
         Normal {| FetchedPositions.user := userAddress;
                   FetchedPositions.positions := normalizedPositions;
                   FetchedPositions.totalValue :=
                     totalOfValues (map NormalizedPosition.value normalizedPositions);
                   FetchedPositions.timestamp := snd (readClock now s2) |})
    | (s2, inr _) => (s2, Throw (failedToFetch rangeErrorMessage))
    end.
Proof.
  intros H. rewrite getUserPositions_run.
  rewrite <- (answered now dateToISOString rangeErrorMessage userAddress positions s1).
  unfold orReject.
  destruct H as [H | (s0 & primaryError & H0 & H)].
  - rewrite H. reflexivity.
  - rewrite H0, H. reflexivity.
Qed.


(** X21. If the loop over the primary endpoint throws and the loop over the
    alternative one throws too, [getUserPositions] resolves to no positions
    with the total "0" when either error carries the status 404; otherwise
    it throws "Failed to fetch user positions: " followed by the message of
    the primary error, and the alternative error is lost. *)
Theorem both_endpoints_failing (userAddress : string) (s s1 s2 : @State World)
    (primaryError altError : Http.Failure) :
  pages get typeErrorMessage (primaryRequest userAddress) 10 0 [] s
  = (s1, inr primaryError) ->
  pages get typeErrorMessage (alternativeRequest userAddress) 10 0 [] s1
  = (s2, inr altError) ->
  getUserPositions get now dateToISOString typeErrorMessage rangeErrorMessage userAddress s
  = if Http.notFound primaryError || Http.notFound altError
    then (fst (readClock now s2),
          Normal {| FetchedPositions.user := userAddress;
                    FetchedPositions.positions := [];
                    FetchedPositions.totalValue := "0";
                    FetchedPositions.timestamp := snd (readClock now s2) |})
    else (s2, Throw (failedToFetch (Http.failureMessage primaryError))).
Proof.
  intros H1 H2. rewrite getUserPositions_run. unfold orReject. rewrite H1, H2.
  destruct (Http.notFound primaryError) eqn:E1; cbn [orb].
  - unfold noPositions. destruct (readClock now s2). reflexivity.
  - destruct (Http.notFound altError) eqn:E2.
    + unfold noPositions. destruct (readClock now s2). reflexivity.
    + rewrite E1. reflexivity.
Qed.

(** X22. [normalizePositions] sends no request and, when it returns, gives
    one position for each element that is not [null], in the order of the
    payload, built from that element, its value being the one
    [normalizedValue] computes.  It throws only a RangeError, and only if
    some element has a number for [timestamp] that is no valid time in
    seconds. *)
Theorem normalised_positions_keep_count_and_order (data : list (option Http.Item))
    (s : @State World) :
  match normalizePositions now dateToISOString rangeErrorMessage data s with
  | (s', inl positions) =>
      Forall2 (fun item position => exists timestamp, position = normalized item timestamp)
        (notNull data) positions
      /\ List.length positions = List.length (notNull data)
      /\ map NormalizedPosition.value positions
         = map (fun item => normalizedValue (rawOf item)) (notNull data)
      /\ requests s' = requests s
  | (s', inr error) =>
      error = {| Http.failureMessage := rangeErrorMessage; Http.status := None |}
      /\ requests s' = requests s
      /\ exists item seconds,
           In (Some item) data
           /\ Http.field item "timestamp" = JS.VNumber seconds
           /\ dateToISOString (PrimFloat.mul seconds 1000%float) = None
  end.
Proof.
  unfold normalizePositions.
  pose proof (mapM_normalizePosition now dateToISOString rangeErrorMessage (notNull data) s)
    as H.
  pose proof (mapM_requests now dateToISOString rangeErrorMessage (notNull data) s) as R.
  destruct (Http.mapM _ (notNull data) s) as [s' [positions | error]]; cbn [fst] in R.
  - split; [exact H |]. split; [symmetry; exact (Forall2_length H) |].
    split; [| exact R].
    induction H as [| item position items positions (timestamp & ->) _ IH];
      [reflexivity |]. cbn [map]. rewrite IH. reflexivity.
  - destruct H as (He & item & seconds & Hin & Hf & Hd).
    split; [exact He |]. split; [exact R |]. exists item, seconds.
    split; [| tauto]. unfold notNull in Hin. apply in_flat_map in Hin.
    destruct Hin as ([item' |] & Hin & Hi); [| destruct Hi].
    destruct Hi as [-> | []]. exact Hin.
Qed.
End FetchTheorems.

Section MarketTheorems.
Import PolymarketClient.

(** [a || ''] is the empty string unless it is truthy. *)
Lemma orElse_empty (a : JS.value) :
  JS.orElse (JS.orElse a (JS.VString "")) (JS.VString "") = JS.orElse a (JS.VString "").
Proof. unfold JS.orElse. destruct (JS.truthy a) eqn:E; [rewrite E |]; reflexivity. Qed.

(** X23. The market of a normalised position, read off the element: its id
    is the first truthy of [conditionId], [market_id], [marketId] (else the
    empty string) and never the element's own [id]; its question is the
    [title] or the [question], else "Unknown Market", and so never falsy;
    slug and icon default to the empty string while a missing [endDate] is
    [undefined]; description, image, resolution source, liquidity and
    volume are never set, tags are empty and the market counts as active. *)
Theorem market_of_a_normalised_position (item : Http.Item) (timestamp : JS.value) :
  let market := NormalizedPosition.market (normalized item timestamp) in
  let get := Http.field item in
  NormalizedMarket.id market
  = JS.orElse (get "conditionId")
      (JS.orElse (get "market_id") (JS.orElse (get "marketId") (JS.VString "")))
  /\ NormalizedMarket.question market
     = JS.orElse (get "title") (JS.orElse (get "question") (JS.VString "Unknown Market"))
  /\ JS.truthy (NormalizedMarket.question market) = true
  /\ NormalizedMarket.slug market = JS.orElse (get "slug") (JS.VString "")
  /\ NormalizedMarket.icon market = JS.orElse (get "icon") (JS.VString "")
  /\ NormalizedMarket.endDate market
     = (if JS.truthy (get "endDate") then get "endDate" else JS.VUndefined)
  /\ NormalizedMarket.description market = JS.VUndefined
  /\ NormalizedMarket.image market = JS.VUndefined
  /\ NormalizedMarket.resolutionSource market = JS.VUndefined
  /\ NormalizedMarket.tags market = []
  /\ NormalizedMarket.liquidity market = None
  /\ NormalizedMarket.volume market = None
  /\ NormalizedMarket.active market = true.
Proof.
  intros market get. subst market.
  unfold normalized, normalizeMarket.
  cbn [NormalizedPosition.market NormalizedMarket.id NormalizedMarket.question
       NormalizedMarket.slug NormalizedMarket.icon NormalizedMarket.endDate
       NormalizedMarket.description NormalizedMarket.image
       NormalizedMarket.resolutionSource NormalizedMarket.tags
       NormalizedMarket.liquidity NormalizedMarket.volume NormalizedMarket.active].
  change (Http.field (marketDataOf item) "id")
    with (JS.orElse (get "conditionId")
            (JS.orElse (get "market_id") (JS.orElse (get "marketId") (JS.VString "")))).
  change (Http.field (marketDataOf item) "question")
    with (JS.orElse (get "title") (JS.orElse (get "question") (JS.VString ""))).
  change (Http.field (marketDataOf item) "slug") with (JS.orElse (get "slug") (JS.VString "")).
  change (Http.field (marketDataOf item) "icon") with (JS.orElse (get "icon") (JS.VString "")).
  change (Http.field (marketDataOf item) "endDate")
    with (JS.orElse (get "endDate") (JS.VString "")).
  change (Http.field (marketDataOf item) "marketId") with JS.VUndefined.
  change (Http.field (marketDataOf item) "market_id") with JS.VUndefined.
  change (Http.field (marketDataOf item) "conditionId") with JS.VUndefined.
  change (Http.field (marketDataOf item) "title") with JS.VUndefined.
  change (Http.field (marketDataOf item) "name") with JS.VUndefined.
  change (Http.field (marketDataOf item) "slug_id") with JS.VUndefined.
  change (Http.field (marketDataOf item) "description") with JS.VUndefined.
  change (Http.field (marketDataOf item) "desc") with JS.VUndefined.
  change (Http.field (marketDataOf item) "endDateISO") with JS.VUndefined.
  change (Http.field (marketDataOf item) "end_date") with JS.VUndefined.
  change (Http.field (marketDataOf item) "image") with JS.VUndefined.
  change (Http.field (marketDataOf item) "imageUrl") with JS.VUndefined.
  change (Http.field (marketDataOf item) "image_url") with JS.VUndefined.
  change (Http.field (marketDataOf item) "resolutionSource") with JS.VUndefined.
  change (Http.field (marketDataOf item) "resolution_source") with JS.VUndefined.
  change (Http.field (marketDataOf item) "liquidity") with JS.VUndefined.
  change (Http.field (marketDataOf item) "volume") with JS.VUndefined.
  change (Http.field (marketDataOf item) "active") with JS.VUndefined.
  generalize (get "conditionId") (get "market_id") (get "marketId") (get "title")
    (get "question") (get "slug") (get "icon") (get "endDate").
  intros c mi m t q sl ic e.
  assert (U : forall b, JS.orElse JS.VUndefined b = b) by reflexivity.
  rewrite !U.
  repeat split.
  - unfold JS.orElse.
    destruct (JS.truthy c) eqn:Ec; [rewrite Ec; reflexivity |].
    destruct (JS.truthy mi) eqn:Em; [rewrite Em; reflexivity |].
    destruct (JS.truthy m) eqn:Emm; [rewrite Emm |]; reflexivity.
  - unfold JS.orElse.
    destruct (JS.truthy t) eqn:Et; [rewrite Et; reflexivity |].
    destruct (JS.truthy q) eqn:Eq; [rewrite Eq |]; reflexivity.
  - unfold JS.orElse.
    destruct (JS.truthy t) eqn:Et; [rewrite Et; exact Et |].
    destruct (JS.truthy q) eqn:Eq; [rewrite Eq; exact Eq |]. reflexivity.
  - apply orElse_empty.
  - unfold JS.orElse. destruct (JS.truthy e) eqn:Ee; [rewrite Ee |]; reflexivity.
Qed.
End MarketTheorems.

Section Runs.
Import Examples Snapshots Detector Guards Normalisation.
Import TradeExecutor AccountMonitor.



(** C2, as stated, fails: T1 tripled and T4 appeared while T2 went.  The
    addition of T4 would be found by a pass over the additions, yet the
    detector leaves at the quantity of T1, which comes first in the
    snapshot, and that is the debug line the tick writes. *)
Lemma quantity_delta_found_before_addition :
  let last := statusWith [T1; T2] "50.250000" in
  let status :=
    statusOf "0xTarget"
      (PolymarketClient.userPositionsOf "0xTarget" [tripled; T4] "2024-01-01T00:00:30.000Z")
      "2024-01-01T00:00:30.000Z" in
  let why := QuantityChanged "T1" (JS.parseFloat "100") (JS.parseFloat "300") in
  anyAdded last status = true
  /\ detection (Some last) status = Changed why
  /\ rank (detection (Some last) status) = 3%nat
  /\ filter isDebugLine
       (AccountMonitor.events
          (fst (updateStatus (serving [tripled; T4]) Examples.options
                  (monitoring (Some last)))))
     = [DebugLine why].
Proof. vm_compute. repeat split; reflexivity. Qed.

Lemma detector_checks_in_order_and_full_lists_witness :
  let last := statusWith [T1; T2] "50.250000" in
  let status :=
    statusOf "0xTarget"
      (PolymarketClient.userPositionsOf "0xTarget" [tripled; T4] "2024-01-01T00:00:30.000Z")
      "2024-01-01T00:00:30.000Z" in
  let report := changeReport last status in
  detectChanges (Some last) status = true
  /\ added report = [T4]
  /\ updated report = [ {| position := tripled; oldQty := "100"; newQty := "300" |} ]
  /\ removed report = [T2]
  /\ In (LogChanges report)
        (AccountMonitor.events
           (fst (updateStatus (serving [tripled; T4]) Examples.options
                   (monitoring (Some last))))).
Proof.
  intros last status report.
  pose proof (detector_checks_in_order_and_full_lists (serving [tripled; T4])
                Examples.options (monitoring (Some last)) last tt
                (PolymarketClient.userPositionsOf "0xTarget" [tripled; T4]
                   "2024-01-01T00:00:30.000Z") eq_refl eq_refl) as H.
  cbv zeta in H. destruct H as (HV & _ & HT & HA & HU & HR).
  split; [refine (eq_trans HV _); vm_compute; reflexivity |].
  split; [refine (eq_trans HA _); vm_compute; reflexivity |].
  split; [refine (eq_trans HU _); vm_compute; reflexivity |].
  split; [refine (eq_trans HR _); vm_compute; reflexivity |].
  destruct (HT (QuantityChanged "T1" (JS.parseFloat "100") (JS.parseFloat "300")))
    as (polling & errs & E & _); [vm_compute; reflexivity |].
  assert (E' : AccountMonitor.events
                 (fst (updateStatus (serving [tripled; T4]) Examples.options
                         (monitoring (Some last))))
               = (AccountMonitor.events (monitoring (Some last))
                  ++ DebugLine (QuantityChanged "T1" (JS.parseFloat "100")
                                  (JS.parseFloat "300"))
                  :: polling ++ LogChanges report :: CallOnUpdate status :: errs)%list)
    by exact E.
  rewrite E'. apply in_or_app. right. right. apply in_or_app. right. left. reflexivity.
Defined.



(** C4, as stated, fails: for [{size: 0, curPrice: 0.5, initialValue: 10}]
    the current price is > 0, so the specification's wording gives
    quantity times current price, 0; the code requires the quantity to be
    > 0 as well and falls through to the initial value, 10.  And for
    [{size: 2, lastPrice: 3}], where (a) to (d) do not apply, the code does
    not give 0 but the fallback product, 6. *)
Lemma zero_quantity_skips_current_price :
  PolymarketClient.normalizedValue emptiedPosition = "10"
  /\ claimedValue emptiedPosition = "0"
  /\ PolymarketClient.normalizedValue lastPriceOnly = "6.000000"
  /\ claimedValue lastPriceOnly = "0".
Proof. vm_compute. repeat split. Qed.

Lemma normalized_value_priority_witness :
  PolymarketClient.normalizedValue
    (rawWith (JS.VNumber (num "100")) (JS.VNumber (num "0.5")) JS.VUndefined
             (JS.VNumber (num "0")) JS.VUndefined)
  = "50".
Proof.
  pose proof (normalized_value_priority
                (rawWith (JS.VNumber (num "100")) (JS.VNumber (num "0.5")) JS.VUndefined
                         (JS.VNumber (num "0")) JS.VUndefined)) as H.
  cbv zeta in H. destruct H as (_ & H & _).
  rewrite H; vm_compute; reflexivity.
Defined.

(** C5, as stated, fails: from 7.3 to 8.3 shares the quantity moves by
    exactly the threshold 1, which is not more than it, and the detector
    reports a quantity change, the computed difference being
    1.0000000000000009. *)
Lemma unit_step_is_material :
  let last := statusWith [small] "3.650000" in
  let status := statusWith [grown] "4.150000" in
  Decimals.valueOf (Position.quantity small) = Some (QArith_base.Qmake 73 10)
  /\ Decimals.valueOf (Position.quantity grown) = Some (QArith_base.Qmake 83 10)
  /\ Decimals.movedBeyond (QArith_base.Qmake 73 10) (QArith_base.Qmake 83 10) = false
  /\ isMaterial last ("T6", grown) = true
  /\ detectChanges (Some last) status = true
  /\ detection (Some last) status
     = Changed (QuantityChanged "T6" (JS.parseFloat "7.3") (JS.parseFloat "8.3"))
  /\ JS.numberToString (JS.abs (PrimFloat.sub (JS.parseFloat "8.3") (JS.parseFloat "7.3")))
     = "1.0000000000000009"
  /\ JS.numberToString (JS.max PrimFloat.one (PrimFloat.mul (JS.parseFloat "7.3") onePercent))
     = "1".
Proof. vm_compute. repeat split. Qed.

Lemma material_quantity_threshold_witness :
  let last := statusWith [positionOf "T1" "100" "0.5" "50"] "50.000000" in
  let atThreshold := statusWith [positionOf "T1" "101" "0.5" "50"] "50.000000" in
  let above := statusWith [positionOf "T1" "102" "0.5" "50"] "50.000000" in
  isMaterial last ("T1", positionOf "T1" "101" "0.5" "50") = false
  /\ detectChanges (Some last) atThreshold = false
  /\ isMaterial last ("T1", positionOf "T1" "102" "0.5" "50") = true
  /\ detectChanges (Some last) above = true.
Proof.
  intros last atThreshold above.
  pose proof (material_quantity_threshold last atThreshold "T1"
                (positionOf "T1" "101" "0.5" "50") (positionOf "T1" "100" "0.5" "50")
                (or_introl eq_refl) eq_refl) as H1.
  pose proof (material_quantity_threshold last above "T1"
                (positionOf "T1" "102" "0.5" "50") (positionOf "T1" "100" "0.5" "50")
                (or_introl eq_refl) eq_refl) as H2.
  cbv zeta in H1, H2.
  destruct H1 as (_ & _ & H1 & _). destruct H2 as (H2 & H2' & _).
  split; [apply H1; vm_compute; reflexivity |].
  split; [vm_compute; reflexivity |].
  split; [rewrite H2; vm_compute; reflexivity |].
  apply H2'. vm_compute. reflexivity.
Defined.

(** C6, as stated, fails: between the totals 70.000000 and 70.700000 the
    drift is exactly 1% of the previous total, and with nothing else
    changed the detector reports a change, the computed ratio being
    0.01000000000000004. *)
Lemma one_percent_drift_is_reported :
  let last := statusWith [T1] "70.000000" in
  let status := statusWith [T1] "70.700000" in
  Decimals.valueOf (TradingStatus.totalValue last) = Some (QArith_base.Qmake 70000000 1000000)
  /\ Decimals.valueOf (TradingStatus.totalValue status)
     = Some (QArith_base.Qmake 70700000 1000000)
  /\ Decimals.driftedBeyond (QArith_base.Qmake 70000000 1000000)
                            (QArith_base.Qmake 70700000 1000000) = false
  /\ countMismatch last status = false
  /\ anyAdded last status = false
  /\ anyMaterial last status = false
  /\ anyRemoved last status = false
  /\ detectChanges (Some last) status = true
  /\ JS.numberToString
       (PrimFloat.div
          (JS.abs (PrimFloat.sub (JS.parseFloat "70.700000") (JS.parseFloat "70.000000")))
          (JS.max (JS.parseFloat "70.000000") onePercent))
     = "0.01000000000000004".
Proof. vm_compute. repeat split. Qed.

Lemma value_drift_threshold_witness :
  let last := statusWith [T1] "100.000000" in
  detectChanges (Some last) (statusWith [T1] "101.000000") = false
  /\ detectChanges (Some last) (statusWith [T1] "99.000000") = false
  /\ detectChanges (Some last) (statusWith [T1] "101.010000") = true.
Proof.
  intros last.
  assert (H : forall total,
            let ratio :=
              PrimFloat.div
                (JS.abs (PrimFloat.sub (JS.parseFloat total) (JS.parseFloat "100.000000")))
                (JS.max (JS.parseFloat "100.000000") onePercent) in
            detectChanges (Some last) (statusWith [T1] total) = gt ratio onePercent
            /\ (ratio = onePercent ->
                detectChanges (Some last) (statusWith [T1] total) = false)).
  { intros total.
    pose proof (value_drift_threshold last (statusWith [T1] total)
                  ltac:(vm_compute; reflexivity) ltac:(vm_compute; reflexivity)
                  ltac:(vm_compute; reflexivity) ltac:(vm_compute; reflexivity)) as Ht.
    cbv zeta in Ht. destruct Ht as (Ht1 & Ht2 & _). split; [exact Ht1 | exact Ht2]. }
  cbv zeta in H.
  split; [apply (proj2 (H "101.000000")); vm_compute; reflexivity |].
  split; [apply (proj2 (H "99.000000")); vm_compute; reflexivity |].
  rewrite (proj1 (H "101.010000")). vm_compute. reflexivity.
Defined.

(** C7, as stated, fails: on the first tick over two positions the
    monitor logs the polling line and calls [onUpdate], and classifies
    nothing; the same snapshot against an empty previous one is reported
    with both positions as added. *)
Lemma bootstrap_builds_no_lists :
  let status :=
    statusOf "0xTarget"
      (PolymarketClient.userPositionsOf "0xTarget" [T1; T2] "2024-01-01T00:00:30.000Z")
      "2024-01-01T00:00:30.000Z" in
  TradingStatus.openPositions status = [T1; T2]
  /\ detectChanges None status = true
  /\ events (fst (updateStatus (serving [T1; T2]) Examples.options (monitoring None)))
     = [LogPolling 2; CallOnUpdate status]
  /\ events (fst (updateStatus (serving [T1; T2]) Examples.options
                    (monitoring (Some (statusWith [] "0")))))
     = [DebugLine (CountChanged 0 2); LogPolling 2;
        LogChanges {| added := [T1; T2]; updated := []; removed := [];
                      countChange := Some (0%nat, 2%nat) |};
        CallOnUpdate status].
Proof. vm_compute. repeat split. Qed.

Lemma bootstrap_reports_change_without_lists_witness :
  let status :=
    statusOf "0xTarget"
      (PolymarketClient.userPositionsOf "0xTarget" [T1; T2] "2024-01-01T00:00:30.000Z")
      "2024-01-01T00:00:30.000Z" in
  let out := updateStatus (serving [T1; T2]) Examples.options (monitoring None) in
  detectChanges None status = true
  /\ lastStatus (fst out) = Some status
  /\ lastPollTime (fst out) = Some 1704067230000%Z
  /\ existsb isLogChanges (events (fst out)) = false.
Proof.
  intros status out.
  pose proof (bootstrap_reports_change_without_lists (serving [T1; T2]) Examples.options
                (monitoring None) tt
                (PolymarketClient.userPositionsOf "0xTarget" [T1; T2]
                   "2024-01-01T00:00:30.000Z") eq_refl eq_refl) as H.
  cbv zeta in H. destruct H as (H1 & _ & H3 & H4 & _ & H6).
  split; [exact H1 |]. split; [exact H3 |].
  split; [refine (eq_trans H4 _); vm_compute; reflexivity |].
  apply (H6 (events (fst out))). reflexivity.
Defined.

(** C8, as stated, fails: 100000 shares at 0.00004 pass the guards with a
    notional of 4, and the simulated result echoes the price as "0.0000",
    which is not the computed trade price. *)
Lemma dry_run_echo_is_rounded :
  firstFailing dryConfig pennies = None
  /\ snd (executeBuy gateway dryConfig pennies fresh) = Normal (simulated dryConfig pennies)
  /\ TradeExecutionResult.executedPrice (simulated dryConfig pennies) = Some "0.0000"
  /\ JS.numberToString (tradePrice pennies) = "0.00004"
  /\ PrimFloat.eqb (JS.parseFloat "0.0000") (tradePrice pennies) = false.
Proof. vm_compute. repeat split. Qed.

Lemma dry_run_result_witness :
  executeBuy gateway dryConfig T1 fresh
  = ({| apiKeyCreated := false; TradeExecutor.world := tt;
        TradeExecutor.events := [CallOnTradeExecuted (simulated dryConfig T1)] |},
     Normal (simulated dryConfig T1))
  /\ executeSell gateway dryConfig T1 fresh
     = ({| apiKeyCreated := false; TradeExecutor.world := tt;
           TradeExecutor.events := [CallOnTradeExecuted (simulated dryConfig T1)] |},
        Normal (simulated dryConfig T1))
  /\ TradeExecutionResult.executedQuantity (simulated dryConfig T1) = Some "100.0000"
  /\ TradeExecutionResult.executedPrice (simulated dryConfig T1) = Some "0.5000".
Proof.
  assert (Hid : Position.id T1 <> "") by (vm_compute; discriminate).
  pose proof (dry_run_result gateway dryConfig T1 fresh eq_refl Hid) as H.
  cbv zeta beta in H. destruct H as (HB & HS & _).
  assert (Hg : firstFailing dryConfig T1 = None) by (vm_compute; reflexivity).
  destruct (HB Hg) as (_ & _ & _ & HB' & _). destruct HS as (_ & _ & _ & HS' & _).
  split; [rewrite (HB' eq_refl); vm_compute; reflexivity |].
  split; [rewrite (HS' eq_refl); vm_compute; reflexivity |].
  split; vm_compute; reflexivity.
Defined.

(** C9, as stated, fails for a throwing callback: when the success
    callback throws, the result returned keeps success = true next to the
    error; when the failure callback throws, the call itself throws. *)
Lemma throwing_callbacks_escape :
  snd (executeBuy gateway throwingObserver T1 fresh)
  = Normal (withError (simulated throwingObserver T1) "observer failed")
  /\ TradeExecutionResult.success
       (withError (simulated throwingObserver T1) "observer failed") = true
  /\ snd (executeBuy gateway throwingHandler (positionOf "" "100" "0.5" "50") fresh)
     = Throw {| message := "handler failed" |}
  /\ snd (executeSell gateway throwingHandler (positionOf "" "100" "0.5" "50") fresh)
     = Throw {| message := "handler failed" |}.
Proof. vm_compute. repeat split. Qed.

Lemma thrown_errors_are_caught_witness :
  executeBuy downGateway liveConfig T1 fresh
  = ({| apiKeyCreated := false; TradeExecutor.world := tt;
        TradeExecutor.events :=
          [CallCreateOrDeriveApiKey;
           CallOnTradeError (initializationError {| message := "no credentials" |}) T1] |},
     Normal (rejected liveConfig T1 "Failed to initialize trade executor: no credentials"))
  /\ snd (executeSell rejectingGateway liveConfig T1 fresh)
     = Normal (rejected liveConfig T1 "order rejected")
  /\ snd (executeBuy gateway liveConfig (positionOf "" "100" "0.5" "50") fresh)
     = Normal (rejected liveConfig (positionOf "" "100" "0.5" "50")
                        "Position ID (token ID) is missing").
Proof.
  assert (Hid : Position.id T1 <> "") by (vm_compute; discriminate).
  pose proof (thrown_errors_are_caught downGateway liveConfig T1 fresh) as HD.
  pose proof (thrown_errors_are_caught rejectingGateway liveConfig T1 fresh) as HR.
  pose proof (thrown_errors_are_caught gateway liveConfig
                (positionOf "" "100" "0.5" "50") fresh) as HM.
  cbv zeta beta in HD, HR, HM.
  destruct HD as (_ & HD & _). destruct HR as (_ & _ & HR). destruct HM as (HM & _).
  split; [| split].
  - destruct (HD Hid eq_refl eq_refl tt {| message := "no credentials" |} eq_refl)
      as (HD1 & _).
    rewrite (HD1 ltac:(vm_compute; reflexivity) tt eq_refl). reflexivity.
  - destruct (HR Hid eq_refl
                {| apiKeyCreated := true; TradeExecutor.world := tt;
                   TradeExecutor.events := [CallCreateOrDeriveApiKey] |}
                tt {| message := "order rejected" |} eq_refl) as (_ & HR2).
    rewrite (HR2 eq_refl tt eq_refl). reflexivity.
  - destruct (HM eq_refl) as (HM1 & _).
    rewrite (HM1 tt eq_refl). reflexivity.
Defined.

(** C10, as stated, fails: a position whose value parses to Infinity
    gives the total "Infinity", and a total of 10^21 is rendered "1e+21":
    neither has six fraction digits. *)
Lemma huge_total_has_no_fraction_digits :
  PolymarketClient.calculateTotalValue [positionOf "T3" "1" "1" "Infinity"] = "Infinity"
  /\ isFixedDecimal 6 "Infinity" = false
  /\ PolymarketClient.calculateTotalValue [positionOf "T3" "1" "1" "1e21"] = "1e+21"
  /\ isFixedDecimal 6 "1e+21" = false.
Proof. vm_compute. repeat split. Qed.

Lemma total_value_is_rendered_sum_witness :
  PolymarketClient.calculateTotalValue
    [T1; T2; positionOf "T4" "1" "1" "n/a"; positionOf "T5" "1" "1" ""]
  = "50.250000"
  /\ isFixedDecimal 6 "50.250000" = true.
Proof.
  pose proof (total_value_is_rendered_sum "0xTarget" "2024-01-01T00:00:30.000Z"
                [T1; T2; positionOf "T4" "1" "1" "n/a"; positionOf "T5" "1" "1" ""]) as H.
  destruct H as (_ & H & H').
  split; [rewrite H; vm_compute; reflexivity |].
  assert (R : rendersFixed (sumOfValues [T1; T2; positionOf "T4" "1" "1" "n/a";
                                          positionOf "T5" "1" "1" ""]) = true)
    by (vm_compute; reflexivity).
  specialize (H' R). rewrite H in H'. vm_compute in H'. vm_compute. reflexivity.
Defined.
End Runs.

Section MoreRuns.
Import Examples Snapshots Detector Guards Orders Attempts.

Lemma unparsable_quantity_passes_trade_guards_witness :
  firstFailing dryConfig unparsable = None
  /\ TradeExecutionResult.executedQuantity (simulated dryConfig unparsable) = Some "NaN"
  /\ snd (TradeExecutor.executeBuy gateway dryConfig unparsable fresh)
     = Normal (simulated dryConfig unparsable).
Proof.
  assert (Hq : JS.isNaN (JS.parseFloat (Position.quantity unparsable)) = true)
    by (vm_compute; reflexivity).
  pose proof (unparsable_quantity_passes_trade_guards gateway dryConfig unparsable fresh Hq)
    as (_ & _ & H1 & _ & H2).
  assert (Hid : Position.id unparsable <> "") by (vm_compute; discriminate).
  assert (Hp : fails dryConfig PositionTooLarge unparsable = false)
    by (vm_compute; reflexivity).
  assert (Hr : snd (TradeExecutor.executeBuy gateway dryConfig unparsable fresh)
               = Normal (simulated dryConfig unparsable)) by (vm_compute; reflexivity).
  destruct (H2 Hid Hp) as (H3 & _).
  destruct (H3 eq_refl _ Hr) as (_ & H4).
  split; [rewrite H1, Hp; reflexivity |]. split; [exact H4 | exact Hr].
Defined.

Lemma default_limits_never_reject_witness :
  firstFailing (TradeExecutor.requiredConfig minimalInput) whale = None.
Proof.
  pose proof (default_limits_never_reject minimalInput whale eq_refl eq_refl) as H.
  cbv zeta in H. destruct H as (_ & _ & H & _).
  rewrite H. vm_compute. reflexivity.
Defined.

Lemma returned_result_shape_witness :
  let r := TradeExecutor.withExecution (TradeExecutor.initialResult liveConfig T1)
             (Some "order-1") "100.0000" "0.5000" in
  snd (TradeExecutor.executeBuy gateway liveConfig T1 fresh) = Normal r
  /\ TradeExecutionResult.transactionHash r = None
  /\ TradeExecutionResult.executedQuantity r = Some "100.0000".
Proof.
  intros r.
  assert (Hr : snd (TradeExecutor.executeBuy gateway liveConfig T1 fresh) = Normal r)
    by (vm_compute; reflexivity).
  pose proof (returned_result_shape gateway liveConfig TradeExecutor.BUY T1 fresh r Hr)
    as (_ & _ & H1 & H2 & _).
  split; [exact Hr |]. split; [exact H1 |].
  destruct (H2 eq_refl) as (H3 & _). rewrite H3. vm_compute. reflexivity.
Defined.

Lemma unchanged_positions_are_not_reported_witness :
  let last := statusWith [T1] "50.000000" in
  let out := AccountMonitor.updateStatus (serving [repriced]) Examples.options
               (monitoring (Some last)) in
  snd out = Normal tt /\ AccountMonitor.lastStatus (fst out) = Some last.
Proof.
  intros last out.
  pose proof (unchanged_positions_are_not_reported (serving [repriced]) Examples.options
                (monitoring (Some last)) last tt
                (PolymarketClient.userPositionsOf "0xTarget" [repriced]
                   "2024-01-01T00:00:30.000Z")
                eq_refl eq_refl) as H.
  assert (Hp : map (fun p => (Position.id p, JS.parseFloat (Position.quantity p))) [repriced]
               = map (fun p => (Position.id p, JS.parseFloat (Position.quantity p))) [T1])
    by (vm_compute; reflexivity).
  assert (Hv : JS.parseFloat (PolymarketClient.calculateTotalValue [repriced])
               = JS.parseFloat "50.000000") by (vm_compute; reflexivity).
  specialize (H Hp Hv). cbv zeta in H. destruct H as (_ & H1 & H2 & _).
  split; [exact H1 | exact H2].
Defined.

Lemma restart_keeps_snapshot_witness :
  let last := statusWith [T1] "50.000000" in
  let stopped := fst (AccountMonitor.stop (monitoring (Some last))) in
  let restarted := AccountMonitor.start (serving [repriced]) Examples.options stopped in
  AccountMonitor.isMonitoring stopped = false
  /\ AccountMonitor.pollIntervalId stopped = None
  /\ AccountMonitor.events stopped
     = [AccountMonitor.CallClearInterval (AccountMonitor.Interval 30000);
        AccountMonitor.LogStopped]
  /\ AccountMonitor.isMonitoring (fst restarted) = true
  /\ AccountMonitor.lastStatus (fst restarted) = Some last
  /\ AccountMonitor.pollIntervalId (fst restarted)
     = Some (AccountMonitor.Interval 30000).
Proof.
  intros last stopped restarted.
  pose proof (restart_keeps_snapshot (serving [repriced]) Examples.options
                (monitoring (Some last)) last tt
                (PolymarketClient.userPositionsOf "0xTarget" [repriced]
                   "2024-01-01T00:00:30.000Z")
                eq_refl eq_refl eq_refl) as H.
  assert (Hp : map (fun p => (Position.id p, JS.parseFloat (Position.quantity p))) [repriced]
               = map (fun p => (Position.id p, JS.parseFloat (Position.quantity p))) [T1])
    by (vm_compute; reflexivity).
  assert (Hv : JS.parseFloat (PolymarketClient.calculateTotalValue [repriced])
               = JS.parseFloat "50.000000") by (vm_compute; reflexivity).
  specialize (H Hp Hv). cbv zeta in H.
  destruct H as (H1 & _ & H2 & _ & _ & H3 & _ & _ & H4 & H5 & H6 & _).
  split; [exact H1 |]. split; [exact H2 |]. split; [exact H3 |].
  split; [exact H4 |]. split; [exact H5 | exact H6].
Defined.

Lemma attempted_trades_are_the_new_and_the_held_witness :
  bought (CopyTradingMonitor.console
            (fst (CopyTradingMonitor.handleStatusUpdate gateway dryConfig wallClock
                    (statusWith [T1; T2] "50.25") copier)))
  = [T1; T2].
Proof.
  assert (K : keyed (CopyTradingMonitor.targetPositions copier)).
  { split; [constructor | intros k p []]. }
  pose proof (attempted_trades_are_the_new_and_the_held gateway dryConfig wallClock
                (statusWith [T1; T2] "50.25") copier K) as H.
  cbv zeta in H. destruct H as (new & H1 & H2 & _).
  rewrite H1. change (CopyTradingMonitor.console copier) with (@nil CopyTradingMonitor.Event).
  cbn [app]. rewrite H2. vm_compute. reflexivity.
Defined.
End MoreRuns.

Section WiringRuns.
Import Examples Snapshots Detector Guards Orders Attempts.

Lemma disabled_monitor_never_trades_witness :
  let out := CopyTradingMonitor.start (serving [T1; T2]) gateway plainOptions disabledInput
               (wired disabledInput) in
  TradeExecutor.events
    (CopyTradingMonitor.tradeExecutor (AccountMonitor.world (fst out))) = []
  /\ CopyTradingMonitor.targetPositions (AccountMonitor.world (fst out)) = [].
Proof.
  intros out.
  pose proof (disabled_monitor_never_trades (serving [T1; T2]) gateway plainOptions
                disabledInput (wired disabledInput) eq_refl) as (_ & H & _).
  destruct H as (_ & _ & H1 & _ & H2 & _).
  split; [exact H2 | exact H1].
Defined.

Lemma tick_hands_changes_to_copy_trading_witness :
  bought (CopyTradingMonitor.console
            (AccountMonitor.world
               (fst (CopyTradingMonitor.tick (serving [T1; T2]) gateway plainOptions
                       dryInput (wired dryInput)))))
  = [T1; T2].
Proof.
  pose proof (tick_hands_changes_to_copy_trading (serving [T1; T2]) gateway plainOptions
                dryInput (wired dryInput) eq_refl) as H.
  cbv zeta in H. destruct H as (status & Hs & _ & H).
  assert (D : AccountMonitor.detectChanges
                (AccountMonitor.lastStatus (wired dryInput)) status = true) by reflexivity.
  destruct (H D) as (_ & _ & W). rewrite W, Hs. vm_compute. reflexivity.
Defined.

Lemma start_needs_the_api_key_in_live_mode_witness :
  let out := CopyTradingMonitor.start (serving [T1; T2]) downGateway plainOptions
               minimalInput (wired minimalInput) in
  snd out = Throw {| message := "Failed to initialize trade executor: no credentials" |}
  /\ AccountMonitor.isMonitoring (fst out) = false
  /\ AccountMonitor.events (fst out) = [].
Proof.
  intros out.
  pose proof (start_needs_the_api_key_in_live_mode (serving [T1; T2]) downGateway
                plainOptions minimalInput (wired minimalInput) eq_refl) as H.
  cbv zeta in H. destruct H as (_ & H).
  assert (L : CopyTradingInput.dryRun minimalInput <> Some true) by discriminate.
  specialize (H L). subst out.
  change (TradeExecutor.createOrDeriveApiKey downGateway
            (worldOf (AccountMonitor.world (wired minimalInput))))
    with (tt, @Throw unit {| message := "no credentials" |}) in H.
  cbv iota in H. rewrite H. repeat split.
Defined.

End WiringRuns.

Section FetchRuns.
Import Examples PolymarketClient Paging.

Lemma full_pages_stop_at_ten_witness :
  exists s10 allPositions,
    pages (answering (Http.Items fullPage)) typeErrorText (primaryRequest "0xTarget")
      10 0 [] idle
    = (s10, inl (Http.Items allPositions))
    /\ requests s10
       = (requests idle ++ map (primaryRequest "0xTarget") (pageNumbers 10))%list
    /\ (1000 <= List.length allPositions)%nat
    /\ requests
         (fst (getUserPositions (answering (Http.Items fullPage)) clock isoOf
                 typeErrorText rangeErrorText "0xTarget" idle))
       = requests s10.
Proof.
  apply (full_pages_stop_at_ten (answering (Http.Items fullPage)) clock isoOf
           typeErrorText rangeErrorText "0xTarget" idle).
  intros page w _. exists (Http.Items fullPage), fullPage.
  split; [reflexivity |]. split; [reflexivity |]. vm_compute. discriminate.
Defined.

Lemma fetched_positions_are_normalised_witness :
  snd (getUserPositions (answering (Http.Items [Some holding; None; Some bare])) clock
         isoOf typeErrorText rangeErrorText "0xTarget" idle)
  = Normal
      {| FetchedPositions.user := "0xTarget";
         FetchedPositions.positions :=
           [normalized holding (JS.VString "2024-01-01T00:00:00.000Z");
            normalized bare (JS.VString "2024-01-01T00:00:30.000Z")];
         FetchedPositions.totalValue := "60.000000";
         FetchedPositions.timestamp := "2024-01-01T00:00:30.000Z" |}.
Proof.
  rewrite (fetched_positions_are_normalised
             (answering (Http.Items [Some holding; None; Some bare])) clock isoOf
             typeErrorText rangeErrorText "0xTarget" idle
             (sent idle (primaryRequest "0xTarget" 0) tt)
             (Http.Items [Some holding; None; Some bare])
             (or_introl eq_refl)).
  vm_compute. reflexivity.
Defined.


Lemma both_endpoints_failing_witness :
  snd (getUserPositions (rejecting 500 404) clock isoOf typeErrorText rangeErrorText
         "0xTarget" idle)
  = Normal {| FetchedPositions.user := "0xTarget";
              FetchedPositions.positions := [];
              FetchedPositions.totalValue := "0";
              FetchedPositions.timestamp := "2024-01-01T00:00:30.000Z" |}
  /\ snd (getUserPositions (rejecting 500 503) clock isoOf typeErrorText rangeErrorText
            "0xTarget" idle)
     = Throw (failedToFetch "Request failed").
Proof.
  split.
  - rewrite (both_endpoints_failing (rejecting 500 404) clock isoOf typeErrorText
               rangeErrorText "0xTarget" idle
               (sent idle (primaryRequest "0xTarget" 0) tt)
               (sent (sent idle (primaryRequest "0xTarget" 0) tt)
                  (alternativeRequest "0xTarget" 0) tt)
               (rejected 500) (rejected 404) eq_refl eq_refl).
    reflexivity.
  - rewrite (both_endpoints_failing (rejecting 500 503) clock isoOf typeErrorText
               rangeErrorText "0xTarget" idle
               (sent idle (primaryRequest "0xTarget" 0) tt)
               (sent (sent idle (primaryRequest "0xTarget" 0) tt)
                  (alternativeRequest "0xTarget" 0) tt)
               (rejected 500) (rejected 503) eq_refl eq_refl).
    reflexivity.
Defined.
End FetchRuns.
